(** * Patient monitor: gesture hold tracker, presence tracker, alert arbiter

    Shallow embedding of the decision logic of the two scripts

      - [Gesture/gesture_fall_storke.py]  (module [FallStroke] below)
      - [Gesture/only_gesture.py]         (module [OnlyGesture] below)

    Conventions of the embedding.

    - Python floats (timestamps returned by [time.time()], landmark
      coordinates, the three thresholds) are idealised as rationals [Q];
      comparisons are the boolean ones of [QArith].  Rounding of float
      arithmetic and the special values (NaN, infinities) are outside the model.
    - Every call of [time.time()] is an input of the function that performs
      it: the value the call returns is passed as an argument.
    - Module-level variables assigned in the main loop are the fields of a
      [State] record; variables re-initialised at the top of each iteration
      ([status_color], [top_alert_text], [countdown_text]) are locals threaded
      through the three modules of one iteration.
    - An uncaught Python exception ([IndexError] on a landmark list that is
      too short, a missing handedness entry) is the result [None].
    - Gesture labels and texts are Python strings, here [string]; an optional
      label ([None] in Python) is [option string].
    - A BGR colour triple is a triple of [Z]. *)

From Stdlib Require Import QArith Qround Qabs ZArith String List Bool Lia.
From Stdlib Require Import DecimalString Lqa.
Import ListNotations.

Open Scope string_scope.
Open Scope Z_scope.
Open Scope Q_scope.

(* ------------------------------------------------------------------ *)
(** ** Python primitives used by the scripts *)

(** [a > b] on floats. *)
Definition Qgtb (a b : Q) : bool := negb (Qle_bool a b).

(** [a < b] on floats. *)
Definition Qltb (a b : Q) : bool := negb (Qle_bool b a).

(** [int(q)]: truncation towards zero. *)
Definition py_int (q : Q) : Z :=
  if Qle_bool 0 q then Qfloor q else Qceiling q.

(** [math.ceil(q)]. *)
Definition math_ceil (q : Q) : Z := Qceiling q.

(** [str(n)] for a Python integer, as used by an f-string. *)
Definition py_str (n : Z) : string := NilZero.string_of_int (Z.to_int n).

(** [sub in s] on strings: [sub] occurs in [s] as a contiguous substring. *)
Fixpoint py_in (sub s : string) : bool :=
  String.prefix sub s ||
  match s with
  | EmptyString => false
  | String _ s' => py_in sub s'
  end.

(** Truthiness of a string: non-empty. *)
Definition truthy_str (s : string) : bool :=
  match s with EmptyString => false | String _ _ => true end.

(** Truthiness of an optional string ([None] and [""] are falsy). *)
Definition truthy_opt (g : option string) : bool :=
  match g with Some s => truthy_str s | None => false end.

(** [g == current] where [g] is a string and [current] a string or [None]. *)
Definition eq_opt_str (g : string) (current : option string) : bool :=
  match current with Some c => String.eqb g c | None => false end.

(** [f == [a, b, c, d, e]] on lists of integers. *)
Fixpoint list_Z_eqb (f g : list Z) : bool :=
  match f, g with
  | [], [] => true
  | a :: f', b :: g' => Z.eqb a b && list_Z_eqb f' g'
  | _, _ => false
  end.

Definition Color : Type := (Z * Z * Z)%type.
Definition GREEN : Color := (0, 255, 0)%Z.
Definition RED : Color := (0, 0, 255)%Z.

(* ------------------------------------------------------------------ *)
(** ** Landmarks and finger status (identical in both scripts) *)

Record Landmark : Type := mkLandmark { x : Q; y : Q }.

(** [hand.landmark]: the list of landmarks of one detected hand. *)
Definition Hand : Type := list Landmark.

Definition TIP_IDS : list nat := [4; 8; 12; 16; 20]%nat.

(** [1 if c else 0]. *)
Definition bit (c : bool) : Z := if c then 1%Z else 0%Z.

(** Thumb bit: [lm[4].x < lm[3].x] for a hand labelled ["Left"],
    [lm[4].x > lm[3].x] otherwise. *)
Definition thumb_status (lm : Hand) (label : string) : option Z :=
  match nth_error lm 4, nth_error lm 3 with
  | Some tip, Some ip =>
      if String.eqb label "Left"
      then Some (bit (Qltb (x tip) (x ip)))
      else Some (bit (Qgtb (x tip) (x ip)))
  | _, _ => None
  end.

(** One iteration of [for i in range(1, 5)]:
    [1 if lm[TIP_IDS[i]].y < lm[TIP_IDS[i]-2].y else 0]. *)
Definition finger_status (lm : Hand) (i : nat) : option Z :=
  match nth_error TIP_IDS i with
  | Some tip =>
      match nth_error lm tip, nth_error lm (tip - 2) with
      | Some t, Some p => Some (bit (Qltb (y t) (y p)))
      | _, _ => None
      end
  | None => None
  end.

(** The loop [for i in range(1, 5): fingers.append(...)]. *)
Fixpoint four_fingers (lm : Hand) (idxs : list nat) : option (list Z) :=
  match idxs with
  | [] => Some []
  | i :: rest =>
      match finger_status lm i with
      | Some b =>
          match four_fingers lm rest with
          | Some bs => Some (b :: bs)
          | None => None
          end
      | None => None
      end
  end.

(** [get_fingers_status(hand, label)]: [[Thumb, Index, Middle, Ring, Pinky]]. *)
Definition get_fingers_status (hand : Hand) (label : string) : option (list Z) :=
  match thumb_status hand label with
  | Some t =>
      match four_fingers hand [1; 2; 3; 4]%nat with
      | Some rest => Some (t :: rest)
      | None => None
      end
  | None => None
  end.

(** The 32 vectors of five bits. *)
Definition all_finger_vectors : list (list Z) :=
  let bits := [0%Z; 1%Z] in
  flat_map (fun a =>
  flat_map (fun b =>
  flat_map (fun c =>
  flat_map (fun d =>
  map (fun e => [a; b; c; d; e]) bits) bits) bits) bits) bits.

(** A finger vector as [get_fingers_status] builds it. *)
Definition is_finger_vector (f : list Z) : Prop :=
  length f = 5%nat /\ Forall (fun b => b = 0%Z \/ b = 1%Z) f.

(* ------------------------------------------------------------------ *)
(** ** [gesture_fall_storke.py] *)

Module FallStroke.

(** *** Configuration and thresholds *)

Definition BODY_MISSING_THRESHOLD : Q := 5.
Definition FACE_ASYMMETRY_THRESHOLD : Q := 3 # 100.
Definition GESTURE_HOLD_TIME : Q := 3.

(** *** Helper functions *)

(** [identify_gesture(f)]: a chain of [if f == [...]: return ...]. *)
Definition identify_gesture (f : list Z) : option string :=
  if list_Z_eqb f [1; 0; 0; 0; 0]%Z then Some "THUMB_EMERGENCY" else
  if list_Z_eqb f [1; 1; 0; 0; 0]%Z then Some "Need Water/Food" else
  if list_Z_eqb f [0; 1; 0; 0; 0]%Z then Some "Want Restroom" else
  if list_Z_eqb f [0; 0; 1; 1; 1]%Z then Some "Want Medicine" else
  if list_Z_eqb f [1; 0; 1; 1; 1]%Z then Some "Adjust Position" else
  if list_Z_eqb f [0; 1; 1; 0; 0]%Z then Some "Call Caregiver" else
  if list_Z_eqb f [1; 1; 1; 0; 0]%Z then Some "Uncomfortable" else
  None.

(** The labels [identify_gesture] can return. *)
Definition gesture_labels : list string :=
  [ "THUMB_EMERGENCY"; "Need Water/Food"; "Want Restroom"; "Want Medicine";
    "Adjust Position"; "Call Caregiver"; "Uncomfortable" ].

(** [get_mouth_asymmetry(face_landmarks)]; landmarks 61, 291 and 1 are the
    left mouth corner, the right mouth corner and the nose tip. *)
Definition get_mouth_asymmetry (face_landmarks : list Landmark) : option Q :=
  match nth_error face_landmarks 61,
        nth_error face_landmarks 291,
        nth_error face_landmarks 1 with
  | Some left_mouth, Some right_mouth, Some nose =>
      let left_rel := Qabs (y left_mouth - y nose) in
      let right_rel := Qabs (y right_mouth - y nose) in
      Some (Qabs (left_rel - right_rel))
  | _, _, _ => None
  end.

(** *** State variables (module level) *)

Record State : Type := mkState {
  body_missing_start : option Q;
  fall_alert_active : bool;
  current_gesture : option string;
  gesture_start_time : Q;
  confirmed_text : string
}.

Definition initial_state : State :=
  mkState None false None 0 "Monitoring Active".

Definition set_body_missing_start (v : option Q) (s : State) : State :=
  mkState v (fall_alert_active s) (current_gesture s)
          (gesture_start_time s) (confirmed_text s).

Definition set_fall_alert_active (v : bool) (s : State) : State :=
  mkState (body_missing_start s) v (current_gesture s)
          (gesture_start_time s) (confirmed_text s).

Definition set_current_gesture (v : option string) (s : State) : State :=
  mkState (body_missing_start s) (fall_alert_active s) v
          (gesture_start_time s) (confirmed_text s).

Definition set_gesture_start_time (v : Q) (s : State) : State :=
  mkState (body_missing_start s) (fall_alert_active s) (current_gesture s)
          v (confirmed_text s).

Definition set_confirmed_text (v : string) (s : State) : State :=
  mkState (body_missing_start s) (fall_alert_active s) (current_gesture s)
          (gesture_start_time s) v.

(** *** Variables of one loop iteration

    [status_color], [top_alert_text] and [countdown_text] are reset at the
    top of every iteration.  [searching_drawn] and [countdowns_drawn] record
    the texts that the iteration has written on the frame with
    [cv2.putText] before the final composition (positions are left out). *)

Record Iter : Type := mkIter {
  status_color : Color;
  top_alert_text : string;
  countdown_text : string;
  searching_drawn : option string;
  countdowns_drawn : list string
}.

Definition iter_start : Iter := mkIter GREEN "" "" None [].

Definition set_status_color (v : Color) (it : Iter) : Iter :=
  mkIter v (top_alert_text it) (countdown_text it)
         (searching_drawn it) (countdowns_drawn it).

Definition set_top_alert_text (v : string) (it : Iter) : Iter :=
  mkIter (status_color it) v (countdown_text it)
         (searching_drawn it) (countdowns_drawn it).

(** [countdown_text = v] followed by [cv2.putText(frame, countdown_text, ...)]. *)
Definition set_countdown_text (v : string) (it : Iter) : Iter :=
  mkIter (status_color it) (top_alert_text it) v
         (searching_drawn it) (countdowns_drawn it ++ [v]).

Definition draw_searching (v : string) (it : Iter) : Iter :=
  mkIter (status_color it) (top_alert_text it) (countdown_text it)
         (Some v) (countdowns_drawn it).

(** *** One frame as the perception provider reports it, with the clock *)

Record Frame : Type := mkFrame {
  (** truthiness of [pose_results.pose_landmarks] *)
  pose_landmarks : bool;
  (** [face_results.multi_face_landmarks], each face being its [.landmark]
      list; the empty list stands for [None] *)
  multi_face_landmarks : list (list Landmark);
  (** [hand_results.multi_hand_landmarks]; the empty list stands for [None] *)
  multi_hand_landmarks : list Hand;
  (** [hand_results.multi_handedness], each entry being its
      [classification[0].label] *)
  multi_handedness : list string;
  (** value of [time.time()] where [body_missing_start] is assigned *)
  t_missing_start : Q;
  (** value of [time.time()] where [elapsed] is computed *)
  t_elapsed : Q;
  (** value of [time.time()] in iteration [idx] of the loop over the hands *)
  t_hand : nat -> Q
}.

(** *** Module A: fall detection *)

Definition fall_module (s : State) (it : Iter) (body : bool)
    (t_start t_now : Q) : State * Iter :=
  if negb body then
    let since :=
      match body_missing_start s with
      | None => t_start
      | Some t0 => t0
      end in
    let s1 := set_body_missing_start (Some since) s in
    let elapsed := t_now - since in
    if Qgtb elapsed BODY_MISSING_THRESHOLD then
      (set_fall_alert_active true s1,
       set_status_color RED
         (set_top_alert_text "FALL DETECTED / PATIENT MISSING" it))
    else
      (s1,
       draw_searching
         ("Searching Body: "
            ++ py_str (py_int (BODY_MISSING_THRESHOLD - elapsed)) ++ "s") it)
  else
    (set_fall_alert_active false (set_body_missing_start None s), it).

(** *** Module B: stroke detection *)

Definition stroke_module (it : Iter) (faces : list (list Landmark))
    : option Iter :=
  match faces with
  | [] => Some it
  | face_lm :: _ =>
      match get_mouth_asymmetry face_lm with
      | None => None
      | Some asymmetry =>
          if Qgtb asymmetry FACE_ASYMMETRY_THRESHOLD then
            if String.eqb (top_alert_text it) "" then
              Some (set_status_color RED
                      (set_top_alert_text "POSSIBLE STROKE DETECTED" it))
            else Some it
          else Some it
      end
  end.

(** *** Module C: gesture recognition *)

(** The block [if gesture: ... else: current_gesture = None] of one hand. *)
Definition gesture_block (s : State) (it : Iter) (gesture : option string)
    (now : Q) : State * Iter :=
  if truthy_opt gesture then
    let g := match gesture with Some g => g | None => "" end in
    if eq_opt_str g (current_gesture s) then
      let hold_duration := now - gesture_start_time s in
      let seconds_left := math_ceil (GESTURE_HOLD_TIME - hold_duration) in
      if Qgtb hold_duration GESTURE_HOLD_TIME then
        if String.eqb g "THUMB_EMERGENCY" then
          (set_confirmed_text "EMERGENCY: THUMB TRIGGERED" s,
           set_status_color RED it)
        else
          let s' := set_confirmed_text g s in
          if negb (py_in "EMERGENCY" (confirmed_text s'))
          then (s', set_status_color GREEN it)
          else (s', it)
      else
        (s, set_countdown_text ("Holding: " ++ py_str seconds_left ++ "s") it)
    else
      (set_gesture_start_time now (set_current_gesture (Some g) s), it)
  else
    (set_current_gesture None s, it).

(** The body of [for idx, hand_lm in enumerate(...)]. *)
Definition hand_iteration (s : State) (it : Iter) (handedness : list string)
    (idx : nat) (hand_lm : Hand) (now : Q) : option (State * Iter) :=
  match nth_error handedness idx with
  | None => None
  | Some label =>
      match get_fingers_status hand_lm label with
      | None => None
      | Some fingers =>
          Some (gesture_block s it (identify_gesture fingers) now)
      end
  end.

Fixpoint hand_loop (s : State) (it : Iter) (handedness : list string)
    (clock : nat -> Q) (idx : nat) (hands : list Hand)
    : option (State * Iter) :=
  match hands with
  | [] => Some (s, it)
  | hand_lm :: rest =>
      match hand_iteration s it handedness idx hand_lm (clock idx) with
      | None => None
      | Some (s', it') => hand_loop s' it' handedness clock (S idx) rest
      end
  end.

Definition gesture_module (s : State) (it : Iter) (hands : list Hand)
    (handedness : list string) (clock : nat -> Q) : option (State * Iter) :=
  match hands with
  | [] => Some (set_current_gesture None s, it)
  | _ :: _ => hand_loop s it handedness clock 0 hands
  end.

(** *** Final display composition *)

Record Display : Type := mkDisplay {
  (** text of the ["Searching Body"] overlay, when drawn *)
  searching : option string;
  (** countdown texts drawn next to the hands *)
  countdowns : list string;
  (** the alert line, when drawn *)
  banner : option string;
  (** the status line and its colour *)
  status_line : string;
  display_color : Color
}.

Definition compose_display (s : State) (it : Iter) : Display :=
  mkDisplay
    (searching_drawn it)
    (countdowns_drawn it)
    (if truthy_str (top_alert_text it)
     then Some ("ALERT: " ++ top_alert_text it) else None)
    ("Status: " ++ confirmed_text s)
    (if py_in "EMERGENCY" (confirmed_text s) then RED else status_color it).

(** *** One iteration of the main loop on a frame that was read *)

Definition frame_step (s : State) (fr : Frame) : option (State * Display) :=
  let '(s1, it1) :=
    fall_module s iter_start (pose_landmarks fr)
                (t_missing_start fr) (t_elapsed fr) in
  match stroke_module it1 (multi_face_landmarks fr) with
  | None => None
  | Some it2 =>
      match gesture_module s1 it2 (multi_hand_landmarks fr)
                           (multi_handedness fr) (t_hand fr) with
      | None => None
      | Some (s3, it3) => Some (s3, compose_display s3 it3)
      end
  end.

(** [success, frame = cap.read(); if not success: continue]. *)
Definition main_loop_iteration (s : State) (read : option Frame)
    : option (State * option Display) :=
  match read with
  | None => Some (s, None)
  | Some fr =>
      match frame_step s fr with
      | Some (s', d) => Some (s', Some d)
      | None => None
      end
  end.

(** *** Vocabulary for the statements about this script *)

(** The pattern table that the chain of tests in [identify_gesture] spells
    out, first match first. *)
Definition gesture_table : list (list Z * string) :=
  [ ([1; 0; 0; 0; 0]%Z, "THUMB_EMERGENCY");
    ([1; 1; 0; 0; 0]%Z, "Need Water/Food");
    ([0; 1; 0; 0; 0]%Z, "Want Restroom");
    ([0; 0; 1; 1; 1]%Z, "Want Medicine");
    ([1; 0; 1; 1; 1]%Z, "Adjust Position");
    ([0; 1; 1; 0; 0]%Z, "Call Caregiver");
    ([1; 1; 1; 0; 0]%Z, "Uncomfortable") ].

(** The status text under which a confirmed gesture is shown. *)
Definition status_of (g : string) : string :=
  if String.eqb g "THUMB_EMERGENCY" then "EMERGENCY: THUMB TRIGGERED" else g.

(** The tracker state after one hand observation, iteration locals dropped. *)
Definition observe (s : State) (gesture : option string) (now : Q) : State :=
  fst (gesture_block s iter_start gesture now).

(** The same label observed on consecutive frames at the given times. *)
Definition hold (s : State) (g : string) (nows : list Q) : State :=
  fold_left (fun st t => observe st (Some g) t) nows s.

(** A body-absent frame, given the two clock readings of the fall module. *)
Definition absent (s : State) (t : Q * Q) : State :=
  fst (fall_module s iter_start false (fst t) (snd t)).

Definition absent_run (s : State) (ts : list (Q * Q)) : State :=
  fold_left absent ts s.

(** The instant from which the fall module measures [elapsed] on a frame. *)
Definition missing_since (s : State) (fr : Frame) : Q :=
  match body_missing_start s with
  | None => t_missing_start fr
  | Some t0 => t0
  end.

(** The gesture block reaches its confirmation branch. *)
Definition confirming (s : State) (gesture : option string) (now : Q) : bool :=
  truthy_opt gesture &&
  eq_opt_str (match gesture with Some g => g | None => "" end)
             (current_gesture s) &&
  Qgtb (now - gesture_start_time s) GESTURE_HOLD_TIME.

(** A frame with at most one hand confirms the gesture of that hand. *)
Definition frame_confirms (s : State) (fr : Frame) : bool :=
  match multi_hand_landmarks fr with
  | [hand_lm] =>
      match nth_error (multi_handedness fr) 0 with
      | Some label =>
          match get_fingers_status hand_lm label with
          | Some fingers =>
              confirming s (identify_gesture fingers) (t_hand fr 0)
          | None => false
          end
      | None => false
      end
  | _ => false
  end.

(** No hand of the frame is classified as a gesture: either no hand is
    reported, or every reported hand has an unknown finger pattern. *)
Definition quiet (fr : Frame) : Prop :=
  forall idx hand_lm label fingers,
    nth_error (multi_hand_landmarks fr) idx = Some hand_lm ->
    nth_error (multi_handedness fr) idx = Some label ->
    get_fingers_status hand_lm label = Some fingers ->
    identify_gesture fingers = None.

(** Frames on which no index raises. *)
Definition well_formed (fr : Frame) : Prop :=
  Forall (fun face => (292 <= length face)%nat) (multi_face_landmarks fr) /\
  Forall (fun hand_lm => (21 <= length hand_lm)%nat) (multi_hand_landmarks fr) /\
  (length (multi_hand_landmarks fr) <= length (multi_handedness fr))%nat.

(** Successive frames, stopping at the first exception. *)
Fixpoint run (s : State) (frs : list Frame) : option State :=
  match frs with
  | [] => Some s
  | fr :: rest =>
      match frame_step s fr with
      | Some (s', _) => run s' rest
      | None => None
      end
  end.

End FallStroke.

(* ------------------------------------------------------------------ *)
(** ** [only_gesture.py] *)

Module OnlyGesture.

Definition GESTURE_HOLD_TIME : Q := 3.

(** [identify_gesture(f)] with the modified mappings. *)
Definition identify_gesture (f : list Z) : option string :=
  if list_Z_eqb f [1; 0; 0; 0; 0]%Z then Some "Adjust Position" else
  if list_Z_eqb f [1; 1; 0; 0; 0]%Z then Some "Need Water/Food" else
  if list_Z_eqb f [0; 1; 0; 0; 0]%Z then Some "Want Restroom" else
  if list_Z_eqb f [0; 0; 1; 1; 1]%Z then Some "Want Medicine" else
  if list_Z_eqb f [0; 1; 1; 0; 0]%Z then Some "Call Caregiver" else
  if list_Z_eqb f [1; 1; 1; 0; 0]%Z then Some "Uncomfortable" else
  None.

(** State variables; here [status_color] is module level too. *)
Record State : Type := mkState {
  current_gesture : option string;
  gesture_start_time : Q;
  confirmed_text : string;
  status_color : Color
}.

Definition initial_state : State :=
  mkState None 0 "Monitoring Active" GREEN.

Definition set_current_gesture (v : option string) (s : State) : State :=
  mkState v (gesture_start_time s) (confirmed_text s) (status_color s).

Definition set_gesture_start_time (v : Q) (s : State) : State :=
  mkState (current_gesture s) v (confirmed_text s) (status_color s).

Definition set_confirmed_text (v : string) (s : State) : State :=
  mkState (current_gesture s) (gesture_start_time s) v (status_color s).

Definition set_status_color (v : Color) (s : State) : State :=
  mkState (current_gesture s) (gesture_start_time s) (confirmed_text s) v.

(** Variables of one loop iteration: [countdown_text] and the countdown
    texts written on the frame. *)
Record Iter : Type := mkIter {
  countdown_text : string;
  countdowns_drawn : list string
}.

Definition iter_start : Iter := mkIter "" [].

Definition set_countdown_text (v : string) (it : Iter) : Iter :=
  mkIter v (countdowns_drawn it ++ [v]).

Record Frame : Type := mkFrame {
  multi_hand_landmarks : list Hand;
  multi_handedness : list string;
  t_hand : nat -> Q
}.

(** The block [if gesture: ... else: current_gesture = None] of one hand. *)
Definition gesture_block (s : State) (it : Iter) (gesture : option string)
    (now : Q) : State * Iter :=
  if truthy_opt gesture then
    let g := match gesture with Some g => g | None => "" end in
    if eq_opt_str g (current_gesture s) then
      let hold_duration := now - gesture_start_time s in
      let seconds_left := math_ceil (GESTURE_HOLD_TIME - hold_duration) in
      if Qgtb hold_duration GESTURE_HOLD_TIME then
        (set_status_color GREEN (set_confirmed_text g s), it)
      else
        (s, set_countdown_text ("Holding: " ++ py_str seconds_left ++ "s") it)
    else
      (set_gesture_start_time now (set_current_gesture (Some g) s), it)
  else
    (set_current_gesture None s, it).

(** The body of the loop over the hands; nothing happens in it when
    [hand_results.multi_handedness] is falsy. *)
Definition hand_iteration (s : State) (it : Iter) (handedness : list string)
    (idx : nat) (hand_lm : Hand) (now : Q) : option (State * Iter) :=
  match handedness with
  | [] => Some (s, it)
  | _ :: _ =>
      match nth_error handedness idx with
      | None => None
      | Some label =>
          match get_fingers_status hand_lm label with
          | None => None
          | Some fingers =>
              Some (gesture_block s it (identify_gesture fingers) now)
          end
      end
  end.

Fixpoint hand_loop (s : State) (it : Iter) (handedness : list string)
    (clock : nat -> Q) (idx : nat) (hands : list Hand)
    : option (State * Iter) :=
  match hands with
  | [] => Some (s, it)
  | hand_lm :: rest =>
      match hand_iteration s it handedness idx hand_lm (clock idx) with
      | None => None
      | Some (s', it') => hand_loop s' it' handedness clock (S idx) rest
      end
  end.

Definition gesture_module (s : State) (it : Iter) (hands : list Hand)
    (handedness : list string) (clock : nat -> Q) : option (State * Iter) :=
  match hands with
  | [] => Some (set_current_gesture None s, it)
  | _ :: _ => hand_loop s it handedness clock 0 hands
  end.

Record Display : Type := mkDisplay {
  countdowns : list string;
  status_line : string;
  display_color : Color
}.

Definition compose_display (s : State) (it : Iter) : Display :=
  mkDisplay (countdowns_drawn it)
            ("Status: " ++ confirmed_text s)
            (status_color s).

Definition frame_step (s : State) (fr : Frame) : option (State * Display) :=
  match gesture_module s iter_start (multi_hand_landmarks fr)
                       (multi_handedness fr) (t_hand fr) with
  | None => None
  | Some (s', it) => Some (s', compose_display s' it)
  end.

Definition main_loop_iteration (s : State) (read : option Frame)
    : option (State * option Display) :=
  match read with
  | None => Some (s, None)
  | Some fr =>
      match frame_step s fr with
      | Some (s', d) => Some (s', Some d)
      | None => None
      end
  end.

(** *** Vocabulary for the statements about this script *)

Definition gesture_table : list (list Z * string) :=
  [ ([1; 0; 0; 0; 0]%Z, "Adjust Position");
    ([1; 1; 0; 0; 0]%Z, "Need Water/Food");
    ([0; 1; 0; 0; 0]%Z, "Want Restroom");
    ([0; 0; 1; 1; 1]%Z, "Want Medicine");
    ([0; 1; 1; 0; 0]%Z, "Call Caregiver");
    ([1; 1; 1; 0; 0]%Z, "Uncomfortable") ].

Definition observe (s : State) (gesture : option string) (now : Q) : State :=
  fst (gesture_block s iter_start gesture now).

Definition hold (s : State) (g : string) (nows : list Q) : State :=
  fold_left (fun st t => observe st (Some g) t) nows s.

(** No hand of the frame is classified as a gesture: no hand is reported,
    or handedness is reported and every hand has an unknown finger pattern. *)
Definition quiet (fr : Frame) : Prop :=
  multi_hand_landmarks fr = [] \/
  (multi_handedness fr <> [] /\
   forall idx hand_lm label fingers,
     nth_error (multi_hand_landmarks fr) idx = Some hand_lm ->
     nth_error (multi_handedness fr) idx = Some label ->
     get_fingers_status hand_lm label = Some fingers ->
     identify_gesture fingers = None).

Fixpoint run (s : State) (frs : list Frame) : option State :=
  match frs with
  | [] => Some s
  | fr :: rest =>
      match frame_step s fr with
      | Some (s', _) => run s' rest
      | None => None
      end
  end.

End OnlyGesture.

(* ------------------------------------------------------------------ *)
(** ** Shared vocabulary and sample inputs *)

(** Table-driven classification: the label of the first entry whose pattern
    equals the finger vector, [None] when no entry matches. *)
Fixpoint table_lookup (table : list (list Z * string)) (f : list Z)
    : option string :=
  match table with
  | [] => None
  | (pattern, label) :: rest =>
      if list_Z_eqb f pattern then Some label else table_lookup rest f
  end.

(** Number of vectors of a list that a classifier maps to a label. *)
Definition count_labelled (classify : list Z -> option string)
    (vs : list (list Z)) : nat :=
  length (filter (fun f => match classify f with Some _ => true | None => false end) vs).

(** Timestamps that increase strictly from [t] on. *)
Fixpoint increasing_from (t : Q) (ts : list Q) : Prop :=
  match ts with
  | [] => True
  | u :: rest => t < u /\ increasing_from u rest
  end.

(** What the gesture module of [gesture_fall_storke.py] never touches. *)
Definition fs_frame_kept (s s' : FallStroke.State)
    (it it' : FallStroke.Iter) : Prop :=
  FallStroke.body_missing_start s' = FallStroke.body_missing_start s /\
  FallStroke.fall_alert_active s' = FallStroke.fall_alert_active s /\
  FallStroke.top_alert_text it' = FallStroke.top_alert_text it /\
  FallStroke.searching_drawn it' = FallStroke.searching_drawn it.

(** A frame of [gesture_fall_storke.py] at time [t] with nobody in view:
    no pose, no face, no hand. *)
Definition empty_frame (t : Q) : FallStroke.Frame :=
  FallStroke.mkFrame false [] [] [] t t (fun _ => t).

(** A hand of 21 landmarks: thumb tip and thumb joint at abscissas [x4] and
    [x3], index finger tip at ordinate [y8], every other coordinate 0. *)
Definition sample_hand (x4 x3 y8 : Q) : Hand :=
  map (fun i =>
         mkLandmark (if Nat.eqb i 4 then x4 else if Nat.eqb i 3 then x3 else 0)
                    (if Nat.eqb i 8 then y8 else 0))
      (seq 0 21).

(** A face mesh of 468 landmarks with the given ordinates for the left mouth
    corner (61), the right mouth corner (291) and the nose tip (1). *)
Definition sample_face (yl yr yn : Q) : list Landmark :=
  map (fun i =>
         mkLandmark 0 (if Nat.eqb i 61 then yl
                       else if Nat.eqb i 291 then yr
                       else if Nat.eqb i 1 then yn else 0))
      (seq 0 468).

(** A frame at time [t] with nobody in view but a face whose mouth corners
    lie 0.02 and 0.08 away from the nose tip (asymmetry 0.06). *)
Definition skewed_face_frame (t : Q) : FallStroke.Frame :=
  FallStroke.mkFrame false [sample_face (52 # 100) (58 # 100) (1 # 2)]
                     [] [] t t (fun _ => t).

(** The state of [gesture_fall_storke.py] once the body went missing at
    time [t0], nothing else having happened. *)
Definition missing_since_state (t0 : Q) : FallStroke.State :=
  FallStroke.mkState (Some t0) false None 0 "Monitoring Active".

(** After modules A and B the status colour is red exactly when an alert
    text has been raised. *)
Definition fs_colour_follows_alert (it : FallStroke.Iter) : Prop :=
  (FallStroke.status_color it = RED /\
   truthy_str (FallStroke.top_alert_text it) = true) \/
  (FallStroke.status_color it = GREEN /\ FallStroke.top_alert_text it = "").

(** Frames at time [t] showing one closed fist (all five bits 0, a pattern of
    no table) of a right hand, for either script. *)
Definition fist_frame (t : Q) : FallStroke.Frame :=
  FallStroke.mkFrame true [] [sample_hand 0 0 0] ["Right"] t t (fun _ => t).

Definition og_fist_frame (t : Q) : OnlyGesture.Frame :=
  OnlyGesture.mkFrame [sample_hand 0 0 0] ["Right"] (fun _ => t).

(** A frame of [only_gesture.py] without any hand. *)
Definition og_empty_frame (t : Q) : OnlyGesture.Frame :=
  OnlyGesture.mkFrame [] [] (fun _ => t).

(* ------------------------------------------------------------------ *)
(** ** The main loop (the same in both scripts) *)

(** [cv2.waitKey(1) & 0xFF == ord('q')], [key] being the value returned by
    [cv2.waitKey(1)]; [0xFF] is 255 and [ord('q')] is 113. *)
Definition quit_pressed (key : Z) : bool := Z.eqb (Z.land key 255) 113.

(** How a run of the loop over finitely many ticks ends: an uncaught
    exception, the [break], or the ticks running out. *)
Inductive Ending (S : Type) : Type :=
| Raised : Ending S
| Stopped : S -> Ending S
| Exhausted : S -> Ending S.

Arguments Raised {S}.
Arguments Stopped {S} _.
Arguments Exhausted {S} _.

Section MainLoop.

Variables S F D : Type.

(** One iteration up to [cv2.imshow]: the new state and what is shown, if
    a frame was read. *)
Variable iteration : S -> option F -> option (S * option D).

(** [while True: ...] over a list of ticks, each tick being what [cap.read()]
    delivers and the key [cv2.waitKey(1)] would return.  A failed read
    [continue]s before the key is polled.  The result lists the displays
    shown and tells how the run ended. *)
Fixpoint main_loop (s : S) (ticks : list (option F * Z)) : list D * Ending S :=
  match ticks with
  | [] => ([], Exhausted s)
  | (read, key) :: rest =>
      match iteration s read with
      | None => ([], Raised)
      | Some (s', None) => main_loop s' rest
      | Some (s', Some d) =>
          if quit_pressed key then ([d], Stopped s')
          else let (ds, e) := main_loop s' rest in (d :: ds, e)
      end
  end.

End MainLoop.

Arguments main_loop {S F D} iteration s ticks.

(** The ticks on which a frame was read. *)
Definition successful_reads {F : Type} (ticks : list (option F * Z))
    : list (option F * Z) :=
  filter (fun t => match fst t with Some _ => true | None => false end) ticks.

(* ------------------------------------------------------------------ *)
(** ** Further vocabulary *)

(** The hand seen in a mirror: abscissas reflected in the unit interval. *)
Definition mirror_hand (hand : Hand) : Hand :=
  map (fun lm => mkLandmark (1 - x lm) (y lm)) hand.

Definition swap_side (label : string) : string :=
  if String.eqb label "Left" then "Right" else "Left".


(** What holds of every state [gesture_fall_storke.py] can be in. *)
Definition fs_invariant (s : FallStroke.State) : Prop :=
  (FallStroke.fall_alert_active s = true ->
   exists t0, FallStroke.body_missing_start s = Some t0) /\
  In (FallStroke.confirmed_text s)
     ("Monitoring Active"
        :: map FallStroke.status_of FallStroke.gesture_labels) /\
  (FallStroke.current_gesture s = None \/
   exists g, FallStroke.current_gesture s = Some g /\
             In g FallStroke.gesture_labels).

(** What holds of every state [only_gesture.py] can be in. *)
Definition og_invariant (s : OnlyGesture.State) : Prop :=
  OnlyGesture.status_color s = GREEN /\
  In (OnlyGesture.confirmed_text s)
     ("Monitoring Active" :: map snd OnlyGesture.gesture_table) /\
  (OnlyGesture.current_gesture s = None \/
   exists g, OnlyGesture.current_gesture s = Some g /\
             In g (map snd OnlyGesture.gesture_table)).

(** The two scripts' trackers hold the same gesture data. *)
Definition same_tracker (s : FallStroke.State) (o : OnlyGesture.State) : Prop :=
  FallStroke.current_gesture s = OnlyGesture.current_gesture o /\
  FallStroke.gesture_start_time s = OnlyGesture.gesture_start_time o /\
  FallStroke.confirmed_text s = OnlyGesture.confirmed_text o.

(** Two states of [gesture_fall_storke.py] with the same gesture data. *)
Definition same_gesture_fields (s1 s2 : FallStroke.State) : Prop :=
  FallStroke.current_gesture s1 = FallStroke.current_gesture s2 /\
  FallStroke.gesture_start_time s1 = FallStroke.gesture_start_time s2 /\
  FallStroke.confirmed_text s1 = FallStroke.confirmed_text s2.

(** Two states of [gesture_fall_storke.py] with the same fall data. *)
Definition same_fall_fields (s1 s2 : FallStroke.State) : Prop :=
  FallStroke.body_missing_start s1 = FallStroke.body_missing_start s2 /\
  FallStroke.fall_alert_active s1 = FallStroke.fall_alert_active s2.





(* ------------------------------------------------------------------ *)
(** ** Facts about the primitives *)

Lemma Qgtb_true_iff (a b : Q) : Qgtb a b = true <-> b < a.
Proof.
  unfold Qgtb. rewrite negb_true_iff. split; intro H.
  - apply Qnot_le_lt. intro Hle. apply Qle_bool_iff in Hle. congruence.
  - destruct (Qle_bool a b) eqn:E; [ | reflexivity ].
    apply Qle_bool_iff in E. exfalso. exact (Qlt_not_le _ _ H E).
Qed.

Lemma Qgtb_false_iff (a b : Q) : Qgtb a b = false <-> a <= b.
Proof.
  unfold Qgtb. rewrite negb_false_iff. apply Qle_bool_iff.
Qed.

Lemma list_Z_eqb_eq (f g : list Z) : list_Z_eqb f g = true <-> f = g.
Proof.
  revert g. induction f as [ | a f IH ]; intros [ | b g ]; simpl;
    try (split; [ discriminate | congruence ]); [ tauto | ].
  rewrite andb_true_iff, Z.eqb_eq, IH. split.
  - intros [-> ->]. reflexivity.
  - intro E. injection E. auto.
Qed.

Lemma list_Z_eqb_neq (f g : list Z) : f <> g -> list_Z_eqb f g = false.
Proof.
  intro N. destruct (list_Z_eqb f g) eqn:E; [ | reflexivity ].
  apply list_Z_eqb_eq in E. contradiction.
Qed.

Lemma truthy_opt_Some (g : string) :
  truthy_str g = true -> truthy_opt (Some g) = true.
Proof. intro H. exact H. Qed.

Lemma eq_opt_str_same (g : string) : eq_opt_str g (Some g) = true.
Proof. simpl. apply String.eqb_refl. Qed.

Lemma eq_opt_str_true (g : string) (c : option string) :
  eq_opt_str g c = true <-> c = Some g.
Proof.
  destruct c as [ c | ]; simpl.
  - rewrite String.eqb_eq. split; congruence.
  - split; discriminate.
Qed.

Lemma eq_opt_str_false (g : string) (c : option string) :
  c <> Some g -> eq_opt_str g c = false.
Proof.
  intro N. destruct (eq_opt_str g c) eqn:E; [ | reflexivity ].
  apply eq_opt_str_true in E. contradiction.
Qed.

(** Membership in the enumeration of the 32 vectors. *)
Lemma all_finger_vectors_complete (f : list Z) :
  is_finger_vector f -> In f all_finger_vectors.
Proof.
  intros [Hlen Hbits].
  destruct f as [ | a [ | b [ | c [ | d [ | e [ | ? ? ] ] ] ] ] ];
    try discriminate Hlen.
  repeat match goal with
         | H : Forall _ (_ :: _) |- _ => inversion H; clear H; subst
         end.
  repeat match goal with
         | H : _ = 0%Z \/ _ = 1%Z |- _ => destruct H; subst
         end;
    vm_compute; tauto.
Qed.

Lemma all_finger_vectors_sound (f : list Z) :
  In f all_finger_vectors -> is_finger_vector f.
Proof.
  intro H. vm_compute in H.
  repeat (destruct H as [ <- | H ];
          [ split; [ reflexivity
                   | repeat (apply Forall_cons; [ auto | ]); apply Forall_nil ]
          | ]).
  contradiction.
Qed.

(** Landmark lists that are long enough never raise. *)
Lemma nth_error_in_range {A} (l : list A) (n : nat) :
  (n < length l)%nat -> exists a, nth_error l n = Some a.
Proof.
  intro H. destruct (nth_error l n) eqn:E; [ eauto | ].
  apply nth_error_None in E. lia.
Qed.

Lemma get_fingers_status_total (hand : Hand) (label : string) :
  (21 <= length hand)%nat -> exists f, get_fingers_status hand label = Some f.
Proof.
  intro H. unfold get_fingers_status, thumb_status.
  destruct (nth_error_in_range hand 4) as [l4 E4]; [ lia | ].
  destruct (nth_error_in_range hand 3) as [l3 E3]; [ lia | ].
  rewrite E4, E3.
  assert (Ht : exists t,
             (if String.eqb label "Left"
              then Some (bit (Qltb (x l4) (x l3)))
              else Some (bit (Qgtb (x l4) (x l3)))) = Some t)
    by (destruct (String.eqb label "Left"); eauto).
  destruct Ht as [t ->].
  cbn [four_fingers]. unfold finger_status.
  change (nth_error TIP_IDS 1) with (Some 8%nat).
  change (nth_error TIP_IDS 2) with (Some 12%nat).
  change (nth_error TIP_IDS 3) with (Some 16%nat).
  change (nth_error TIP_IDS 4) with (Some 20%nat).
  cbn [Nat.sub].
  destruct (nth_error_in_range hand 8) as [? ->]; [ lia | ].
  destruct (nth_error_in_range hand 6) as [? ->]; [ lia | ].
  destruct (nth_error_in_range hand 12) as [? ->]; [ lia | ].
  destruct (nth_error_in_range hand 10) as [? ->]; [ lia | ].
  destruct (nth_error_in_range hand 16) as [? ->]; [ lia | ].
  destruct (nth_error_in_range hand 14) as [? ->]; [ lia | ].
  destruct (nth_error_in_range hand 20) as [? ->]; [ lia | ].
  destruct (nth_error_in_range hand 18) as [? ->]; [ lia | ].
  eauto.
Qed.

(** A finger status, when produced, has five entries, each 0 or 1. *)
Lemma bit_01 (c : bool) : bit c = 0%Z \/ bit c = 1%Z.
Proof. destruct c; simpl; auto. Qed.

Lemma thumb_status_01 (lm : Hand) (label : string) (t : Z) :
  thumb_status lm label = Some t -> t = 0%Z \/ t = 1%Z.
Proof.
  unfold thumb_status.
  destruct (nth_error lm 4); [ | discriminate ].
  destruct (nth_error lm 3); [ | discriminate ].
  destruct (String.eqb label "Left"); intro E; injection E as <-; apply bit_01.
Qed.

Lemma finger_status_01 (lm : Hand) (i : nat) (b : Z) :
  finger_status lm i = Some b -> b = 0%Z \/ b = 1%Z.
Proof.
  unfold finger_status.
  destruct (nth_error TIP_IDS i) as [ tip | ]; [ | discriminate ].
  destruct (nth_error lm tip); [ | discriminate ].
  destruct (nth_error lm (tip - 2)); [ | discriminate ].
  intro E; injection E as <-; apply bit_01.
Qed.

Lemma four_fingers_vector (lm : Hand) (idxs : list nat) (bs : list Z) :
  four_fingers lm idxs = Some bs ->
  length bs = length idxs /\ Forall (fun b => b = 0%Z \/ b = 1%Z) bs.
Proof.
  revert bs. induction idxs as [ | i idxs IH ]; simpl; intros bs H.
  - injection H as <-. split; [ reflexivity | constructor ].
  - destruct (finger_status lm i) as [ b | ] eqn:Eb; [ | discriminate ].
    destruct (four_fingers lm idxs) as [ bs' | ]; [ | discriminate ].
    injection H as <-. destruct (IH bs' eq_refl) as [Hl Hf].
    split; [ simpl; congruence | ].
    constructor; [ exact (finger_status_01 _ _ _ Eb) | exact Hf ].
Qed.

Lemma get_fingers_status_vector (hand : Hand) (label : string) (f : list Z) :
  get_fingers_status hand label = Some f -> is_finger_vector f.
Proof.
  unfold get_fingers_status. intro H.
  destruct (thumb_status hand label) as [ t | ] eqn:Et; [ | discriminate ].
  destruct (four_fingers hand [1; 2; 3; 4]%nat) as [ bs | ] eqn:Ef;
    [ | discriminate ].
  injection H as <-. destruct (four_fingers_vector _ _ _ Ef) as [Hl Hf].
  split; [ simpl; rewrite Hl; reflexivity | ].
  constructor; [ exact (thumb_status_01 _ _ _ Et) | exact Hf ].
Qed.

(* ------------------------------------------------------------------ *)
(** ** The gesture classifier *)

Lemma fs_identify_is_lookup (f : list Z) :
  FallStroke.identify_gesture f = table_lookup FallStroke.gesture_table f.
Proof. reflexivity. Qed.

Lemma og_identify_is_lookup (f : list Z) :
  OnlyGesture.identify_gesture f = table_lookup OnlyGesture.gesture_table f.
Proof. reflexivity. Qed.

(** A table lookup answers [None] or a label of the table. *)
Lemma table_lookup_range (table : list (list Z * string)) (f : list Z) :
  table_lookup table f = None \/
  exists l, table_lookup table f = Some l /\ In l (map snd table).
Proof.
  induction table as [ | [p l] table IH ]; simpl; [ auto | ].
  destruct (list_Z_eqb f p).
  - right. exists l. auto.
  - destruct IH as [ IH | [l' [E I]] ]; [ auto | right; exists l'; auto ].
Qed.

(** Every label of the second table is one of the seven of the first. *)
Lemma og_labels_included (l : string) :
  In l (map snd OnlyGesture.gesture_table) -> In l FallStroke.gesture_labels.
Proof.
  simpl. intros H.
  repeat (destruct H as [ <- | H ]; [ simpl; tauto | ]). contradiction.
Qed.

(** C3.  On each of the 32 five-bit finger vectors -- in fact on every list
    of integers -- [identify_gesture] of either script is a total function
    whose value is [None] or one of the seven labels; it coincides with the
    first-match lookup in the fixed pattern table, so a vector that matches
    no pattern yields [None]; 7 of the 32 vectors are labelled by the first
    script and 6 by the second. *)
Theorem C3_identify_gesture_label_or_none :
  length all_finger_vectors = 32%nat /\
  (forall f, is_finger_vector f <-> In f all_finger_vectors) /\
  (forall f,
      FallStroke.identify_gesture f = table_lookup FallStroke.gesture_table f /\
      (FallStroke.identify_gesture f = None \/
       exists l, FallStroke.identify_gesture f = Some l /\
                 In l FallStroke.gesture_labels)) /\
  (forall f,
      OnlyGesture.identify_gesture f = table_lookup OnlyGesture.gesture_table f /\
      (OnlyGesture.identify_gesture f = None \/
       exists l, OnlyGesture.identify_gesture f = Some l /\
                 In l FallStroke.gesture_labels)) /\
  length FallStroke.gesture_labels = 7%nat /\
  count_labelled FallStroke.identify_gesture all_finger_vectors = 7%nat /\
  count_labelled OnlyGesture.identify_gesture all_finger_vectors = 6%nat.
Proof.
  split; [ reflexivity | ].
  split; [ intro f; split;
           [ apply all_finger_vectors_complete
           | apply all_finger_vectors_sound ] | ].
  split; [ | split; [ | repeat split; reflexivity ] ].
  - intro f. split; [ reflexivity | ].
    rewrite fs_identify_is_lookup.
    destruct (table_lookup_range FallStroke.gesture_table f)
      as [ H | [l [E I]] ]; [ auto | right; exists l; auto ].
  - intro f. split; [ reflexivity | ].
    rewrite og_identify_is_lookup.
    destruct (table_lookup_range OnlyGesture.gesture_table f)
      as [ H | [l [E I]] ]; [ auto | ].
    right; exists l; split; [ exact E | exact (og_labels_included l I) ].
Qed.

(** C7 as stated fails: besides the thumb-only pattern, the two scripts
    also differ on [[1,0,1,1,1]], which the first labels ["Adjust Position"]
    and the second leaves unmatched. *)
Lemma C7_counterexample :
  is_finger_vector [1; 0; 1; 1; 1]%Z /\
  [1; 0; 1; 1; 1]%Z <> [1; 0; 0; 0; 0]%Z /\
  FallStroke.identify_gesture [1; 0; 1; 1; 1]%Z = Some "Adjust Position" /\
  OnlyGesture.identify_gesture [1; 0; 1; 1; 1]%Z = None /\
  FallStroke.identify_gesture [1; 0; 1; 1; 1]%Z
    <> OnlyGesture.identify_gesture [1; 0; 1; 1; 1]%Z.
Proof.
  split.
  { split; [ reflexivity
           | repeat (apply Forall_cons; [ auto | ]); apply Forall_nil ]. }
  split; [ discriminate | ].
  split; [ reflexivity | ].
  split; [ reflexivity | discriminate ].
Qed.

(** C7, amended.  The two [identify_gesture] functions agree on every vector
    except two: the thumb-only pattern [[1,0,0,0,0]] (emergency label in the
    first script, ["Adjust Position"] in the second) and [[1,0,1,1,1]]
    (["Adjust Position"] in the first script, unmatched in the second). *)
Theorem C7_variants_differ_on_exactly_two_patterns :
  forall f : list Z,
    (f = [1; 0; 0; 0; 0]%Z /\
     FallStroke.identify_gesture f = Some "THUMB_EMERGENCY" /\
     OnlyGesture.identify_gesture f = Some "Adjust Position") \/
    (f = [1; 0; 1; 1; 1]%Z /\
     FallStroke.identify_gesture f = Some "Adjust Position" /\
     OnlyGesture.identify_gesture f = None) \/
    (f <> [1; 0; 0; 0; 0]%Z /\ f <> [1; 0; 1; 1; 1]%Z /\
     FallStroke.identify_gesture f = OnlyGesture.identify_gesture f).
Proof.
  intro f.
  destruct (list_Z_eqb f [1; 0; 0; 0; 0]%Z) eqn:Ea.
  { apply list_Z_eqb_eq in Ea. subst f. left. repeat split. }
  destruct (list_Z_eqb f [1; 0; 1; 1; 1]%Z) eqn:Eb.
  { apply list_Z_eqb_eq in Eb. subst f. right. left. repeat split. }
  right. right.
  split; [ intro E; apply list_Z_eqb_eq in E; congruence | ].
  split; [ intro E; apply list_Z_eqb_eq in E; congruence | ].
  unfold FallStroke.identify_gesture, OnlyGesture.identify_gesture.
  rewrite Ea, Eb. reflexivity.
Qed.

(* ------------------------------------------------------------------ *)
(** ** The asymmetry scorer *)

(** C9.  When the landmark list holds the left mouth corner (61), the right
    mouth corner (291) and the nose tip (1), [get_mouth_asymmetry] returns
    [abs(abs(left.y - nose.y) - abs(right.y - nose.y))], which is not
    negative. *)
Theorem C9_get_mouth_asymmetry_value :
  forall (face_landmarks : list Landmark) (left_mouth right_mouth nose : Landmark),
    nth_error face_landmarks 61 = Some left_mouth ->
    nth_error face_landmarks 291 = Some right_mouth ->
    nth_error face_landmarks 1 = Some nose ->
    FallStroke.get_mouth_asymmetry face_landmarks
      = Some (Qabs (Qabs (y left_mouth - y nose) - Qabs (y right_mouth - y nose)))
    /\ 0 <= Qabs (Qabs (y left_mouth - y nose) - Qabs (y right_mouth - y nose)).
Proof.
  intros fl l r n Hl Hr Hn. unfold FallStroke.get_mouth_asymmetry.
  rewrite Hl, Hr, Hn. split; [ reflexivity | apply Qabs_nonneg ].
Qed.

Lemma C9_witness :
  FallStroke.get_mouth_asymmetry (sample_face (52 # 100) (58 # 100) (1 # 2))
    = Some (Qabs (Qabs ((52 # 100) - (1 # 2)) - Qabs ((58 # 100) - (1 # 2))))
  /\ 0 <= Qabs (Qabs ((52 # 100) - (1 # 2)) - Qabs ((58 # 100) - (1 # 2))).
Proof.
  apply (C9_get_mouth_asymmetry_value
           (sample_face (52 # 100) (58 # 100) (1 # 2))
           (mkLandmark 0 (52 # 100)) (mkLandmark 0 (58 # 100))
           (mkLandmark 0 (1 # 2)));
    reflexivity.
Defined.

(* ------------------------------------------------------------------ *)
(** ** Hand side and classification *)

(** The hand side enters [get_fingers_status] through the thumb bit only. *)
Lemma get_fingers_status_side (hand : Hand) (side side' : string) (f : list Z) :
  get_fingers_status hand side = Some f ->
  exists t, get_fingers_status hand side' = Some (t :: tl f).
Proof.
  unfold get_fingers_status, thumb_status.
  destruct (nth_error hand 4) as [ tip | ]; [ | discriminate ].
  destruct (nth_error hand 3) as [ ip | ]; [ | discriminate ].
  destruct (four_fingers hand [1; 2; 3; 4]%nat) as [ rest | ].
  - destruct (String.eqb side "Left"); intro E; injection E as <-;
      destruct (String.eqb side' "Left"); simpl; eauto.
  - destruct (String.eqb side "Left"); discriminate.
Qed.

(** C10.  Two hands, of whatever sides, whose finger vectors are the same
    are treated alike: in either script the loop body classifies the vector
    alone and so produces the same tracker state and overlay; and changing
    the side of one hand can change the thumb bit only. *)
Theorem C10_hand_side_noninterference :
  forall (hand1 hand2 : Hand) (side1 side2 : string) (f : list Z)
         (handedness1 handedness2 : list string) (idx : nat) (now : Q)
         (s : FallStroke.State) (it : FallStroke.Iter)
         (s' : OnlyGesture.State) (it' : OnlyGesture.Iter),
    get_fingers_status hand1 side1 = Some f ->
    get_fingers_status hand2 side2 = Some f ->
    nth_error handedness1 idx = Some side1 ->
    nth_error handedness2 idx = Some side2 ->
    (FallStroke.hand_iteration s it handedness1 idx hand1 now
       = Some (FallStroke.gesture_block s it (FallStroke.identify_gesture f) now)
     /\ FallStroke.hand_iteration s it handedness2 idx hand2 now
       = FallStroke.hand_iteration s it handedness1 idx hand1 now)
    /\ (OnlyGesture.hand_iteration s' it' handedness1 idx hand1 now
       = Some (OnlyGesture.gesture_block s' it'
                 (OnlyGesture.identify_gesture f) now)
     /\ OnlyGesture.hand_iteration s' it' handedness2 idx hand2 now
       = OnlyGesture.hand_iteration s' it' handedness1 idx hand1 now)
    /\ (forall side, exists t,
          get_fingers_status hand1 side = Some (t :: tl f)).
Proof.
  intros hand1 hand2 side1 side2 f hd1 hd2 idx now s it s' it' H1 H2 N1 N2.
  split; [ | split ].
  - unfold FallStroke.hand_iteration. rewrite N1, N2, H1, H2. auto.
  - unfold OnlyGesture.hand_iteration.
    destruct hd1 as [ | a1 r1 ]; [ destruct idx; discriminate | ].
    destruct hd2 as [ | a2 r2 ]; [ destruct idx; discriminate | ].
    rewrite N1, N2, H1, H2. auto.
  - intro side. exact (get_fingers_status_side hand1 side1 side f H1).
Qed.

Lemma C10_witness :
  FallStroke.hand_iteration FallStroke.initial_state FallStroke.iter_start
      ["Right"] 0 (sample_hand 1 0 0) 1
    = FallStroke.hand_iteration FallStroke.initial_state FallStroke.iter_start
        ["Left"] 0 (sample_hand 0 1 0) 1
  /\ OnlyGesture.hand_iteration OnlyGesture.initial_state OnlyGesture.iter_start
      ["Right"] 0 (sample_hand 1 0 0) 1
    = OnlyGesture.hand_iteration OnlyGesture.initial_state OnlyGesture.iter_start
        ["Left"] 0 (sample_hand 0 1 0) 1.
Proof.
  pose proof (C10_hand_side_noninterference
                (sample_hand 0 1 0) (sample_hand 1 0 0) "Left" "Right"
                [1; 0; 0; 0; 0]%Z ["Left"] ["Right"] 0 1
                FallStroke.initial_state FallStroke.iter_start
                OnlyGesture.initial_state OnlyGesture.iter_start
                eq_refl eq_refl eq_refl eq_refl) as [[_ A] [[_ B] _]].
  split; [ exact A | exact B ].
Defined.

(* ------------------------------------------------------------------ *)
(** ** The gesture hold tracker of [gesture_fall_storke.py] *)

Section FallStrokeHold.

Import FallStroke.

Variables (s : State) (it : Iter) (g : string) (now : Q).
Hypothesis g_truthy : truthy_str g = true.

(** An unknown gesture (or an empty label) clears the held gesture. *)
Lemma fs_block_none (gesture : option string) :
  truthy_opt gesture = false ->
  gesture_block s it gesture now = (set_current_gesture None s, it).
Proof. unfold gesture_block. intros ->. reflexivity. Qed.

(** A label other than the held one restarts the timer. *)
Lemma fs_block_new :
  current_gesture s <> Some g ->
  gesture_block s it (Some g) now
    = (set_gesture_start_time now (set_current_gesture (Some g) s), it).
Proof.
  intro N. unfold gesture_block.
  rewrite (truthy_opt_Some g g_truthy), (eq_opt_str_false g _ N). reflexivity.
Qed.

(** The held label, not yet past the hold time: countdown only. *)
Lemma fs_block_counting :
  current_gesture s = Some g ->
  now - gesture_start_time s <= GESTURE_HOLD_TIME ->
  gesture_block s it (Some g) now
    = (s, set_countdown_text
            ("Holding: "
               ++ py_str (math_ceil (GESTURE_HOLD_TIME
                                       - (now - gesture_start_time s)))
               ++ "s") it).
Proof.
  intros C H. unfold gesture_block.
  rewrite (truthy_opt_Some g g_truthy), C, eq_opt_str_same.
  apply Qgtb_false_iff in H. rewrite H. reflexivity.
Qed.

(** The held label past the hold time: confirmation. *)
Lemma fs_block_confirm :
  current_gesture s = Some g ->
  GESTURE_HOLD_TIME < now - gesture_start_time s ->
  fst (gesture_block s it (Some g) now) = set_confirmed_text (status_of g) s.
Proof.
  intros C H. unfold gesture_block, status_of.
  rewrite (truthy_opt_Some g g_truthy), C, eq_opt_str_same.
  apply Qgtb_true_iff in H. rewrite H.
  destruct (String.eqb g "THUMB_EMERGENCY"); [ reflexivity | ].
  destruct (negb _); reflexivity.
Qed.

End FallStrokeHold.

Lemma fs_set_confirmed_same (s : FallStroke.State) :
  FallStroke.set_confirmed_text (FallStroke.confirmed_text s) s = s.
Proof. destruct s. reflexivity. Qed.

(** While a label is held, one more observation of it either leaves the
    state alone or confirms it. *)
Lemma fs_observe_held (s : FallStroke.State) (g : string) (now : Q) :
  truthy_str g = true ->
  FallStroke.current_gesture s = Some g ->
  FallStroke.observe s (Some g) now = s \/
  FallStroke.observe s (Some g) now
    = FallStroke.set_confirmed_text (FallStroke.status_of g) s.
Proof.
  intros T C. unfold FallStroke.observe.
  destruct (Qgtb (now - FallStroke.gesture_start_time s)
                 FallStroke.GESTURE_HOLD_TIME) eqn:E.
  - right. apply fs_block_confirm; [ exact T | exact C | ].
    apply Qgtb_true_iff. exact E.
  - left. rewrite (fs_block_counting s _ g now T C); [ reflexivity | ].
    apply Qgtb_false_iff. exact E.
Qed.

(** Holding before the threshold changes nothing. *)
Lemma fs_hold_counting (g : string) (nows : list Q) (s : FallStroke.State) :
  truthy_str g = true ->
  FallStroke.current_gesture s = Some g ->
  Forall (fun u => u - FallStroke.gesture_start_time s
                     <= FallStroke.GESTURE_HOLD_TIME) nows ->
  FallStroke.hold s g nows = s.
Proof.
  intros T C F. unfold FallStroke.hold.
  induction F as [ | u nows Hu F IH ]; simpl; [ reflexivity | ].
  unfold FallStroke.observe at 2.
  rewrite (fs_block_counting s _ g u T C Hu). exact IH.
Qed.

(** Holding a label that is already the confirmed one changes nothing,
    whatever the clock says. *)
Lemma fs_hold_confirmed (g : string) (nows : list Q) (s : FallStroke.State) :
  truthy_str g = true ->
  FallStroke.current_gesture s = Some g ->
  FallStroke.confirmed_text s = FallStroke.status_of g ->
  FallStroke.hold s g nows = s.
Proof.
  intros T C K. unfold FallStroke.hold.
  induction nows as [ | u nows IH ]; simpl; [ reflexivity | ].
  assert (E : FallStroke.observe s (Some g) u = s).
  { destruct (fs_observe_held s g u T C) as [ E | E ]; [ exact E | ].
    rewrite E, <- K. apply fs_set_confirmed_same. }
  rewrite E. exact IH.
Qed.

(* ------------------------------------------------------------------ *)
(** ** The gesture hold tracker of [only_gesture.py] *)

Section OnlyGestureHold.

Import OnlyGesture.

Variables (s : State) (it : Iter) (g : string) (now : Q).
Hypothesis g_truthy : truthy_str g = true.

Lemma og_block_none (gesture : option string) :
  truthy_opt gesture = false ->
  gesture_block s it gesture now = (set_current_gesture None s, it).
Proof. unfold gesture_block. intros ->. reflexivity. Qed.

Lemma og_block_new :
  current_gesture s <> Some g ->
  gesture_block s it (Some g) now
    = (set_gesture_start_time now (set_current_gesture (Some g) s), it).
Proof.
  intro N. unfold gesture_block.
  rewrite (truthy_opt_Some g g_truthy), (eq_opt_str_false g _ N). reflexivity.
Qed.

Lemma og_block_counting :
  current_gesture s = Some g ->
  now - gesture_start_time s <= GESTURE_HOLD_TIME ->
  gesture_block s it (Some g) now
    = (s, set_countdown_text
            ("Holding: "
               ++ py_str (math_ceil (GESTURE_HOLD_TIME
                                       - (now - gesture_start_time s)))
               ++ "s") it).
Proof.
  intros C H. unfold gesture_block.
  rewrite (truthy_opt_Some g g_truthy), C, eq_opt_str_same.
  apply Qgtb_false_iff in H. rewrite H. reflexivity.
Qed.

Lemma og_block_confirm :
  current_gesture s = Some g ->
  GESTURE_HOLD_TIME < now - gesture_start_time s ->
  gesture_block s it (Some g) now
    = (set_status_color GREEN (set_confirmed_text g s), it).
Proof.
  intros C H. unfold gesture_block.
  rewrite (truthy_opt_Some g g_truthy), C, eq_opt_str_same.
  apply Qgtb_true_iff in H. rewrite H. reflexivity.
Qed.

End OnlyGestureHold.

Lemma og_confirm_same (s : OnlyGesture.State) :
  OnlyGesture.status_color s = GREEN ->
  OnlyGesture.set_status_color GREEN
    (OnlyGesture.set_confirmed_text (OnlyGesture.confirmed_text s) s) = s.
Proof. destruct s. simpl. intros ->. reflexivity. Qed.

Lemma og_observe_held (s : OnlyGesture.State) (g : string) (now : Q) :
  truthy_str g = true ->
  OnlyGesture.current_gesture s = Some g ->
  OnlyGesture.observe s (Some g) now = s \/
  OnlyGesture.observe s (Some g) now
    = OnlyGesture.set_status_color GREEN (OnlyGesture.set_confirmed_text g s).
Proof.
  intros T C. unfold OnlyGesture.observe.
  destruct (Qgtb (now - OnlyGesture.gesture_start_time s)
                 OnlyGesture.GESTURE_HOLD_TIME) eqn:E.
  - right. rewrite (og_block_confirm s _ g now T C); [ reflexivity | ].
    apply Qgtb_true_iff. exact E.
  - left. rewrite (og_block_counting s _ g now T C); [ reflexivity | ].
    apply Qgtb_false_iff. exact E.
Qed.

Lemma og_hold_counting (g : string) (nows : list Q) (s : OnlyGesture.State) :
  truthy_str g = true ->
  OnlyGesture.current_gesture s = Some g ->
  Forall (fun u => u - OnlyGesture.gesture_start_time s
                     <= OnlyGesture.GESTURE_HOLD_TIME) nows ->
  OnlyGesture.hold s g nows = s.
Proof.
  intros T C F. unfold OnlyGesture.hold.
  induction F as [ | u nows Hu F IH ]; simpl; [ reflexivity | ].
  unfold OnlyGesture.observe at 2.
  rewrite (og_block_counting s _ g u T C Hu). exact IH.
Qed.

Lemma og_hold_confirmed (g : string) (nows : list Q) (s : OnlyGesture.State) :
  truthy_str g = true ->
  OnlyGesture.current_gesture s = Some g ->
  OnlyGesture.confirmed_text s = g ->
  OnlyGesture.status_color s = GREEN ->
  OnlyGesture.hold s g nows = s.
Proof.
  intros T C K G. unfold OnlyGesture.hold.
  induction nows as [ | u nows IH ]; simpl; [ reflexivity | ].
  assert (E : OnlyGesture.observe s (Some g) u = s).
  { destruct (og_observe_held s g u T C) as [ E | E ]; [ exact E | ].
    rewrite E, <- K. apply og_confirm_same. exact G. }
  rewrite E. exact IH.
Qed.

(** A hold of [L] that starts at [t0]: the frames before the hold time, the
    frame that passes it, the frames after, and an interruption by [M]. *)
Lemma fs_hold_trace (L M : string) (t0 t tM tL : Q) (before after : list Q)
    (s : FallStroke.State) :
  truthy_str L = true -> truthy_str M = true -> M <> L ->
  FallStroke.current_gesture s <> Some L ->
  Forall (fun u => u - t0 <= FallStroke.GESTURE_HOLD_TIME) before ->
  FallStroke.GESTURE_HOLD_TIME < t - t0 ->
  let s1 := FallStroke.hold s L (t0 :: before) in
  let s2 := FallStroke.observe s1 (Some L) t in
  let sM := FallStroke.observe s1 (Some M) tM in
  (FallStroke.current_gesture s1 = Some L /\
   FallStroke.gesture_start_time s1 = t0 /\
   FallStroke.confirmed_text s1 = FallStroke.confirmed_text s) /\
  (FallStroke.confirmed_text s2 = FallStroke.status_of L /\
   FallStroke.current_gesture s2 = Some L) /\
  FallStroke.hold s2 L after = s2 /\
  (FallStroke.current_gesture sM = Some M /\
   FallStroke.gesture_start_time sM = tM /\
   FallStroke.confirmed_text sM = FallStroke.confirmed_text s /\
   FallStroke.confirmed_text (FallStroke.observe sM (Some L) tL)
     = FallStroke.confirmed_text s).
Proof.
  intros TL TM NML NC F H s1 s2 sM.
  set (sa := FallStroke.set_gesture_start_time t0
               (FallStroke.set_current_gesture (Some L) s)).
  assert (E1 : s1 = sa).
  { unfold s1, FallStroke.hold. simpl fold_left.
    unfold FallStroke.observe at 2.
    rewrite (fs_block_new s _ L t0 TL NC). simpl fst.
    apply (fs_hold_counting L before sa TL eq_refl).
    exact F. }
  assert (E2 : s2 = FallStroke.set_confirmed_text (FallStroke.status_of L) sa).
  { unfold s2, FallStroke.observe. rewrite E1.
    apply fs_block_confirm; [ exact TL | reflexivity | exact H ]. }
  assert (EM : sM = FallStroke.set_gesture_start_time tM
                      (FallStroke.set_current_gesture (Some M) sa)).
  { unfold sM, FallStroke.observe. rewrite E1.
    rewrite (fs_block_new sa _ M tM TM); [ reflexivity | ].
    simpl. congruence. }
  split; [ rewrite E1; repeat split | ].
  split; [ rewrite E2; repeat split | ].
  split.
  - apply fs_hold_confirmed; [ exact TL | rewrite E2; reflexivity
                                | rewrite E2; reflexivity ].
  - rewrite EM. repeat split.
    unfold FallStroke.observe. rewrite (fs_block_new _ _ L tL TL).
    + reflexivity.
    + simpl. congruence.
Qed.

Lemma og_hold_trace (L M : string) (t0 t tM tL : Q) (before after : list Q)
    (s : OnlyGesture.State) :
  truthy_str L = true -> truthy_str M = true -> M <> L ->
  OnlyGesture.current_gesture s <> Some L ->
  Forall (fun u => u - t0 <= OnlyGesture.GESTURE_HOLD_TIME) before ->
  OnlyGesture.GESTURE_HOLD_TIME < t - t0 ->
  let s1 := OnlyGesture.hold s L (t0 :: before) in
  let s2 := OnlyGesture.observe s1 (Some L) t in
  let sM := OnlyGesture.observe s1 (Some M) tM in
  (OnlyGesture.current_gesture s1 = Some L /\
   OnlyGesture.gesture_start_time s1 = t0 /\
   OnlyGesture.confirmed_text s1 = OnlyGesture.confirmed_text s) /\
  (OnlyGesture.confirmed_text s2 = L /\
   OnlyGesture.current_gesture s2 = Some L) /\
  OnlyGesture.hold s2 L after = s2 /\
  (OnlyGesture.current_gesture sM = Some M /\
   OnlyGesture.gesture_start_time sM = tM /\
   OnlyGesture.confirmed_text sM = OnlyGesture.confirmed_text s /\
   OnlyGesture.confirmed_text (OnlyGesture.observe sM (Some L) tL)
     = OnlyGesture.confirmed_text s).
Proof.
  intros TL TM NML NC F H s1 s2 sM.
  set (sa := OnlyGesture.set_gesture_start_time t0
               (OnlyGesture.set_current_gesture (Some L) s)).
  assert (E1 : s1 = sa).
  { unfold s1, OnlyGesture.hold. simpl fold_left.
    unfold OnlyGesture.observe at 2.
    rewrite (og_block_new s _ L t0 TL NC). simpl fst.
    apply (og_hold_counting L before sa TL eq_refl).
    exact F. }
  assert (E2 : s2 = OnlyGesture.set_status_color GREEN
                      (OnlyGesture.set_confirmed_text L sa)).
  { unfold s2, OnlyGesture.observe. rewrite E1.
    rewrite (og_block_confirm sa _ L t TL eq_refl H). reflexivity. }
  assert (EM : sM = OnlyGesture.set_gesture_start_time tM
                      (OnlyGesture.set_current_gesture (Some M) sa)).
  { unfold sM, OnlyGesture.observe. rewrite E1.
    rewrite (og_block_new sa _ M tM TM); [ reflexivity | ].
    simpl. congruence. }
  split; [ rewrite E1; repeat split | ].
  split; [ rewrite E2; repeat split | ].
  split.
  - apply og_hold_confirmed; [ exact TL | | | ]; rewrite E2; reflexivity.
  - rewrite EM. repeat split.
    unfold OnlyGesture.observe. rewrite (og_block_new _ _ L tL TL).
    + reflexivity.
    + simpl. congruence.
Qed.

(** C1.  In both scripts: let label [L] appear at time [t0] (it was not the
    held label before) and be observed on every following frame.  As long
    as the frames come at times [u] with [u - t0] not above the hold time
    (so in particular strictly below it), [L] is held since [t0] and the
    confirmed text is untouched.  On a frame at
    time [t] with [t - t0] above the hold time the confirmed text becomes
    the status of [L]; any number of further frames observing [L] leave the
    whole tracker state as it is.  If instead another label [M] is observed
    before the hold time has passed, [M] becomes the held label, the hold
    starts at the time of that frame, the confirmed text is untouched, and
    so it stays when [L] comes back on a later frame. *)
Theorem C1_gesture_hold_tracker :
  forall (L M : string) (t0 t tM tL : Q) (before after : list Q)
         (s : FallStroke.State) (s' : OnlyGesture.State),
    truthy_str L = true -> truthy_str M = true -> M <> L ->
    FallStroke.current_gesture s <> Some L ->
    OnlyGesture.current_gesture s' <> Some L ->
    Forall (fun u => u - t0 <= 3) before ->
    3 < t - t0 ->
    (let s1 := FallStroke.hold s L (t0 :: before) in
     let s2 := FallStroke.observe s1 (Some L) t in
     let sM := FallStroke.observe s1 (Some M) tM in
     (FallStroke.current_gesture s1 = Some L /\
      FallStroke.gesture_start_time s1 = t0 /\
      FallStroke.confirmed_text s1 = FallStroke.confirmed_text s) /\
     (FallStroke.confirmed_text s2 = FallStroke.status_of L /\
      FallStroke.current_gesture s2 = Some L) /\
     FallStroke.hold s2 L after = s2 /\
     (FallStroke.current_gesture sM = Some M /\
      FallStroke.gesture_start_time sM = tM /\
      FallStroke.confirmed_text sM = FallStroke.confirmed_text s /\
      FallStroke.confirmed_text (FallStroke.observe sM (Some L) tL)
        = FallStroke.confirmed_text s))
    /\
    (let s1 := OnlyGesture.hold s' L (t0 :: before) in
     let s2 := OnlyGesture.observe s1 (Some L) t in
     let sM := OnlyGesture.observe s1 (Some M) tM in
     (OnlyGesture.current_gesture s1 = Some L /\
      OnlyGesture.gesture_start_time s1 = t0 /\
      OnlyGesture.confirmed_text s1 = OnlyGesture.confirmed_text s') /\
     (OnlyGesture.confirmed_text s2 = L /\
      OnlyGesture.current_gesture s2 = Some L) /\
     OnlyGesture.hold s2 L after = s2 /\
     (OnlyGesture.current_gesture sM = Some M /\
      OnlyGesture.gesture_start_time sM = tM /\
      OnlyGesture.confirmed_text sM = OnlyGesture.confirmed_text s' /\
      OnlyGesture.confirmed_text (OnlyGesture.observe sM (Some L) tL)
        = OnlyGesture.confirmed_text s')).
Proof.
  intros L M t0 t tM tL before after s s' TL TM NML NC NC' F H.
  split.
  - exact (fs_hold_trace L M t0 t tM tL before after s TL TM NML NC F H).
  - exact (og_hold_trace L M t0 t tM tL before after s' TL TM NML NC' F H).
Qed.

Lemma C1_witness :
  FallStroke.confirmed_text
    (FallStroke.hold FallStroke.initial_state "THUMB_EMERGENCY" [10; 11; 12])
    = "Monitoring Active"
  /\ FallStroke.confirmed_text
       (FallStroke.observe
          (FallStroke.hold FallStroke.initial_state "THUMB_EMERGENCY"
                           [10; 11; 12])
          (Some "THUMB_EMERGENCY") (27 # 2))
     = "EMERGENCY: THUMB TRIGGERED"
  /\ OnlyGesture.confirmed_text
       (OnlyGesture.observe
          (OnlyGesture.hold OnlyGesture.initial_state "THUMB_EMERGENCY"
                            [10; 11; 12])
          (Some "THUMB_EMERGENCY") (27 # 2))
     = "THUMB_EMERGENCY".
Proof.
  pose proof (C1_gesture_hold_tracker
                "THUMB_EMERGENCY" "Call Caregiver" 10 (27 # 2) (25 # 2) 13
                [11; 12] [14; 15]
                FallStroke.initial_state OnlyGesture.initial_state
                eq_refl eq_refl) as W.
  destruct W as [[[_ [_ A]] [[B _] _]] [_ [[C _] _]]].
  - discriminate.
  - discriminate.
  - discriminate.
  - repeat (apply Forall_cons; [ unfold Qle; simpl; lia | ]). apply Forall_nil.
  - reflexivity.
  - split; [ exact A | split; [ exact B | exact C ] ].
Defined.

(* ------------------------------------------------------------------ *)
(** ** The countdown *)

(** [math.ceil] of a non-negative remainder: the least integer not below it,
    and not negative. *)
Lemma math_ceil_spec (r : Q) :
  0 <= r ->
  inject_Z (math_ceil r - 1) < r /\ r <= inject_Z (math_ceil r)
  /\ (0 <= math_ceil r)%Z.
Proof.
  intro H. unfold math_ceil.
  split; [ apply Qceiling_lt | ]. split; [ apply Qle_ceiling | ].
  change 0%Z with (Qceiling 0). apply Qceiling_resp_le. exact H.
Qed.

Lemma remainder_nonneg (hold_time elapsed : Q) :
  elapsed <= hold_time -> 0 <= hold_time - elapsed.
Proof.
  intro H. apply (Qplus_le_l _ _ elapsed).
  setoid_replace (hold_time - elapsed + elapsed) with hold_time by ring.
  setoid_replace (0 + elapsed) with elapsed by ring. exact H.
Qed.

(** One second into a three-second hold the countdown shows 2. *)
Lemma countdown_after_one_second (t0 : Q) :
  t0 + 1 - t0 <= 3 /\ py_str (math_ceil (3 - (t0 + 1 - t0))) = "2".
Proof.
  assert (E : t0 + 1 - t0 == 1) by ring.
  split.
  - rewrite E. discriminate.
  - unfold math_ceil.
    rewrite (Qceiling_comp (3 - (t0 + 1 - t0)) 2); [ reflexivity | ].
    rewrite E. reflexivity.
Qed.

(** C8.  In both scripts, on a frame that observes the held label [L] while
    the hold has lasted no longer than the hold time, the tracker state is
    unchanged and the countdown text is ["Holding: <n>s"] where
    [n = ceil(GESTURE_HOLD_TIME - elapsed)], the least integer not below the
    remaining time; this text is what is drawn next to the hand.  With a
    hold time of 3 and a hold that started one second ago the text is
    ["Holding: 2s"]. *)
Theorem C8_countdown_is_ceiling_of_remaining :
  forall (L : string) (now t0 : Q)
         (s : FallStroke.State) (it : FallStroke.Iter)
         (s' : OnlyGesture.State) (it' : OnlyGesture.Iter),
    truthy_str L = true ->
    FallStroke.current_gesture s = Some L ->
    OnlyGesture.current_gesture s' = Some L ->
    now - FallStroke.gesture_start_time s <= 3 ->
    now - OnlyGesture.gesture_start_time s' <= 3 ->
    (let n := Qceiling (3 - (now - FallStroke.gesture_start_time s)) in
     let r := FallStroke.gesture_block s it (Some L) now in
     fst r = s /\
     FallStroke.countdown_text (snd r) = "Holding: " ++ py_str n ++ "s" /\
     FallStroke.countdowns_drawn (snd r)
       = (FallStroke.countdowns_drawn it
            ++ [("Holding: " ++ py_str n ++ "s")%string])%list /\
     inject_Z (n - 1) < 3 - (now - FallStroke.gesture_start_time s) /\
     3 - (now - FallStroke.gesture_start_time s) <= inject_Z n /\
     (0 <= n)%Z)
    /\
    (let n := Qceiling (3 - (now - OnlyGesture.gesture_start_time s')) in
     let r := OnlyGesture.gesture_block s' it' (Some L) now in
     fst r = s' /\
     OnlyGesture.countdown_text (snd r) = "Holding: " ++ py_str n ++ "s" /\
     OnlyGesture.countdowns_drawn (snd r)
       = (OnlyGesture.countdowns_drawn it'
            ++ [("Holding: " ++ py_str n ++ "s")%string])%list /\
     inject_Z (n - 1) < 3 - (now - OnlyGesture.gesture_start_time s') /\
     3 - (now - OnlyGesture.gesture_start_time s') <= inject_Z n /\
     (0 <= n)%Z)
    /\
    FallStroke.countdown_text
      (snd (FallStroke.gesture_block
              (FallStroke.set_gesture_start_time t0 s) it (Some L) (t0 + 1)))
      = "Holding: 2s"
    /\
    OnlyGesture.countdown_text
      (snd (OnlyGesture.gesture_block
              (OnlyGesture.set_gesture_start_time t0 s') it' (Some L) (t0 + 1)))
      = "Holding: 2s".
Proof.
  intros L now t0 s it s' it' TL C C' H H'.
  destruct (countdown_after_one_second t0) as [Hle Htwo].
  split; [ | split; [ | split ] ].
  - cbv zeta.
    rewrite (fs_block_counting s it L now TL C H). simpl fst. simpl snd.
    destruct (math_ceil_spec _ (remainder_nonneg _ _ H)) as [A [B D]].
    repeat split; assumption.
  - cbv zeta.
    rewrite (og_block_counting s' it' L now TL C' H'). simpl fst. simpl snd.
    destruct (math_ceil_spec _ (remainder_nonneg _ _ H')) as [A [B D]].
    repeat split; assumption.
  - rewrite (fs_block_counting _ it L (t0 + 1) TL); [ | exact C | exact Hle ].
    cbn [snd FallStroke.countdown_text FallStroke.set_countdown_text
         FallStroke.gesture_start_time FallStroke.set_gesture_start_time].
    unfold FallStroke.GESTURE_HOLD_TIME. rewrite Htwo. reflexivity.
  - rewrite (og_block_counting _ it' L (t0 + 1) TL); [ | exact C' | exact Hle ].
    cbn [snd OnlyGesture.countdown_text OnlyGesture.set_countdown_text
         OnlyGesture.gesture_start_time OnlyGesture.set_gesture_start_time].
    unfold OnlyGesture.GESTURE_HOLD_TIME. rewrite Htwo. reflexivity.
Qed.

Lemma C8_witness :
  FallStroke.countdown_text
    (snd (FallStroke.gesture_block
            (FallStroke.mkState None false (Some "THUMB_EMERGENCY") 10
                                "Monitoring Active")
            FallStroke.iter_start (Some "THUMB_EMERGENCY") 11))
    = "Holding: 2s"
  /\ OnlyGesture.countdown_text
       (snd (OnlyGesture.gesture_block
               (OnlyGesture.mkState (Some "THUMB_EMERGENCY") (19 # 2)
                                    "Monitoring Active" GREEN)
               OnlyGesture.iter_start (Some "THUMB_EMERGENCY") 11))
     = "Holding: 2s".
Proof.
  pose proof (C8_countdown_is_ceiling_of_remaining
                "THUMB_EMERGENCY" 11 10
                (FallStroke.mkState None false (Some "THUMB_EMERGENCY") 10
                                    "Monitoring Active")
                FallStroke.iter_start
                (OnlyGesture.mkState (Some "THUMB_EMERGENCY") (19 # 2)
                                     "Monitoring Active" GREEN)
                OnlyGesture.iter_start
                eq_refl eq_refl eq_refl) as W.
  destruct W as [[_ [A _]] [[_ [B _]] _]].
  - unfold Qle; simpl; lia.
  - unfold Qle; simpl; lia.
  - split; [ exact A | exact B ].
Defined.

(* ------------------------------------------------------------------ *)
(** ** The presence tracker *)

Lemma last_cons {A} (l : list A) (a d : A) : last (a :: l) d = last l a.
Proof.
  revert a d. induction l as [ | b l IH ]; intros a d; [ reflexivity | ].
  change (last (a :: b :: l) d) with (last (b :: l) d).
  rewrite (IH b d), (IH b a). reflexivity.
Qed.

(** What one body-absent frame does, from any state. *)
Lemma fs_fall_absent (s : FallStroke.State) (it : FallStroke.Iter)
    (ta tb since : Q) :
  since = match FallStroke.body_missing_start s with
          | None => ta
          | Some t0 => t0
          end ->
  let r := FallStroke.fall_module s it false ta tb in
  FallStroke.body_missing_start (fst r) = Some since /\
  FallStroke.current_gesture (fst r) = FallStroke.current_gesture s /\
  FallStroke.gesture_start_time (fst r) = FallStroke.gesture_start_time s /\
  FallStroke.confirmed_text (fst r) = FallStroke.confirmed_text s /\
  ((FallStroke.BODY_MISSING_THRESHOLD < tb - since /\
    FallStroke.fall_alert_active (fst r) = true /\
    FallStroke.top_alert_text (snd r) = "FALL DETECTED / PATIENT MISSING" /\
    FallStroke.status_color (snd r) = RED /\
    FallStroke.searching_drawn (snd r) = FallStroke.searching_drawn it)
   \/
   (tb - since <= FallStroke.BODY_MISSING_THRESHOLD /\
    FallStroke.fall_alert_active (fst r) = FallStroke.fall_alert_active s /\
    FallStroke.top_alert_text (snd r) = FallStroke.top_alert_text it /\
    FallStroke.status_color (snd r) = FallStroke.status_color it /\
    FallStroke.searching_drawn (snd r)
      = Some ("Searching Body: "
                ++ py_str (py_int (FallStroke.BODY_MISSING_THRESHOLD
                                     - (tb - since)))
                ++ "s"))).
Proof.
  intros ->. unfold FallStroke.fall_module. cbn [negb].
  set (since := match FallStroke.body_missing_start s with
                | None => ta
                | Some t0 => t0
                end).
  destruct (Qgtb (tb - since) FallStroke.BODY_MISSING_THRESHOLD) eqn:E; cbv zeta.
  - apply Qgtb_true_iff in E. repeat split. left. repeat split. exact E.
  - apply Qgtb_false_iff in E. repeat split. right. repeat split. exact E.
Qed.

(** What a body-present frame does. *)
Lemma fs_fall_present (s : FallStroke.State) (it : FallStroke.Iter) (ta tb : Q) :
  let r := FallStroke.fall_module s it true ta tb in
  FallStroke.body_missing_start (fst r) = None /\
  FallStroke.fall_alert_active (fst r) = false /\
  snd r = it.
Proof. repeat split. Qed.

(** Invariant of a run of absent frames with increasing timestamps. *)
Lemma fs_absent_run_inv (a0 : Q) (rest : list (Q * Q)) :
  forall (s : FallStroke.State) (b : Q),
    FallStroke.body_missing_start s = Some a0 ->
    (FallStroke.fall_alert_active s = true
     <-> FallStroke.BODY_MISSING_THRESHOLD < b - a0) ->
    increasing_from b (map snd rest) ->
    FallStroke.body_missing_start (FallStroke.absent_run s rest) = Some a0 /\
    (FallStroke.fall_alert_active (FallStroke.absent_run s rest) = true
     <-> FallStroke.BODY_MISSING_THRESHOLD < last (map snd rest) b - a0).
Proof.
  induction rest as [ | [a b'] rest IH ]; intros s b Hs Ha Hinc.
  - simpl. split; assumption.
  - simpl in Hinc. destruct Hinc as [Hlt Hinc].
    change (FallStroke.absent_run s ((a, b') :: rest))
      with (FallStroke.absent_run (FallStroke.absent s (a, b')) rest).
    change (map snd ((a, b') :: rest)) with (b' :: map snd rest).
    rewrite last_cons.
    destruct (fs_fall_absent s FallStroke.iter_start a b' a0) as [S1 [_ [_ [_ D]]]].
    { rewrite Hs. reflexivity. }
    apply IH; [ exact S1 | | exact Hinc ].
    unfold FallStroke.absent. cbn [fst snd].
    destruct D as [ [E [A _]] | [E [A _]] ].
    + rewrite A. tauto.
    + rewrite A, Ha. split; intro K.
      * exfalso. lra.
      * exfalso. lra.
Qed.

(** Once raised, the alert stays through absent frames, whatever the clock. *)
Lemma fs_alert_latched (more : list (Q * Q)) :
  forall s : FallStroke.State,
    FallStroke.fall_alert_active s = true ->
    FallStroke.fall_alert_active (FallStroke.absent_run s more) = true.
Proof.
  induction more as [ | [a b] more IH ]; intros s H; [ exact H | ].
  change (FallStroke.absent_run s ((a, b) :: more))
    with (FallStroke.absent_run (FallStroke.absent s (a, b)) more).
  apply IH.
  destruct (fs_fall_absent s FallStroke.iter_start a b _ eq_refl)
    as [_ [_ [_ [_ [ [_ [A _]] | [_ [A _]] ]]]]];
    unfold FallStroke.absent; cbn [fst snd]; rewrite A; auto.
Qed.

Lemma increasing_from_snoc (l : list Q) :
  forall (b t : Q),
    increasing_from b (l ++ [t]) -> increasing_from b l /\ last l b < t.
Proof.
  induction l as [ | u l IH ]; intros b t H.
  - simpl in *. tauto.
  - change ((u :: l) ++ [t])%list with (u :: (l ++ [t]))%list in H.
    destruct H as [Hbu H]. destruct (IH u t H) as [Hl Hlast].
    rewrite last_cons. simpl. tauto.
Qed.

(** C2.  Start from a state in which the body is present (no absence start
    recorded, alert inactive) and feed body-absent frames whose timestamps
    [b0 < b1 < ... < tb] increase strictly.  The absence start recorded is
    the clock value [a0] read on the first absent frame and it is kept.
    After any such run the alert is active exactly when
    [elapsed = now - a0] exceeds [BODY_MISSING_THRESHOLD] (5 seconds), [now]
    being the timestamp of the latest frame; once active it stays active
    through whatever absent frames follow.  On each absent frame, either
    elapsed exceeds the threshold, the alert is active and the fall text is
    raised without a countdown, or elapsed does not exceed it, the alert is
    not active and ["Searching Body: <n>s"] is drawn with [n] the integer
    part of [threshold - elapsed].  A body-present frame clears at once both
    the alert and the absence start. *)
Theorem C2_presence_tracker :
  forall (s : FallStroke.State) (it : FallStroke.Iter)
         (a0 b0 ta tb : Q) (rest more : list (Q * Q)),
    FallStroke.body_missing_start s = None ->
    FallStroke.fall_alert_active s = false ->
    increasing_from b0 (map snd rest ++ [tb]) ->
    let s' := FallStroke.absent_run s ((a0, b0) :: rest) in
    let now := last (map snd rest) b0 in
    (FallStroke.body_missing_start (FallStroke.absent s (a0, b0)) = Some a0 /\
     FallStroke.body_missing_start s' = Some a0) /\
    (FallStroke.fall_alert_active s' = true <-> 5 < now - a0) /\
    (FallStroke.fall_alert_active s' = true ->
     FallStroke.fall_alert_active (FallStroke.absent_run s' more) = true) /\
    (let r := FallStroke.fall_module s it false a0 b0 in
     (5 < b0 - a0 /\
      FallStroke.fall_alert_active (fst r) = true /\
      FallStroke.top_alert_text (snd r) = "FALL DETECTED / PATIENT MISSING" /\
      FallStroke.searching_drawn (snd r) = FallStroke.searching_drawn it)
     \/
     (b0 - a0 <= 5 /\
      FallStroke.fall_alert_active (fst r) = false /\
      FallStroke.top_alert_text (snd r) = FallStroke.top_alert_text it /\
      FallStroke.searching_drawn (snd r)
        = Some ("Searching Body: " ++ py_str (py_int (5 - (b0 - a0))) ++ "s")))
    /\
    (let r := FallStroke.fall_module s' it false ta tb in
     FallStroke.body_missing_start (fst r) = Some a0 /\
     ((5 < tb - a0 /\
       FallStroke.fall_alert_active (fst r) = true /\
       FallStroke.top_alert_text (snd r) = "FALL DETECTED / PATIENT MISSING" /\
       FallStroke.searching_drawn (snd r) = FallStroke.searching_drawn it)
      \/
      (tb - a0 <= 5 /\
       FallStroke.fall_alert_active (fst r) = false /\
       FallStroke.top_alert_text (snd r) = FallStroke.top_alert_text it /\
       FallStroke.searching_drawn (snd r)
         = Some ("Searching Body: " ++ py_str (py_int (5 - (tb - a0))) ++ "s"))))
    /\
    (let r := FallStroke.fall_module s' it true ta tb in
     FallStroke.body_missing_start (fst r) = None /\
     FallStroke.fall_alert_active (fst r) = false /\
     snd r = it).
Proof.
  intros s it a0 b0 ta tb rest more Hs Ha Hinc s' now.
  destruct (increasing_from_snoc _ _ _ Hinc) as [Hrest Hlast].
  fold now in Hlast.
  (* the first absent frame *)
  destruct (fs_fall_absent s FallStroke.iter_start a0 b0 a0)
    as [S1 [_ [_ [_ D1]]]]; [ rewrite Hs; reflexivity | ].
  assert (A1 : FallStroke.fall_alert_active (FallStroke.absent s (a0, b0)) = true
               <-> FallStroke.BODY_MISSING_THRESHOLD < b0 - a0).
  { unfold FallStroke.absent. cbn [fst snd].
    destruct D1 as [ [E [A _]] | [E [A _]] ]; rewrite A.
    - tauto.
    - rewrite Ha. split; [ discriminate | intro K; exfalso; lra ]. }
  (* the run *)
  destruct (fs_absent_run_inv a0 rest (FallStroke.absent s (a0, b0)) b0
              S1 A1 Hrest) as [S' A'].
  change (FallStroke.absent_run (FallStroke.absent s (a0, b0)) rest)
    with s' in S', A'.
  fold now in A'.
  split; [ split; [ exact S1 | exact S' ] | ].
  split; [ exact A' | ].
  split; [ apply fs_alert_latched | ].
  split; [ | split; [ | apply fs_fall_present ] ].
  - destruct (fs_fall_absent s it a0 b0 a0)
      as [_ [_ [_ [_ D]]]]; [ rewrite Hs; reflexivity | ].
    cbv zeta. destruct D as [ [E [A [T [_ G]]]] | [E [A [T [_ G]]]] ].
    + left. repeat split; assumption.
    + right. rewrite Ha in A. repeat split; assumption.
  - destruct (fs_fall_absent s' it ta tb a0)
      as [S2 [_ [_ [_ D]]]]; [ rewrite S'; reflexivity | ].
    cbv zeta. split; [ exact S2 | ].
    destruct D as [ [E [A [T [_ G]]]] | [E [A [T [_ G]]]] ].
    + left. repeat split; assumption.
    + right. repeat split; try assumption.
      rewrite A. destruct (FallStroke.fall_alert_active s'); [ | reflexivity ].
      exfalso. assert (K : FallStroke.BODY_MISSING_THRESHOLD < now - a0)
        by (apply A'; reflexivity).
      lra.
Qed.

Lemma C2_witness :
  FallStroke.body_missing_start
    (FallStroke.absent_run FallStroke.initial_state
       [(100, 100); (102, 102); (104, 104); (106, 106)]) = Some 100
  /\ FallStroke.fall_alert_active
       (FallStroke.absent_run FallStroke.initial_state
          [(100, 100); (102, 102); (104, 104); (106, 106)]) = true.
Proof.
  pose proof (C2_presence_tracker
                FallStroke.initial_state FallStroke.iter_start
                100 100 108 108 [(102, 102); (104, 104); (106, 106)]
                [(110, 110)] eq_refl eq_refl) as W.
  destruct W as [[_ A] [B _]].
  - simpl. repeat split.
  - split; [ exact A | ]. apply B. reflexivity.
Defined.

(* ------------------------------------------------------------------ *)
(** ** One whole iteration of [gesture_fall_storke.py] *)

Lemma fs_block_kept (s : FallStroke.State) (it : FallStroke.Iter)
    (gesture : option string) (now : Q) :
  fs_frame_kept s (fst (FallStroke.gesture_block s it gesture now))
                it (snd (FallStroke.gesture_block s it gesture now)).
Proof.
  unfold FallStroke.gesture_block, fs_frame_kept.
  repeat match goal with
         | |- context [if ?c then _ else _] => destruct c
         end; repeat split.
Qed.

Lemma fs_hand_loop_kept (handedness : list string) (clock : nat -> Q)
    (hands : list Hand) :
  forall (idx : nat) (s s' : FallStroke.State) (it it' : FallStroke.Iter),
    FallStroke.hand_loop s it handedness clock idx hands = Some (s', it') ->
    fs_frame_kept s s' it it'.
Proof.
  induction hands as [ | hand_lm hands IH ]; intros idx s s' it it' H.
  - injection H as <- <-. repeat split.
  - simpl in H.
    destruct (FallStroke.hand_iteration s it handedness idx hand_lm (clock idx))
      as [ [s1 it1] | ] eqn:E; [ | discriminate ].
    unfold FallStroke.hand_iteration in E.
    destruct (nth_error handedness idx) as [ label | ]; [ | discriminate ].
    destruct (get_fingers_status hand_lm label) as [ f | ]; [ | discriminate ].
    injection E as E.
    pose proof (fs_block_kept s it (FallStroke.identify_gesture f) (clock idx)) as K.
    rewrite E in K. cbn [fst snd] in K.
    pose proof (IH _ _ _ _ _ H) as K'.
    unfold fs_frame_kept in *. intuition congruence.
Qed.

Lemma fs_gesture_module_kept (s s' : FallStroke.State)
    (it it' : FallStroke.Iter) (hands : list Hand)
    (handedness : list string) (clock : nat -> Q) :
  FallStroke.gesture_module s it hands handedness clock = Some (s', it') ->
  fs_frame_kept s s' it it'.
Proof.
  unfold FallStroke.gesture_module. destruct hands as [ | h hands ].
  - intro H. injection H as <- <-. repeat split.
  - apply fs_hand_loop_kept.
Qed.

(** On well-formed landmark lists no index raises. *)
Lemma fs_hand_loop_total (handedness : list string) (clock : nat -> Q)
    (hands : list Hand) :
  forall (idx : nat) (s : FallStroke.State) (it : FallStroke.Iter),
    Forall (fun hand_lm => (21 <= length hand_lm)%nat) hands ->
    (idx + length hands <= length handedness)%nat ->
    exists r, FallStroke.hand_loop s it handedness clock idx hands = Some r.
Proof.
  induction hands as [ | hand_lm hands IH ]; intros idx s it F L.
  - simpl. eauto.
  - inversion F as [ | ? ? Hh Hr ]; subst. simpl in L.
    simpl. unfold FallStroke.hand_iteration.
    destruct (nth_error_in_range handedness idx) as [label ->]; [ lia | ].
    destruct (get_fingers_status_total hand_lm label Hh) as [f ->].
    destruct (FallStroke.gesture_block s it (FallStroke.identify_gesture f)
                                       (clock idx)) as [s1 it1].
    apply IH; [ exact Hr | lia ].
Qed.

Lemma fs_mouth_asymmetry_total (face : list Landmark) :
  (292 <= length face)%nat ->
  exists a, FallStroke.get_mouth_asymmetry face = Some a.
Proof.
  intro H. unfold FallStroke.get_mouth_asymmetry.
  destruct (nth_error_in_range face 61) as [? ->]; [ lia | ].
  destruct (nth_error_in_range face 291) as [? ->]; [ lia | ].
  destruct (nth_error_in_range face 1) as [? ->]; [ lia | ].
  eauto.
Qed.

Lemma fs_frame_step_total (s : FallStroke.State) (fr : FallStroke.Frame) :
  FallStroke.well_formed fr -> exists r, FallStroke.frame_step s fr = Some r.
Proof.
  intros [Hf [Hh Hl]]. unfold FallStroke.frame_step.
  destruct (FallStroke.fall_module s FallStroke.iter_start
              (FallStroke.pose_landmarks fr) (FallStroke.t_missing_start fr)
              (FallStroke.t_elapsed fr)) as [s1 it1].
  assert (S : exists it2,
             FallStroke.stroke_module it1 (FallStroke.multi_face_landmarks fr)
             = Some it2).
  { unfold FallStroke.stroke_module.
    destruct (FallStroke.multi_face_landmarks fr) as [ | face faces ];
      [ eauto | ].
    inversion Hf as [ | ? ? Hface _ ]; subst.
    destruct (fs_mouth_asymmetry_total face Hface) as [a ->].
    destruct (Qgtb a FallStroke.FACE_ASYMMETRY_THRESHOLD); [ | eauto ].
    destruct (String.eqb (FallStroke.top_alert_text it1) ""); eauto. }
  destruct S as [it2 ->].
  assert (G : exists r,
             FallStroke.gesture_module s1 it2 (FallStroke.multi_hand_landmarks fr)
               (FallStroke.multi_handedness fr) (FallStroke.t_hand fr) = Some r).
  { unfold FallStroke.gesture_module.
    destruct (FallStroke.multi_hand_landmarks fr) as [ | h hands ] eqn:E;
      [ eauto | ].
    apply fs_hand_loop_total; [ exact Hh | exact Hl ]. }
  destruct G as [[s3 it3] ->]. eauto.
Qed.

(** After the fall module, the stroke module leaves a raised fall text alone. *)
Lemma fs_stroke_keeps_fall (it it2 : FallStroke.Iter)
    (faces : list (list Landmark)) :
  FallStroke.top_alert_text it = "FALL DETECTED / PATIENT MISSING" ->
  FallStroke.stroke_module it faces = Some it2 ->
  it2 = it.
Proof.
  intros T. unfold FallStroke.stroke_module.
  destruct faces as [ | face faces ]; [ congruence | ].
  destruct (FallStroke.get_mouth_asymmetry face) as [ a | ]; [ | discriminate ].
  rewrite T. simpl String.eqb.
  destruct (Qgtb a FallStroke.FACE_ASYMMETRY_THRESHOLD); congruence.
Qed.

(** C4.  On a well-formed frame on which the body has been absent for more
    than [BODY_MISSING_THRESHOLD] and the mouth asymmetry of the detected
    face exceeds [FACE_ASYMMETRY_THRESHOLD], the iteration completes and the
    alert line reads the fall message, not the stroke message. *)
Theorem C4_fall_banner_has_priority :
  forall (s : FallStroke.State) (fr : FallStroke.Frame)
         (face : list Landmark) (faces : list (list Landmark)) (asymmetry : Q),
    FallStroke.well_formed fr ->
    FallStroke.pose_landmarks fr = false ->
    FallStroke.BODY_MISSING_THRESHOLD
      < FallStroke.t_elapsed fr - FallStroke.missing_since s fr ->
    FallStroke.multi_face_landmarks fr = face :: faces ->
    FallStroke.get_mouth_asymmetry face = Some asymmetry ->
    FallStroke.FACE_ASYMMETRY_THRESHOLD < asymmetry ->
    exists s' d,
      FallStroke.frame_step s fr = Some (s', d) /\
      FallStroke.banner d = Some "ALERT: FALL DETECTED / PATIENT MISSING" /\
      FallStroke.banner d <> Some "ALERT: POSSIBLE STROKE DETECTED" /\
      FallStroke.fall_alert_active s' = true.
Proof.
  intros s fr face faces a WF Hpose Hfall Hface Hasym Hstroke.
  destruct (fs_frame_step_total s fr WF) as [[s' d] Hstep].
  exists s', d. split; [ exact Hstep | ].
  unfold FallStroke.frame_step in Hstep. rewrite Hpose in Hstep.
  destruct (fs_fall_absent s FallStroke.iter_start
              (FallStroke.t_missing_start fr) (FallStroke.t_elapsed fr)
              (FallStroke.missing_since s fr) eq_refl)
    as [_ [_ [_ [_ D]]]].
  destruct (FallStroke.fall_module s FallStroke.iter_start false
              (FallStroke.t_missing_start fr) (FallStroke.t_elapsed fr))
    as [s1 it1].
  cbn [fst snd] in D.
  destruct D as [ [_ [A [T _]]] | [E _] ]; [ | exfalso; lra ].
  destruct (FallStroke.stroke_module it1 (FallStroke.multi_face_landmarks fr))
    as [ it2 | ] eqn:Es; [ | discriminate ].
  apply (fs_stroke_keeps_fall it1 it2 _ T) in Es. subst it2.
  destruct (FallStroke.gesture_module s1 it1 (FallStroke.multi_hand_landmarks fr)
              (FallStroke.multi_handedness fr) (FallStroke.t_hand fr))
    as [ [s3 it3] | ] eqn:Eg; [ | discriminate ].
  injection Hstep as <- <-.
  destruct (fs_gesture_module_kept _ _ _ _ _ _ _ Eg) as [_ [K2 [K3 _]]].
  unfold FallStroke.compose_display. cbn [FallStroke.banner].
  rewrite K3, T, K2, A. cbn [truthy_str].
  split; [ reflexivity | split; [ discriminate | reflexivity ] ].
Qed.

Lemma skewed_face_frame_well_formed (t : Q) :
  FallStroke.well_formed (skewed_face_frame t).
Proof.
  split; [ | split ].
  - constructor; [ vm_compute; lia | constructor ].
  - constructor.
  - simpl. lia.
Qed.

Lemma C4_witness :
  exists s' d,
    FallStroke.frame_step (missing_since_state 100) (skewed_face_frame 106)
      = Some (s', d) /\
    FallStroke.banner d = Some "ALERT: FALL DETECTED / PATIENT MISSING".
Proof.
  destruct (C4_fall_banner_has_priority
              (missing_since_state 100) (skewed_face_frame 106)
              (sample_face (52 # 100) (58 # 100) (1 # 2)) [] (2400 # 40000)
              (skewed_face_frame_well_formed 106) eq_refl)
    as [s' [d [E [B _]]]].
  - reflexivity.
  - reflexivity.
  - reflexivity.
  - reflexivity.
  - exists s', d. split; [ exact E | exact B ].
Defined.

(* ------------------------------------------------------------------ *)
(** ** The status line and its colour *)

(** The fall module leaves the gesture fields of the state alone. *)
Lemma fs_fall_gesture_fields (s : FallStroke.State) (it : FallStroke.Iter)
    (body : bool) (ta tb : Q) :
  let s1 := fst (FallStroke.fall_module s it body ta tb) in
  FallStroke.current_gesture s1 = FallStroke.current_gesture s /\
  FallStroke.gesture_start_time s1 = FallStroke.gesture_start_time s /\
  FallStroke.confirmed_text s1 = FallStroke.confirmed_text s.
Proof.
  unfold FallStroke.fall_module. destruct body; cbn [negb]; cbv zeta.
  - repeat split.
  - destruct (Qgtb _ _); repeat split.
Qed.

Lemma fs_fall_colour (s : FallStroke.State) (body : bool) (ta tb : Q) :
  fs_colour_follows_alert
    (snd (FallStroke.fall_module s FallStroke.iter_start body ta tb)).
Proof.
  unfold FallStroke.fall_module, fs_colour_follows_alert.
  destruct body; cbn [negb]; cbv zeta.
  - right. split; reflexivity.
  - destruct (Qgtb _ _); [ left | right ]; split; reflexivity.
Qed.

Lemma fs_stroke_colour (it it2 : FallStroke.Iter)
    (faces : list (list Landmark)) :
  fs_colour_follows_alert it ->
  FallStroke.stroke_module it faces = Some it2 ->
  fs_colour_follows_alert it2.
Proof.
  intros I. unfold FallStroke.stroke_module.
  destruct faces as [ | face faces ]; [ congruence | ].
  destruct (FallStroke.get_mouth_asymmetry face) as [ a | ]; [ | discriminate ].
  destruct (Qgtb a FallStroke.FACE_ASYMMETRY_THRESHOLD); [ | congruence ].
  destruct (String.eqb (FallStroke.top_alert_text it) ""); [ | congruence ].
  intro E. injection E as <-. left. split; reflexivity.
Qed.

(** A gesture block that does not confirm leaves colour and text alone. *)
Lemma fs_block_no_confirm (s : FallStroke.State) (it : FallStroke.Iter)
    (gesture : option string) (now : Q) :
  FallStroke.confirming s gesture now = false ->
  FallStroke.status_color (snd (FallStroke.gesture_block s it gesture now))
    = FallStroke.status_color it /\
  FallStroke.confirmed_text (fst (FallStroke.gesture_block s it gesture now))
    = FallStroke.confirmed_text s.
Proof.
  unfold FallStroke.confirming, FallStroke.gesture_block.
  destruct (truthy_opt gesture); [ | split; reflexivity ].
  destruct (eq_opt_str _ _); [ | split; reflexivity ].
  destruct (Qgtb _ _); [ discriminate | split; reflexivity ].
Qed.

Lemma fs_confirming_ext (s s1 : FallStroke.State)
    (gesture : option string) (now : Q) :
  FallStroke.current_gesture s1 = FallStroke.current_gesture s ->
  FallStroke.gesture_start_time s1 = FallStroke.gesture_start_time s ->
  FallStroke.confirming s1 gesture now = FallStroke.confirming s gesture now.
Proof. unfold FallStroke.confirming. intros -> ->. reflexivity. Qed.

(** The gesture module of a frame with at most one hand, none confirmed. *)
Lemma fs_gesture_module_no_confirm (s s1 s3 : FallStroke.State)
    (it2 it3 : FallStroke.Iter) (fr : FallStroke.Frame) :
  FallStroke.current_gesture s1 = FallStroke.current_gesture s ->
  FallStroke.gesture_start_time s1 = FallStroke.gesture_start_time s ->
  (length (FallStroke.multi_hand_landmarks fr) <= 1)%nat ->
  FallStroke.frame_confirms s fr = false ->
  FallStroke.gesture_module s1 it2 (FallStroke.multi_hand_landmarks fr)
    (FallStroke.multi_handedness fr) (FallStroke.t_hand fr) = Some (s3, it3) ->
  FallStroke.status_color it3 = FallStroke.status_color it2 /\
  FallStroke.confirmed_text s3 = FallStroke.confirmed_text s1.
Proof.
  intros Hc Ht Hlen Hnc. unfold FallStroke.frame_confirms in Hnc.
  unfold FallStroke.gesture_module.
  destruct (FallStroke.multi_hand_landmarks fr) as [ | h [ | h' hands ] ].
  - intro E. injection E as <- <-. split; reflexivity.
  - cbn [FallStroke.hand_loop]. unfold FallStroke.hand_iteration.
    destruct (nth_error (FallStroke.multi_handedness fr) 0) as [ label | ];
      [ | discriminate ].
    destruct (get_fingers_status h label) as [ f | ]; [ | discriminate ].
    rewrite <- (fs_confirming_ext s s1 _ _ Hc Ht) in Hnc.
    destruct (fs_block_no_confirm s1 it2 _ _ Hnc) as [A B].
    destruct (FallStroke.gesture_block s1 it2 (FallStroke.identify_gesture f)
                                       (FallStroke.t_hand fr 0)) as [s2 it2'].
    intro E. injection E as <- <-. split; assumption.
  - simpl in Hlen. lia.
Qed.

(** C5 as stated fails: with the default status ["Monitoring Active"] and no
    gesture at all, the status line is drawn in red on a frame that raises
    the fall alert (here: nobody in view at time 100 and still nobody at
    time 106). *)
Lemma C5_counterexample :
  exists s' d,
    FallStroke.frame_step (missing_since_state 100) (empty_frame 106)
      = Some (s', d) /\
    option_map fst (FallStroke.frame_step FallStroke.initial_state
                                          (empty_frame 100))
      = Some (missing_since_state 100) /\
    FallStroke.status_line d = "Status: Monitoring Active" /\
    py_in "EMERGENCY" (FallStroke.confirmed_text s') = false /\
    FallStroke.banner d = Some "ALERT: FALL DETECTED / PATIENT MISSING" /\
    FallStroke.display_color d = RED /\
    FallStroke.display_color d <> GREEN.
Proof.
  eexists. eexists. split; [ reflexivity | ].
  split; [ reflexivity | ].
  repeat split. discriminate.
Qed.

(** C5, amended.  On every frame the status line reads ["Status: "] followed
    by the confirmed text, which is ["Monitoring Active"] initially.  It is
    red whenever the confirmed text contains ["EMERGENCY"].  Otherwise, on a
    frame with at most one hand on which no gesture is confirmed, it is red
    exactly when the alert line is drawn on that frame and green when no
    alert line is drawn. *)
Theorem C5_status_line_and_colour :
  forall (s s' : FallStroke.State) (fr : FallStroke.Frame)
         (d : FallStroke.Display),
    FallStroke.frame_step s fr = Some (s', d) ->
    FallStroke.confirmed_text FallStroke.initial_state = "Monitoring Active" /\
    FallStroke.status_line d = "Status: " ++ FallStroke.confirmed_text s' /\
    (py_in "EMERGENCY" (FallStroke.confirmed_text s') = true ->
     FallStroke.display_color d = RED) /\
    (py_in "EMERGENCY" (FallStroke.confirmed_text s') = false ->
     (length (FallStroke.multi_hand_landmarks fr) <= 1)%nat ->
     FallStroke.frame_confirms s fr = false ->
     FallStroke.confirmed_text s' = FallStroke.confirmed_text s /\
     ((FallStroke.display_color d = RED /\
       exists msg, FallStroke.banner d = Some ("ALERT: " ++ msg)) \/
      (FallStroke.display_color d = GREEN /\ FallStroke.banner d = None))).
Proof.
  intros s s' fr d Hstep. unfold FallStroke.frame_step in Hstep.
  pose proof (fs_fall_gesture_fields s FallStroke.iter_start
                (FallStroke.pose_landmarks fr) (FallStroke.t_missing_start fr)
                (FallStroke.t_elapsed fr)) as [F1 [F2 F3]].
  pose proof (fs_fall_colour s (FallStroke.pose_landmarks fr)
                (FallStroke.t_missing_start fr) (FallStroke.t_elapsed fr)) as I1.
  destruct (FallStroke.fall_module s FallStroke.iter_start
              (FallStroke.pose_landmarks fr) (FallStroke.t_missing_start fr)
              (FallStroke.t_elapsed fr)) as [s1 it1].
  cbn [fst snd] in F1, F2, F3, I1.
  destruct (FallStroke.stroke_module it1 (FallStroke.multi_face_landmarks fr))
    as [ it2 | ] eqn:Es; [ | discriminate ].
  pose proof (fs_stroke_colour it1 it2 _ I1 Es) as I2.
  destruct (FallStroke.gesture_module s1 it2 (FallStroke.multi_hand_landmarks fr)
              (FallStroke.multi_handedness fr) (FallStroke.t_hand fr))
    as [ [s3 it3] | ] eqn:Eg; [ | discriminate ].
  injection Hstep as <- <-.
  unfold FallStroke.compose_display.
  cbn [FallStroke.status_line FallStroke.display_color FallStroke.banner].
  split; [ reflexivity | ]. split; [ reflexivity | ].
  split; [ intros ->; reflexivity | ].
  intros Hne Hlen Hnc. rewrite Hne.
  destruct (fs_gesture_module_no_confirm s s1 s3 it2 it3 fr F1 F2 Hlen Hnc Eg)
    as [C1 C2].
  destruct (fs_gesture_module_kept _ _ _ _ _ _ _ Eg) as [_ [_ [K _]]].
  split; [ congruence | ].
  rewrite C1, K.
  destruct I2 as [ [R T] | [G T] ].
  - left. rewrite T. split; [ exact R | eauto ].
  - right. rewrite T. split; [ exact G | reflexivity ].
Qed.

Lemma C5_witness :
  exists s' d,
    FallStroke.frame_step (missing_since_state 100) (empty_frame 106)
      = Some (s', d) /\
    FallStroke.status_line d = "Status: Monitoring Active" /\
    ((FallStroke.display_color d = RED /\
      exists msg, FallStroke.banner d = Some ("ALERT: " ++ msg)) \/
     (FallStroke.display_color d = GREEN /\ FallStroke.banner d = None)).
Proof.
  eexists. eexists. split; [ reflexivity | ].
  destruct (C5_status_line_and_colour
              (missing_since_state 100) _ (empty_frame 106) _ eq_refl)
    as [_ [A [_ B]]].
  split; [ exact A | ].
  apply B.
  - reflexivity.
  - simpl. lia.
  - reflexivity.
Defined.

(* ------------------------------------------------------------------ *)
(** ** Sticky status *)

(** The confirmed text changes in a gesture block only by a confirmation. *)
Lemma fs_block_text_change (s : FallStroke.State) (it : FallStroke.Iter)
    (gesture : option string) (now : Q) :
  FallStroke.confirmed_text (fst (FallStroke.gesture_block s it gesture now))
    = FallStroke.confirmed_text s
  \/ exists L,
       gesture = Some L /\ FallStroke.current_gesture s = Some L /\
       FallStroke.GESTURE_HOLD_TIME < now - FallStroke.gesture_start_time s /\
       FallStroke.confirmed_text (fst (FallStroke.gesture_block s it gesture now))
         = FallStroke.status_of L.
Proof.
  destruct (FallStroke.confirming s gesture now) eqn:E.
  - right. unfold FallStroke.confirming in E.
    apply andb_true_iff in E. destruct E as [E Hq].
    apply andb_true_iff in E. destruct E as [Ht He].
    destruct gesture as [ L | ]; [ | discriminate ].
    apply eq_opt_str_true in He. apply Qgtb_true_iff in Hq.
    exists L. repeat split; try assumption.
    rewrite (fs_block_confirm s it L now Ht He Hq). reflexivity.
  - left. apply fs_block_no_confirm. exact E.
Qed.

Lemma og_block_text_change (s : OnlyGesture.State) (it : OnlyGesture.Iter)
    (gesture : option string) (now : Q) :
  OnlyGesture.confirmed_text (fst (OnlyGesture.gesture_block s it gesture now))
    = OnlyGesture.confirmed_text s
  \/ exists L,
       gesture = Some L /\ OnlyGesture.current_gesture s = Some L /\
       OnlyGesture.GESTURE_HOLD_TIME < now - OnlyGesture.gesture_start_time s /\
       OnlyGesture.confirmed_text (fst (OnlyGesture.gesture_block s it gesture now))
         = L.
Proof.
  unfold OnlyGesture.gesture_block.
  destruct (truthy_opt gesture) eqn:Ht; [ | left; reflexivity ].
  destruct gesture as [ L | ]; [ | discriminate ].
  destruct (eq_opt_str L (OnlyGesture.current_gesture s)) eqn:He;
    [ | left; reflexivity ].
  destruct (Qgtb _ _) eqn:Hq; [ | left; reflexivity ].
  right. exists L. apply eq_opt_str_true in He. apply Qgtb_true_iff in Hq.
  repeat split; assumption.
Qed.

(** Hands with unknown finger patterns clear the held gesture and leave the
    confirmed text as it is. *)
Lemma fs_hand_loop_quiet (handedness : list string) (clock : nat -> Q)
    (hands : list Hand) :
  forall (idx : nat) (s s' : FallStroke.State) (it it' : FallStroke.Iter),
    (forall k hand_lm label fingers,
        nth_error hands k = Some hand_lm ->
        nth_error handedness (idx + k) = Some label ->
        get_fingers_status hand_lm label = Some fingers ->
        FallStroke.identify_gesture fingers = None) ->
    FallStroke.hand_loop s it handedness clock idx hands = Some (s', it') ->
    FallStroke.confirmed_text s' = FallStroke.confirmed_text s /\
    (hands = [] \/ FallStroke.current_gesture s' = None).
Proof.
  induction hands as [ | h hands IH ]; intros idx s s' it it' Q H.
  - injection H as <- <-. auto.
  - simpl in H. unfold FallStroke.hand_iteration in H.
    destruct (nth_error handedness idx) as [ label | ] eqn:El;
      [ | discriminate ].
    destruct (get_fingers_status h label) as [ f | ] eqn:Ef; [ | discriminate ].
    assert (N : FallStroke.identify_gesture f = None).
    { apply (Q 0%nat h label f); [ reflexivity | | exact Ef ].
      rewrite Nat.add_0_r. exact El. }
    rewrite N in H.
    change (FallStroke.gesture_block s it None (clock idx))
      with (FallStroke.set_current_gesture None s, it) in H.
    cbv iota beta in H.
    assert (Q' : forall k hand_lm l' f',
               nth_error hands k = Some hand_lm ->
               nth_error handedness (S idx + k) = Some l' ->
               get_fingers_status hand_lm l' = Some f' ->
               FallStroke.identify_gesture f' = None).
    { intros k h' l' f' Hk Hl. apply (Q (S k) h' l' f'); [ exact Hk | ].
      rewrite Nat.add_succ_r. exact Hl. }
    destruct (IH (S idx) _ _ _ _ Q' H) as [A B].
    split; [ exact A | right ].
    destruct B as [ -> | B ]; [ | exact B ].
    injection H as <- <-. reflexivity.
Qed.

Lemma fs_frame_step_quiet (s s' : FallStroke.State) (fr : FallStroke.Frame)
    (d : FallStroke.Display) :
  FallStroke.quiet fr ->
  FallStroke.frame_step s fr = Some (s', d) ->
  FallStroke.confirmed_text s' = FallStroke.confirmed_text s /\
  FallStroke.current_gesture s' = None /\
  FallStroke.status_line d = "Status: " ++ FallStroke.confirmed_text s.
Proof.
  intros Q Hstep. unfold FallStroke.frame_step in Hstep.
  pose proof (fs_fall_gesture_fields s FallStroke.iter_start
                (FallStroke.pose_landmarks fr) (FallStroke.t_missing_start fr)
                (FallStroke.t_elapsed fr)) as [_ [_ F3]].
  destruct (FallStroke.fall_module s FallStroke.iter_start
              (FallStroke.pose_landmarks fr) (FallStroke.t_missing_start fr)
              (FallStroke.t_elapsed fr)) as [s1 it1].
  cbn [fst] in F3.
  destruct (FallStroke.stroke_module it1 (FallStroke.multi_face_landmarks fr))
    as [ it2 | ]; [ | discriminate ].
  destruct (FallStroke.gesture_module s1 it2 (FallStroke.multi_hand_landmarks fr)
              (FallStroke.multi_handedness fr) (FallStroke.t_hand fr))
    as [ [s3 it3] | ] eqn:Eg; [ | discriminate ].
  injection Hstep as <- <-.
  assert (G : FallStroke.confirmed_text s3 = FallStroke.confirmed_text s1 /\
              FallStroke.current_gesture s3 = None).
  { unfold FallStroke.gesture_module in Eg. unfold FallStroke.quiet in Q.
    destruct (FallStroke.multi_hand_landmarks fr) as [ | h hands ] eqn:Eh.
    - injection Eg as <- <-. split; reflexivity.
    - destruct (fs_hand_loop_quiet (FallStroke.multi_handedness fr)
                  (FallStroke.t_hand fr) (h :: hands) 0 s1 s3 it2 it3 Q Eg)
        as [A [ B | B ]];
        [ discriminate | split; assumption ]. }
  destruct G as [G1 G2].
  unfold FallStroke.compose_display. cbn [FallStroke.status_line].
  rewrite G1, F3. repeat split. exact G2.
Qed.

Lemma fs_run_quiet (frs : list FallStroke.Frame) :
  forall s s' : FallStroke.State,
    Forall FallStroke.quiet frs ->
    FallStroke.run s frs = Some s' ->
    FallStroke.confirmed_text s' = FallStroke.confirmed_text s /\
    (frs = [] \/ FallStroke.current_gesture s' = None).
Proof.
  induction frs as [ | fr frs IH ]; intros s s' F H.
  - injection H as <-. auto.
  - inversion F as [ | ? ? Q F' ]; subst. simpl in H.
    destruct (FallStroke.frame_step s fr) as [ [s1 d] | ] eqn:E;
      [ | discriminate ].
    destruct (fs_frame_step_quiet s s1 fr d Q E) as [A [B _]].
    destruct (IH s1 s' F' H) as [A' B'].
    split; [ congruence | right ].
    destruct B' as [ -> | B' ]; [ | exact B' ].
    injection H as <-. exact B.
Qed.

Lemma og_hand_loop_quiet (handedness : list string) (clock : nat -> Q)
    (hands : list Hand) :
  forall (idx : nat) (s s' : OnlyGesture.State) (it it' : OnlyGesture.Iter),
    handedness <> [] ->
    (forall k hand_lm label fingers,
        nth_error hands k = Some hand_lm ->
        nth_error handedness (idx + k) = Some label ->
        get_fingers_status hand_lm label = Some fingers ->
        OnlyGesture.identify_gesture fingers = None) ->
    OnlyGesture.hand_loop s it handedness clock idx hands = Some (s', it') ->
    OnlyGesture.confirmed_text s' = OnlyGesture.confirmed_text s /\
    (hands = [] \/ OnlyGesture.current_gesture s' = None).
Proof.
  induction hands as [ | h hands IH ]; intros idx s s' it it' NE Q H.
  - injection H as <- <-. auto.
  - simpl in H. unfold OnlyGesture.hand_iteration in H.
    destruct handedness as [ | l0 ls ] eqn:Ehd; [ contradiction | ].
    rewrite <- Ehd in *.
    destruct (nth_error handedness idx) as [ label | ] eqn:El;
      [ | discriminate ].
    destruct (get_fingers_status h label) as [ f | ] eqn:Ef; [ | discriminate ].
    assert (N : OnlyGesture.identify_gesture f = None).
    { apply (Q 0%nat h label f); [ reflexivity | | exact Ef ].
      rewrite Nat.add_0_r. exact El. }
    rewrite N in H.
    change (OnlyGesture.gesture_block s it None (clock idx))
      with (OnlyGesture.set_current_gesture None s, it) in H.
    cbv iota beta in H.
    assert (Q' : forall k hand_lm l' f',
               nth_error hands k = Some hand_lm ->
               nth_error handedness (S idx + k) = Some l' ->
               get_fingers_status hand_lm l' = Some f' ->
               OnlyGesture.identify_gesture f' = None).
    { intros k h' l' f' Hk Hl. apply (Q (S k) h' l' f'); [ exact Hk | ].
      rewrite Nat.add_succ_r. exact Hl. }
    destruct (IH (S idx) _ _ _ _ NE Q' H) as [A B].
    split; [ exact A | right ].
    destruct B as [ -> | B ]; [ | exact B ].
    injection H as <- <-. reflexivity.
Qed.

Lemma og_frame_step_quiet (s s' : OnlyGesture.State) (fr : OnlyGesture.Frame)
    (d : OnlyGesture.Display) :
  OnlyGesture.quiet fr ->
  OnlyGesture.frame_step s fr = Some (s', d) ->
  OnlyGesture.confirmed_text s' = OnlyGesture.confirmed_text s /\
  OnlyGesture.current_gesture s' = None /\
  OnlyGesture.status_line d = "Status: " ++ OnlyGesture.confirmed_text s.
Proof.
  intros Q Hstep. unfold OnlyGesture.frame_step in Hstep.
  destruct (OnlyGesture.gesture_module s OnlyGesture.iter_start
              (OnlyGesture.multi_hand_landmarks fr)
              (OnlyGesture.multi_handedness fr) (OnlyGesture.t_hand fr))
    as [ [s3 it3] | ] eqn:Eg; [ | discriminate ].
  injection Hstep as <- <-.
  assert (G : OnlyGesture.confirmed_text s3 = OnlyGesture.confirmed_text s /\
              OnlyGesture.current_gesture s3 = None).
  { unfold OnlyGesture.gesture_module in Eg.
    destruct Q as [ Q | [NE Q] ].
    - rewrite Q in Eg. injection Eg as <- <-. split; reflexivity.
    - destruct (OnlyGesture.multi_hand_landmarks fr) as [ | h hands ] eqn:Eh.
      + injection Eg as <- <-. split; reflexivity.
      + destruct (og_hand_loop_quiet (OnlyGesture.multi_handedness fr)
                    (OnlyGesture.t_hand fr) (h :: hands) 0 s s3
                    OnlyGesture.iter_start it3 NE Q Eg)
          as [A [ B | B ]];
          [ discriminate | split; assumption ]. }
  destruct G as [G1 G2].
  unfold OnlyGesture.compose_display. cbn [OnlyGesture.status_line].
  rewrite G1. repeat split. exact G2.
Qed.

Lemma og_run_quiet (frs : list OnlyGesture.Frame) :
  forall s s' : OnlyGesture.State,
    Forall OnlyGesture.quiet frs ->
    OnlyGesture.run s frs = Some s' ->
    OnlyGesture.confirmed_text s' = OnlyGesture.confirmed_text s /\
    (frs = [] \/ OnlyGesture.current_gesture s' = None).
Proof.
  induction frs as [ | fr frs IH ]; intros s s' F H.
  - injection H as <-. auto.
  - inversion F as [ | ? ? Q F' ]; subst. simpl in H.
    destruct (OnlyGesture.frame_step s fr) as [ [s1 d] | ] eqn:E;
      [ | discriminate ].
    destruct (og_frame_step_quiet s s1 fr d Q E) as [A [B _]].
    destruct (IH s1 s' F' H) as [A' B'].
    split; [ congruence | right ].
    destruct B' as [ -> | B' ]; [ | exact B' ].
    injection H as <-. exact B.
Qed.

(** C6.  In both scripts: through any run of frames on which no hand is
    reported or every reported hand has an unknown finger pattern, the
    confirmed text stays what it was -- in particular the text of a label
    confirmed earlier, never the idle text again -- while the held gesture
    is reset to none; and whatever is observed, a gesture block changes the
    confirmed text only by confirming a label that has been held for more
    than the hold time. *)
Theorem C6_sticky_status :
  forall (s s' : FallStroke.State) (frs : list FallStroke.Frame)
         (o o' : OnlyGesture.State) (ofrs : list OnlyGesture.Frame),
    Forall FallStroke.quiet frs ->
    FallStroke.run s frs = Some s' ->
    Forall OnlyGesture.quiet ofrs ->
    OnlyGesture.run o ofrs = Some o' ->
    (FallStroke.confirmed_text s' = FallStroke.confirmed_text s /\
     (frs = [] \/ FallStroke.current_gesture s' = None)) /\
    (OnlyGesture.confirmed_text o' = OnlyGesture.confirmed_text o /\
     (ofrs = [] \/ OnlyGesture.current_gesture o' = None)) /\
    (forall it gesture now,
        FallStroke.confirmed_text
          (fst (FallStroke.gesture_block s it gesture now))
          = FallStroke.confirmed_text s
        \/ exists L,
             gesture = Some L /\ FallStroke.current_gesture s = Some L /\
             3 < now - FallStroke.gesture_start_time s /\
             FallStroke.confirmed_text
               (fst (FallStroke.gesture_block s it gesture now))
               = FallStroke.status_of L) /\
    (forall it gesture now,
        OnlyGesture.confirmed_text
          (fst (OnlyGesture.gesture_block o it gesture now))
          = OnlyGesture.confirmed_text o
        \/ exists L,
             gesture = Some L /\ OnlyGesture.current_gesture o = Some L /\
             3 < now - OnlyGesture.gesture_start_time o /\
             OnlyGesture.confirmed_text
               (fst (OnlyGesture.gesture_block o it gesture now))
               = L).
Proof.
  intros s s' frs o o' ofrs F H F' H'.
  split; [ exact (fs_run_quiet frs s s' F H) | ].
  split; [ exact (og_run_quiet ofrs o o' F' H') | ].
  split.
  - intros it g now. apply fs_block_text_change.
  - intros it g now. apply og_block_text_change.
Qed.

Lemma empty_frame_quiet (t : Q) : FallStroke.quiet (empty_frame t).
Proof. intros [ | idx ] h l f Hh; discriminate Hh. Qed.

Lemma fist_frame_quiet (t : Q) : FallStroke.quiet (fist_frame t).
Proof.
  intros [ | [ | idx ] ] h l f Hh Hl Hf; try discriminate Hh.
  injection Hh as <-. injection Hl as <-.
  vm_compute in Hf. injection Hf as <-. reflexivity.
Qed.

Lemma og_fist_frame_quiet (t : Q) : OnlyGesture.quiet (og_fist_frame t).
Proof.
  right. split; [ discriminate | ].
  intros [ | [ | idx ] ] h l f Hh Hl Hf; try discriminate Hh.
  injection Hh as <-. injection Hl as <-.
  vm_compute in Hf. injection Hf as <-. reflexivity.
Qed.

Lemma C6_witness :
  exists s' o',
    FallStroke.run
      (FallStroke.mkState None false (Some "Want Restroom") 10 "Want Restroom")
      [fist_frame 14; empty_frame 15] = Some s' /\
    OnlyGesture.run
      (OnlyGesture.mkState (Some "Want Restroom") 10 "Want Restroom" GREEN)
      [og_fist_frame 14; og_empty_frame 15] = Some o' /\
    FallStroke.confirmed_text s' = "Want Restroom" /\
    OnlyGesture.confirmed_text o' = "Want Restroom".
Proof.
  eexists. eexists.
  split; [ reflexivity | ]. split; [ reflexivity | ].
  destruct (C6_sticky_status
              (FallStroke.mkState None false (Some "Want Restroom") 10
                                  "Want Restroom")
              (FallStroke.mkState (Some 15) false None 10 "Want Restroom")
              [fist_frame 14; empty_frame 15]
              (OnlyGesture.mkState (Some "Want Restroom") 10
                                   "Want Restroom" GREEN)
              (OnlyGesture.mkState None 10 "Want Restroom" GREEN)
              [og_fist_frame 14; og_empty_frame 15])
    as [[A _] [[B _] _]].
  - constructor; [ apply fist_frame_quiet | ].
    constructor; [ apply empty_frame_quiet | constructor ].
  - reflexivity.
  - constructor; [ apply og_fist_frame_quiet | ].
    constructor; [ left; reflexivity | constructor ].
  - reflexivity.
  - split; [ exact A | exact B ].
Defined.

(* ------------------------------------------------------------------ *)
(** ** The trackers inside the main loop *)

(** The gesture fields after a gesture block depend on the gesture fields
    before it only, not on the fall state or on the iteration locals. *)
Lemma fs_block_gesture_fields (s1 s2 : FallStroke.State)
    (it1 it2 : FallStroke.Iter) (gesture : option string) (now : Q) :
  FallStroke.current_gesture s1 = FallStroke.current_gesture s2 ->
  FallStroke.gesture_start_time s1 = FallStroke.gesture_start_time s2 ->
  FallStroke.confirmed_text s1 = FallStroke.confirmed_text s2 ->
  let r1 := fst (FallStroke.gesture_block s1 it1 gesture now) in
  let r2 := fst (FallStroke.gesture_block s2 it2 gesture now) in
  FallStroke.current_gesture r1 = FallStroke.current_gesture r2 /\
  FallStroke.gesture_start_time r1 = FallStroke.gesture_start_time r2 /\
  FallStroke.confirmed_text r1 = FallStroke.confirmed_text r2.
Proof.
  intros E1 E2 E3. unfold FallStroke.gesture_block. rewrite E1, E2.
  destruct (truthy_opt gesture); [ | cbn; auto ].
  destruct (eq_opt_str _ _); [ | cbn; auto ].
  destruct (Qgtb _ _); [ | cbn; auto ].
  destruct (String.eqb _ _); [ cbn; auto | ].
  cbn [FallStroke.confirmed_text FallStroke.set_confirmed_text].
  destruct (negb _); cbn; auto.
Qed.

(** On a frame with one hand, the tracker moves as [observe] says, with the
    label [identify_gesture] gives to the finger vector of that hand. *)
Lemma fs_frame_step_one_hand (s s' : FallStroke.State) (fr : FallStroke.Frame)
    (d : FallStroke.Display) (hand_lm : Hand) (label : string) (f : list Z) :
  FallStroke.multi_hand_landmarks fr = [hand_lm] ->
  nth_error (FallStroke.multi_handedness fr) 0 = Some label ->
  get_fingers_status hand_lm label = Some f ->
  FallStroke.frame_step s fr = Some (s', d) ->
  let o := FallStroke.observe s (FallStroke.identify_gesture f)
                              (FallStroke.t_hand fr 0) in
  FallStroke.current_gesture s' = FallStroke.current_gesture o /\
  FallStroke.gesture_start_time s' = FallStroke.gesture_start_time o /\
  FallStroke.confirmed_text s' = FallStroke.confirmed_text o.
Proof.
  intros Eh El Ef Hstep. unfold FallStroke.frame_step in Hstep.
  pose proof (fs_fall_gesture_fields s FallStroke.iter_start
                (FallStroke.pose_landmarks fr) (FallStroke.t_missing_start fr)
                (FallStroke.t_elapsed fr)) as [F1 [F2 F3]].
  destruct (FallStroke.fall_module s FallStroke.iter_start
              (FallStroke.pose_landmarks fr) (FallStroke.t_missing_start fr)
              (FallStroke.t_elapsed fr)) as [s1 it1].
  cbn [fst] in F1, F2, F3.
  destruct (FallStroke.stroke_module it1 (FallStroke.multi_face_landmarks fr))
    as [ it2 | ]; [ | discriminate ].
  rewrite Eh in Hstep. unfold FallStroke.gesture_module in Hstep.
  cbn [FallStroke.hand_loop] in Hstep.
  unfold FallStroke.hand_iteration in Hstep. rewrite El, Ef in Hstep.
  pose proof (fs_block_gesture_fields s1 s it2 FallStroke.iter_start
                (FallStroke.identify_gesture f) (FallStroke.t_hand fr 0)
                F1 F2 F3) as K.
  destruct (FallStroke.gesture_block s1 it2 (FallStroke.identify_gesture f)
                                     (FallStroke.t_hand fr 0)) as [s3 it3].
  injection Hstep as <- <-. exact K.
Qed.

(** A frame that could not be read advances neither script. *)
Lemma failed_read_skipped (s : FallStroke.State) (o : OnlyGesture.State) :
  FallStroke.main_loop_iteration s None = Some (s, None) /\
  OnlyGesture.main_loop_iteration o None = Some (o, None).
Proof. split; reflexivity. Qed.

(** In [only_gesture.py] the loop body is [gesture_block] as well. *)
Lemma og_frame_step_one_hand (s s' : OnlyGesture.State)
    (fr : OnlyGesture.Frame) (d : OnlyGesture.Display)
    (hand_lm : Hand) (label : string) (f : list Z) :
  OnlyGesture.multi_hand_landmarks fr = [hand_lm] ->
  nth_error (OnlyGesture.multi_handedness fr) 0 = Some label ->
  get_fingers_status hand_lm label = Some f ->
  OnlyGesture.frame_step s fr = Some (s', d) ->
  s' = OnlyGesture.observe s (OnlyGesture.identify_gesture f)
                           (OnlyGesture.t_hand fr 0).
Proof.
  intros Eh El Ef Hstep. unfold OnlyGesture.frame_step in Hstep.
  rewrite Eh in Hstep. unfold OnlyGesture.gesture_module in Hstep.
  cbn [OnlyGesture.hand_loop] in Hstep.
  unfold OnlyGesture.hand_iteration in Hstep.
  destruct (OnlyGesture.multi_handedness fr) as [ | l0 ls ] eqn:Ehd;
    [ discriminate El | ].
  rewrite El, Ef in Hstep. unfold OnlyGesture.observe.
  destruct (OnlyGesture.gesture_block s OnlyGesture.iter_start
              (OnlyGesture.identify_gesture f) (OnlyGesture.t_hand fr 0))
    as [s3 it3].
  injection Hstep as <- <-. reflexivity.
Qed.

(* ------------------------------------------------------------------ *)
(** ** More on the finger status *)

Lemma four_fingers_short (hand : Hand) :
  (length hand <= 20)%nat -> four_fingers hand [1; 2; 3; 4]%nat = None.
Proof.
  intro H.
  assert (E : finger_status hand 4 = None).
  { unfold finger_status.
    change (nth_error TIP_IDS 4) with (Some 20%nat). cbv iota.
    assert (N : nth_error hand 20 = None) by (apply nth_error_None; exact H).
    rewrite N. reflexivity. }
  cbn [four_fingers]. rewrite E.
  destruct (finger_status hand 1); [ | reflexivity ].
  destruct (finger_status hand 2); [ | reflexivity ].
  destruct (finger_status hand 3); reflexivity.
Qed.

(** X1.  [get_fingers_status] raises exactly on hands with fewer than 21
    landmarks; on any other hand, whatever the label, it returns five
    entries, each 0 or 1. *)
Theorem X1_get_fingers_status_needs_21_landmarks :
  forall (hand : Hand) (label : string),
    match get_fingers_status hand label with
    | Some f => (21 <= length hand)%nat /\ is_finger_vector f
    | None => (length hand < 21)%nat
    end.
Proof.
  intros hand label.
  destruct (Nat.le_gt_cases 21 (length hand)) as [ Hlong | Hshort ].
  - destruct (get_fingers_status_total hand label Hlong) as [f E].
    rewrite E. split; [ exact Hlong | ].
    exact (get_fingers_status_vector hand label f E).
  - unfold get_fingers_status.
    rewrite (four_fingers_short hand); [ | lia ].
    destruct (thumb_status hand label); exact Hshort.
Qed.

Lemma Qltb_mirror (a b : Q) : Qltb (1 - a) (1 - b) = Qgtb a b.
Proof.
  unfold Qltb, Qgtb. f_equal.
  destruct (Qle_bool (1 - b) (1 - a)) eqn:E1; destruct (Qle_bool a b) eqn:E2;
    try reflexivity; exfalso.
  - apply Qle_bool_iff in E1.
    assert (N : ~ a <= b) by (intro K; apply Qle_bool_iff in K; congruence).
    apply N. lra.
  - apply Qle_bool_iff in E2.
    assert (N : ~ 1 - b <= 1 - a)
      by (intro K; apply Qle_bool_iff in K; congruence).
    apply N. lra.
Qed.

Lemma Qgtb_mirror (a b : Q) : Qgtb (1 - a) (1 - b) = Qltb a b.
Proof.
  unfold Qltb, Qgtb. f_equal.
  destruct (Qle_bool (1 - a) (1 - b)) eqn:E1; destruct (Qle_bool b a) eqn:E2;
    try reflexivity; exfalso.
  - apply Qle_bool_iff in E1.
    assert (N : ~ b <= a) by (intro K; apply Qle_bool_iff in K; congruence).
    apply N. lra.
  - apply Qle_bool_iff in E2.
    assert (N : ~ 1 - a <= 1 - b)
      by (intro K; apply Qle_bool_iff in K; congruence).
    apply N. lra.
Qed.

Lemma finger_status_mirror (hand : Hand) (i : nat) :
  finger_status (mirror_hand hand) i = finger_status hand i.
Proof.
  unfold finger_status, mirror_hand.
  destruct (nth_error TIP_IDS i) as [ tip | ]; [ | reflexivity ].
  rewrite !nth_error_map.
  destruct (nth_error hand tip); [ | reflexivity ].
  destruct (nth_error hand (tip - 2)); reflexivity.
Qed.

Lemma four_fingers_mirror (hand : Hand) (idxs : list nat) :
  four_fingers (mirror_hand hand) idxs = four_fingers hand idxs.
Proof.
  induction idxs as [ | i idxs IH ]; [ reflexivity | ].
  cbn [four_fingers]. rewrite finger_status_mirror, IH. reflexivity.
Qed.

(** X2.  The thumb logic is mirror safe: a left or right hand and its mirror
    image, labelled with the other side, get the same finger status. *)
Theorem X2_get_fingers_status_mirror_safe :
  forall (hand : Hand) (label : string),
    label = "Left" \/ label = "Right" ->
    get_fingers_status (mirror_hand hand) (swap_side label)
      = get_fingers_status hand label.
Proof.
  intros hand label Hl. unfold get_fingers_status.
  rewrite four_fingers_mirror.
  assert (T : thumb_status (mirror_hand hand) (swap_side label)
              = thumb_status hand label).
  { unfold thumb_status, mirror_hand. rewrite !nth_error_map.
    destruct (nth_error hand 4) as [ tip | ]; [ | reflexivity ].
    destruct (nth_error hand 3) as [ ip | ]; [ | reflexivity ].
    cbn [option_map x].
    destruct Hl as [ -> | -> ]; cbn [swap_side String.eqb].
    - change (String.eqb "Left" "Left") with true.
      change (String.eqb "Right" "Left") with false.
      cbv iota. rewrite Qgtb_mirror. reflexivity.
    - change (String.eqb "Right" "Left") with false.
      change (String.eqb "Left" "Left") with true.
      cbv iota. rewrite Qltb_mirror. reflexivity. }
  rewrite T. reflexivity.
Qed.

Lemma X2_witness :
  get_fingers_status (mirror_hand (sample_hand 0 1 (-1))) "Right"
    = get_fingers_status (sample_hand 0 1 (-1)) "Left"
  /\ get_fingers_status (sample_hand 0 1 (-1)) "Left" = Some [1; 1; 0; 0; 0]%Z.
Proof.
  split; [ | reflexivity ].
  apply (X2_get_fingers_status_mirror_safe (sample_hand 0 1 (-1)) "Left").
  left. reflexivity.
Defined.

(* ------------------------------------------------------------------ *)
(** ** More on the classifier *)

Lemma table_lookup_Some (table : list (list Z * string)) (f : list Z)
    (l : string) :
  table_lookup table f = Some l -> In (f, l) table.
Proof.
  induction table as [ | [p l'] table IH ]; simpl; [ discriminate | ].
  destruct (list_Z_eqb f p) eqn:E.
  - intro H. injection H as <-. apply list_Z_eqb_eq in E. subst p. auto.
  - auto.
Qed.

Lemma table_lookup_None (table : list (list Z * string)) (f : list Z) :
  table_lookup table f = None -> ~ In f (map fst table).
Proof.
  induction table as [ | [p l'] table IH ]; simpl; [ tauto | ].
  destruct (list_Z_eqb f p) eqn:E; [ discriminate | ].
  intros H [ K | K ].
  - subst p. rewrite (proj2 (list_Z_eqb_eq f f) eq_refl) in E. discriminate.
  - exact (IH H K).
Qed.

(** In a table without repeated labels, a label has one pattern. *)
Lemma table_label_unique (table : list (list Z * string)) (f g : list Z)
    (l : string) :
  NoDup (map snd table) -> In (f, l) table -> In (g, l) table -> f = g.
Proof.
  induction table as [ | [p l'] table IH ]; simpl; [ tauto | ].
  intros N Hf Hg. inversion N as [ | ? ? Hnot N' ]; subst.
  destruct Hf as [ Hf | Hf ]; destruct Hg as [ Hg | Hg ].
  - congruence.
  - injection Hf as -> ->. exfalso. apply Hnot.
    change l with (snd (g, l)). apply in_map. exact Hg.
  - injection Hg as -> ->. exfalso. apply Hnot.
    change l with (snd (f, l)). apply in_map. exact Hf.
  - exact (IH N' Hf Hg).
Qed.

Lemma fs_table_labels_nodup : NoDup (map snd FallStroke.gesture_table).
Proof.
  simpl. repeat (constructor; [ simpl; intuition discriminate | ]).
  constructor.
Qed.

Lemma og_table_labels_nodup : NoDup (map snd OnlyGesture.gesture_table).
Proof.
  simpl. repeat (constructor; [ simpl; intuition discriminate | ]).
  constructor.
Qed.

Lemma fs_table_entries (f : list Z) (l : string) :
  In (f, l) FallStroke.gesture_table ->
  is_finger_vector f /\ truthy_str l = true.
Proof.
  simpl. intro H.
  repeat (destruct H as [ H | H ];
          [ injection H as <- <-;
            split; [ split; [ reflexivity
                            | repeat (apply Forall_cons; [ auto | ]);
                              apply Forall_nil ]
                   | reflexivity ]
          | ]).
  contradiction.
Qed.

Lemma og_table_entries (f : list Z) (l : string) :
  In (f, l) OnlyGesture.gesture_table ->
  is_finger_vector f /\ truthy_str l = true.
Proof.
  simpl. intro H.
  repeat (destruct H as [ H | H ];
          [ injection H as <- <-;
            split; [ split; [ reflexivity
                            | repeat (apply Forall_cons; [ auto | ]);
                              apply Forall_nil ]
                   | reflexivity ]
          | ]).
  contradiction.
Qed.

(** X3.  In either script, [identify_gesture] labels a list only if it is
    one of the five-bit patterns of the script's table, the label is never
    the empty string (so the test [if gesture:] fails for [None] only), and
    two lists with the same label are the same list: a label tells the
    finger pattern.  A list that is no pattern of the table -- for one, any
    list that is not made of five bits -- gets [None]. *)
Theorem X3_identify_gesture_is_a_bijective_table :
  (forall f,
      match FallStroke.identify_gesture f with
      | Some l => In (f, l) FallStroke.gesture_table /\
                  is_finger_vector f /\ truthy_str l = true
      | None => ~ In f (map fst FallStroke.gesture_table)
      end) /\
  (forall f g l,
      FallStroke.identify_gesture f = Some l ->
      FallStroke.identify_gesture g = Some l -> f = g) /\
  (forall f,
      match OnlyGesture.identify_gesture f with
      | Some l => In (f, l) OnlyGesture.gesture_table /\
                  is_finger_vector f /\ truthy_str l = true
      | None => ~ In f (map fst OnlyGesture.gesture_table)
      end) /\
  (forall f g l,
      OnlyGesture.identify_gesture f = Some l ->
      OnlyGesture.identify_gesture g = Some l -> f = g).
Proof.
  split; [ | split; [ | split ] ].
  - intro f. rewrite fs_identify_is_lookup.
    destruct (table_lookup FallStroke.gesture_table f) as [ l | ] eqn:E.
    + pose proof (table_lookup_Some _ _ _ E) as I.
      split; [ exact I | exact (fs_table_entries f l I) ].
    + exact (table_lookup_None _ _ E).
  - intros f g l Hf Hg. rewrite fs_identify_is_lookup in Hf, Hg.
    exact (table_label_unique _ f g l fs_table_labels_nodup
             (table_lookup_Some _ _ _ Hf) (table_lookup_Some _ _ _ Hg)).
  - intro f. rewrite og_identify_is_lookup.
    destruct (table_lookup OnlyGesture.gesture_table f) as [ l | ] eqn:E.
    + pose proof (table_lookup_Some _ _ _ E) as I.
      split; [ exact I | exact (og_table_entries f l I) ].
    + exact (table_lookup_None _ _ E).
  - intros f g l Hf Hg. rewrite og_identify_is_lookup in Hf, Hg.
    exact (table_label_unique _ f g l og_table_labels_nodup
             (table_lookup_Some _ _ _ Hf) (table_lookup_Some _ _ _ Hg)).
Qed.

(* ------------------------------------------------------------------ *)
(** ** More on the asymmetry score *)

(** X4.  [get_mouth_asymmetry] raises exactly on landmark lists with fewer
    than 292 entries (landmark 291 is the highest it reads); otherwise it
    returns a score that is not negative. *)
Theorem X4_get_mouth_asymmetry_needs_292_landmarks :
  forall face_landmarks : list Landmark,
    match FallStroke.get_mouth_asymmetry face_landmarks with
    | Some a => (292 <= length face_landmarks)%nat /\ 0 <= a
    | None => (length face_landmarks < 292)%nat
    end.
Proof.
  intro fl.
  destruct (Nat.le_gt_cases 292 (length fl)) as [ Hlong | Hshort ].
  - unfold FallStroke.get_mouth_asymmetry.
    destruct (nth_error_in_range fl 61) as [? ->]; [ lia | ].
    destruct (nth_error_in_range fl 291) as [? ->]; [ lia | ].
    destruct (nth_error_in_range fl 1) as [? ->]; [ lia | ].
    split; [ exact Hlong | apply Qabs_nonneg ].
  - unfold FallStroke.get_mouth_asymmetry.
    assert (N : nth_error fl 291 = None) by (apply nth_error_None; lia).
    rewrite N. destruct (nth_error fl 61); exact Hshort.
Qed.




(* ------------------------------------------------------------------ *)
(** ** The alert line in full *)

(** The stroke module on an iteration that has raised no alert yet. *)
Lemma fs_stroke_cases (it it2 : FallStroke.Iter) (faces : list (list Landmark)) :
  FallStroke.top_alert_text it = "" ->
  FallStroke.stroke_module it faces = Some it2 ->
  (exists face rest a,
      faces = face :: rest /\
      FallStroke.get_mouth_asymmetry face = Some a /\
      FallStroke.FACE_ASYMMETRY_THRESHOLD < a /\
      FallStroke.top_alert_text it2 = "POSSIBLE STROKE DETECTED")
  \/
  ((faces = [] \/
    exists face rest a,
      faces = face :: rest /\
      FallStroke.get_mouth_asymmetry face = Some a /\
      a <= FallStroke.FACE_ASYMMETRY_THRESHOLD) /\
   FallStroke.top_alert_text it2 = "").
Proof.
  intros T. unfold FallStroke.stroke_module.
  destruct faces as [ | face rest ].
  - intro E. injection E as <-. right. split; [ left; reflexivity | exact T ].
  - destruct (FallStroke.get_mouth_asymmetry face) as [ a | ] eqn:Ea;
      [ | discriminate ].
    destruct (Qgtb a FallStroke.FACE_ASYMMETRY_THRESHOLD) eqn:Eq.
    + rewrite T. cbn [String.eqb]. intro E. injection E as <-.
      left. exists face, rest, a. apply Qgtb_true_iff in Eq.
      repeat split; assumption.
    + intro E. injection E as <-. right. apply Qgtb_false_iff in Eq.
      split; [ right; exists face, rest, a; repeat split; assumption
             | exact T ].
Qed.

(** X6.  Which alert line an iteration of [gesture_fall_storke.py] draws.
    If the body is absent and [elapsed] exceeds [BODY_MISSING_THRESHOLD],
    the fall line is drawn and [fall_alert_active] is set.  Otherwise, if a
    face is detected whose asymmetry exceeds [FACE_ASYMMETRY_THRESHOLD], the
    stroke line is drawn.  Otherwise (no face, or asymmetry not above the
    threshold) no alert line is drawn at all.  Hands and gestures play no
    part in it. *)
Theorem X6_alert_line_cases :
  forall (s s' : FallStroke.State) (fr : FallStroke.Frame)
         (d : FallStroke.Display),
    FallStroke.frame_step s fr = Some (s', d) ->
    let elapsed := FallStroke.t_elapsed fr - FallStroke.missing_since s fr in
    (FallStroke.pose_landmarks fr = false /\
     FallStroke.BODY_MISSING_THRESHOLD < elapsed /\
     FallStroke.banner d = Some "ALERT: FALL DETECTED / PATIENT MISSING" /\
     FallStroke.fall_alert_active s' = true)
    \/
    ((FallStroke.pose_landmarks fr = true \/
      elapsed <= FallStroke.BODY_MISSING_THRESHOLD) /\
     (exists face rest a,
         FallStroke.multi_face_landmarks fr = face :: rest /\
         FallStroke.get_mouth_asymmetry face = Some a /\
         FallStroke.FACE_ASYMMETRY_THRESHOLD < a) /\
     FallStroke.banner d = Some "ALERT: POSSIBLE STROKE DETECTED")
    \/
    ((FallStroke.pose_landmarks fr = true \/
      elapsed <= FallStroke.BODY_MISSING_THRESHOLD) /\
     (FallStroke.multi_face_landmarks fr = [] \/
      exists face rest a,
        FallStroke.multi_face_landmarks fr = face :: rest /\
        FallStroke.get_mouth_asymmetry face = Some a /\
        a <= FallStroke.FACE_ASYMMETRY_THRESHOLD) /\
     FallStroke.banner d = None).
Proof.
  intros s s' fr d Hstep elapsed. unfold FallStroke.frame_step in Hstep.
  (* what module A leaves *)
  assert (A : (FallStroke.pose_landmarks fr = false /\
               FallStroke.BODY_MISSING_THRESHOLD < elapsed /\
               FallStroke.top_alert_text
                 (snd (FallStroke.fall_module s FallStroke.iter_start
                         (FallStroke.pose_landmarks fr)
                         (FallStroke.t_missing_start fr)
                         (FallStroke.t_elapsed fr)))
                 = "FALL DETECTED / PATIENT MISSING" /\
               FallStroke.fall_alert_active
                 (fst (FallStroke.fall_module s FallStroke.iter_start
                         (FallStroke.pose_landmarks fr)
                         (FallStroke.t_missing_start fr)
                         (FallStroke.t_elapsed fr))) = true)
              \/
              ((FallStroke.pose_landmarks fr = true \/
                elapsed <= FallStroke.BODY_MISSING_THRESHOLD) /\
               FallStroke.top_alert_text
                 (snd (FallStroke.fall_module s FallStroke.iter_start
                         (FallStroke.pose_landmarks fr)
                         (FallStroke.t_missing_start fr)
                         (FallStroke.t_elapsed fr))) = "")).
  { destruct (FallStroke.pose_landmarks fr) eqn:Ep.
    - right. split; [ left; reflexivity | reflexivity ].
    - destruct (fs_fall_absent s FallStroke.iter_start
                  (FallStroke.t_missing_start fr) (FallStroke.t_elapsed fr)
                  (FallStroke.missing_since s fr) eq_refl)
        as [_ [_ [_ [_ [ [E [Al [T _]]] | [E [_ [T _]]] ]]]]].
      + left. repeat split; assumption.
      + right. split; [ right; exact E | exact T ]. }
  destruct (FallStroke.fall_module s FallStroke.iter_start
              (FallStroke.pose_landmarks fr) (FallStroke.t_missing_start fr)
              (FallStroke.t_elapsed fr)) as [s1 it1].
  cbn [fst snd] in A.
  destruct (FallStroke.stroke_module it1 (FallStroke.multi_face_landmarks fr))
    as [ it2 | ] eqn:Es; [ | discriminate ].
  destruct (FallStroke.gesture_module s1 it2 (FallStroke.multi_hand_landmarks fr)
              (FallStroke.multi_handedness fr) (FallStroke.t_hand fr))
    as [ [s3 it3] | ] eqn:Eg; [ | discriminate ].
  injection Hstep as <- <-.
  destruct (fs_gesture_module_kept _ _ _ _ _ _ _ Eg) as [_ [K2 [K3 _]]].
  unfold FallStroke.compose_display. cbn [FallStroke.banner]. rewrite K3.
  destruct A as [ [Ep [El [T Al]]] | [Ep T] ].
  - left. apply (fs_stroke_keeps_fall it1 it2 _ T) in Es. subst it2.
    rewrite T, K2, Al. repeat split; assumption.
  - right.
    destruct (fs_stroke_cases it1 it2 _ T Es)
      as [ [face [rest [a [Ef [Ea [Ha T2]]]]]] | [Hf T2] ]; rewrite T2.
    + left. split; [ exact Ep | ]. split; [ | reflexivity ].
      exists face, rest, a. repeat split; assumption.
    + right. split; [ exact Ep | ]. split; [ exact Hf | reflexivity ].
Qed.

Lemma X6_witness :
  exists s' d,
    FallStroke.frame_step (missing_since_state 100) (skewed_face_frame 103)
      = Some (s', d) /\
    FallStroke.banner d = Some "ALERT: POSSIBLE STROKE DETECTED".
Proof.
  eexists. eexists. split; [ reflexivity | ].
  destruct (X6_alert_line_cases
              (missing_since_state 100) _ (skewed_face_frame 103) _ eq_refl)
    as [ [_ [E _]] | [ [_ [_ B]] | [_ [ [ F | [face [rest [a [F [Ea La]]]]] ] _]] ] ].
  - exfalso. vm_compute in E. discriminate E.
  - exact B.
  - discriminate F.
  - exfalso. injection F as <- <-. vm_compute in Ea. injection Ea as <-.
    vm_compute in La. apply La. reflexivity.
Defined.

(* ------------------------------------------------------------------ *)
(** ** The two trackers do not interfere *)

Lemma fs_hand_loop_gesture_fields (handedness : list string)
    (clock1 clock2 : nat -> Q) (hands : list Hand) :
  (forall i, clock1 i = clock2 i) ->
  forall (idx : nat) (s1 s2 s1' s2' : FallStroke.State)
         (it1 it2 it1' it2' : FallStroke.Iter),
    same_gesture_fields s1 s2 ->
    FallStroke.hand_loop s1 it1 handedness clock1 idx hands = Some (s1', it1') ->
    FallStroke.hand_loop s2 it2 handedness clock2 idx hands = Some (s2', it2') ->
    same_gesture_fields s1' s2'.
Proof.
  intro Hc. induction hands as [ | h hands IH ];
    intros idx s1 s2 s1' s2' it1 it2 it1' it2' E H1 H2.
  - injection H1 as <- <-. injection H2 as <- <-. exact E.
  - cbn [FallStroke.hand_loop] in H1, H2.
    unfold FallStroke.hand_iteration in H1, H2.
    destruct (nth_error handedness idx) as [ label | ]; [ | discriminate ].
    destruct (get_fingers_status h label) as [ f | ]; [ | discriminate ].
    rewrite <- (Hc idx) in H2.
    destruct E as [E1 [E2 E3]].
    pose proof (fs_block_gesture_fields s1 s2 it1 it2
                  (FallStroke.identify_gesture f) (clock1 idx) E1 E2 E3) as K.
    destruct (FallStroke.gesture_block s1 it1 (FallStroke.identify_gesture f)
                                       (clock1 idx)) as [sa ia].
    destruct (FallStroke.gesture_block s2 it2 (FallStroke.identify_gesture f)
                                       (clock1 idx)) as [sb ib].
    exact (IH (S idx) sa sb s1' s2' ia ib it1' it2' K H1 H2).
Qed.

Lemma fs_fall_fall_fields (s1 s2 : FallStroke.State)
    (it1 it2 : FallStroke.Iter) (body : bool) (ta tb : Q) :
  same_fall_fields s1 s2 ->
  same_fall_fields (fst (FallStroke.fall_module s1 it1 body ta tb))
                   (fst (FallStroke.fall_module s2 it2 body ta tb)).
Proof.
  intros [E1 E2]. unfold FallStroke.fall_module, same_fall_fields.
  destruct body; cbn [negb]; cbv zeta; [ split; reflexivity | ].
  rewrite E1. destruct (Qgtb _ _); cbn; rewrite ?E1, ?E2; split; reflexivity.
Qed.

(** X7.  In [gesture_fall_storke.py] the two trackers are independent.  The
    fall data after an iteration ([body_missing_start], [fall_alert_active])
    depend only on the fall data before it, on whether a pose was detected
    and on the clock readings of module A; the gesture data
    ([current_gesture], [gesture_start_time], [confirmed_text]) depend only
    on the gesture data before it, on the hands with their handedness and
    on the clock readings of module C.  The detected faces influence
    neither: the stroke module keeps no state. *)
Theorem X7_trackers_are_independent :
  forall (sa sb sa' sb' : FallStroke.State) (fra frb : FallStroke.Frame)
         (da db : FallStroke.Display),
    FallStroke.frame_step sa fra = Some (sa', da) ->
    FallStroke.frame_step sb frb = Some (sb', db) ->
    (same_fall_fields sa sb ->
     FallStroke.pose_landmarks fra = FallStroke.pose_landmarks frb ->
     FallStroke.t_missing_start fra = FallStroke.t_missing_start frb ->
     FallStroke.t_elapsed fra = FallStroke.t_elapsed frb ->
     same_fall_fields sa' sb')
    /\
    (same_gesture_fields sa sb ->
     FallStroke.multi_hand_landmarks fra = FallStroke.multi_hand_landmarks frb ->
     FallStroke.multi_handedness fra = FallStroke.multi_handedness frb ->
     (forall i, FallStroke.t_hand fra i = FallStroke.t_hand frb i) ->
     same_gesture_fields sa' sb').
Proof.
  intros sa sb sa' sb' fra frb da db Ha Hb.
  unfold FallStroke.frame_step in Ha, Hb.
  pose proof (fs_fall_gesture_fields sa FallStroke.iter_start
                (FallStroke.pose_landmarks fra) (FallStroke.t_missing_start fra)
                (FallStroke.t_elapsed fra)) as Ga.
  pose proof (fs_fall_gesture_fields sb FallStroke.iter_start
                (FallStroke.pose_landmarks frb) (FallStroke.t_missing_start frb)
                (FallStroke.t_elapsed frb)) as Gb.
  pose proof (fun E => fs_fall_fall_fields sa sb FallStroke.iter_start
                FallStroke.iter_start (FallStroke.pose_landmarks fra)
                (FallStroke.t_missing_start fra) (FallStroke.t_elapsed fra) E)
    as Fab.
  destruct (FallStroke.fall_module sa FallStroke.iter_start
              (FallStroke.pose_landmarks fra) (FallStroke.t_missing_start fra)
              (FallStroke.t_elapsed fra)) as [sa1 ia1] eqn:Fa.
  destruct (FallStroke.fall_module sb FallStroke.iter_start
              (FallStroke.pose_landmarks frb) (FallStroke.t_missing_start frb)
              (FallStroke.t_elapsed frb)) as [sb1 ib1] eqn:Fb.
  cbn [fst] in Ga, Gb.
  destruct (FallStroke.stroke_module ia1 (FallStroke.multi_face_landmarks fra))
    as [ ia2 | ]; [ | discriminate ].
  destruct (FallStroke.stroke_module ib1 (FallStroke.multi_face_landmarks frb))
    as [ ib2 | ]; [ | discriminate ].
  destruct (FallStroke.gesture_module sa1 ia2 (FallStroke.multi_hand_landmarks fra)
              (FallStroke.multi_handedness fra) (FallStroke.t_hand fra))
    as [ [sa3 ia3] | ] eqn:Ea; [ | discriminate ].
  destruct (FallStroke.gesture_module sb1 ib2 (FallStroke.multi_hand_landmarks frb)
              (FallStroke.multi_handedness frb) (FallStroke.t_hand frb))
    as [ [sb3 ib3] | ] eqn:Eb; [ | discriminate ].
  injection Ha as <- <-. injection Hb as <- <-.
  split.
  - intros E Ep Et1 Et2.
    destruct (fs_gesture_module_kept _ _ _ _ _ _ _ Ea) as [Ka1 [Ka2 _]].
    destruct (fs_gesture_module_kept _ _ _ _ _ _ _ Eb) as [Kb1 [Kb2 _]].
    rewrite <- Ep, <- Et1, <- Et2 in Fb. specialize (Fab E).
    rewrite Fb in Fab. cbn [fst] in Fab. destruct Fab as [F1 F2].
    unfold same_fall_fields. split; congruence.
  - intros E Eh Ehd Ec.
    assert (E1 : same_gesture_fields sa1 sb1).
    { destruct E as [E1 [E2 E3]]. destruct Ga as [Ga1 [Ga2 Ga3]].
      destruct Gb as [Gb1 [Gb2 Gb3]]. unfold same_gesture_fields.
      repeat split; congruence. }
    unfold FallStroke.gesture_module in Ea, Eb.
    rewrite <- Eh, <- Ehd in Eb.
    destruct (FallStroke.multi_hand_landmarks fra) as [ | h hands ].
    + injection Ea as <- <-. injection Eb as <- <-.
      destruct E1 as [_ [E2 E3]]. unfold same_gesture_fields. cbn.
      repeat split; assumption.
    + exact (fs_hand_loop_gesture_fields _ _ _ _ Ec 0%nat sa1 sb1 sa3 sb3
               ia2 ib2 ia3 ib3 E1 Ea Eb).
Qed.

Lemma X7_witness :
  exists sa' sb' da db,
    FallStroke.frame_step (missing_since_state 100) (skewed_face_frame 106)
      = Some (sa', da) /\
    FallStroke.frame_step FallStroke.initial_state (empty_frame 106)
      = Some (sb', db) /\
    same_gesture_fields sa' sb'.
Proof.
  eexists. eexists. eexists. eexists.
  split; [ reflexivity | ]. split; [ reflexivity | ].
  apply (proj2 (X7_trackers_are_independent
                  (missing_since_state 100) FallStroke.initial_state _ _
                  (skewed_face_frame 106) (empty_frame 106) _ _
                  eq_refl eq_refl)).
  - repeat split.
  - reflexivity.
  - reflexivity.
  - intro i. reflexivity.
Defined.

(* ------------------------------------------------------------------ *)
(** ** What every reachable state satisfies *)

Lemma fs_identify_label (f : list Z) (g : string) :
  FallStroke.identify_gesture f = Some g -> In g FallStroke.gesture_labels.
Proof.
  rewrite fs_identify_is_lookup. intro E.
  destruct (table_lookup_range FallStroke.gesture_table f)
    as [ N | [l [E' I]] ]; [ congruence | ].
  rewrite E in E'. injection E' as <-. exact I.
Qed.

Lemma fs_block_invariant (s : FallStroke.State) (it : FallStroke.Iter)
    (f : list Z) (now : Q) :
  fs_invariant s ->
  fs_invariant (fst (FallStroke.gesture_block s it
                       (FallStroke.identify_gesture f) now)).
Proof.
  intros [I1 [I2 I3]].
  pose proof (fs_block_kept s it (FallStroke.identify_gesture f) now)
    as [K1 [K2 _]].
  split; [ rewrite K1, K2; exact I1 | ].
  destruct (FallStroke.identify_gesture f) as [ g | ] eqn:Eg.
  - pose proof (fs_identify_label f g Eg) as Lg.
    unfold FallStroke.gesture_block.
    destruct (truthy_opt (Some g)); [ | split; [ exact I2 | left; reflexivity ] ].
    destruct (eq_opt_str g (FallStroke.current_gesture s)).
    + destruct (Qgtb _ _); [ | split; assumption ].
      assert (Ls : In (FallStroke.status_of g)
                      ("Monitoring Active"
                         :: map FallStroke.status_of FallStroke.gesture_labels))
        by (right; apply in_map; exact Lg).
      unfold FallStroke.status_of in Ls.
      destruct (String.eqb g "THUMB_EMERGENCY").
      * split; [ exact Ls | exact I3 ].
      * cbn [FallStroke.confirmed_text FallStroke.set_confirmed_text].
        destruct (negb _); split; assumption.
    + split; [ exact I2 | right; exists g; split; [ reflexivity | exact Lg ] ].
  - split; [ exact I2 | left; reflexivity ].
Qed.

Lemma fs_hand_loop_invariant (handedness : list string) (clock : nat -> Q)
    (hands : list Hand) :
  forall (idx : nat) (s s' : FallStroke.State) (it it' : FallStroke.Iter),
    fs_invariant s ->
    FallStroke.hand_loop s it handedness clock idx hands = Some (s', it') ->
    fs_invariant s'.
Proof.
  induction hands as [ | h hands IH ]; intros idx s s' it it' I H.
  - injection H as <- <-. exact I.
  - cbn [FallStroke.hand_loop] in H. unfold FallStroke.hand_iteration in H.
    destruct (nth_error handedness idx) as [ label | ]; [ | discriminate ].
    destruct (get_fingers_status h label) as [ f | ]; [ | discriminate ].
    pose proof (fs_block_invariant s it f (clock idx) I) as I'.
    destruct (FallStroke.gesture_block s it (FallStroke.identify_gesture f)
                                       (clock idx)) as [s1 it1].
    exact (IH _ _ _ _ _ I' H).
Qed.

Lemma fs_fall_invariant (s : FallStroke.State) (it : FallStroke.Iter)
    (body : bool) (ta tb : Q) :
  fs_invariant s ->
  fs_invariant (fst (FallStroke.fall_module s it body ta tb)).
Proof.
  intros [I1 [I2 I3]].
  destruct (fs_fall_gesture_fields s it body ta tb) as [G1 [G2 G3]].
  split; [ | rewrite G1, G3; split; assumption ].
  unfold FallStroke.fall_module. destruct body; cbn [negb]; cbv zeta.
  - discriminate.
  - destruct (Qgtb _ _); intros _; eexists; reflexivity.
Qed.

Lemma fs_frame_step_invariant (s s' : FallStroke.State)
    (fr : FallStroke.Frame) (d : FallStroke.Display) :
  fs_invariant s ->
  FallStroke.frame_step s fr = Some (s', d) ->
  fs_invariant s'.
Proof.
  intros I Hstep. unfold FallStroke.frame_step in Hstep.
  pose proof (fs_fall_invariant s FallStroke.iter_start
                (FallStroke.pose_landmarks fr) (FallStroke.t_missing_start fr)
                (FallStroke.t_elapsed fr) I) as I1.
  destruct (FallStroke.fall_module s FallStroke.iter_start
              (FallStroke.pose_landmarks fr) (FallStroke.t_missing_start fr)
              (FallStroke.t_elapsed fr)) as [s1 it1].
  cbn [fst] in I1.
  destruct (FallStroke.stroke_module it1 (FallStroke.multi_face_landmarks fr))
    as [ it2 | ]; [ | discriminate ].
  destruct (FallStroke.gesture_module s1 it2 (FallStroke.multi_hand_landmarks fr)
              (FallStroke.multi_handedness fr) (FallStroke.t_hand fr))
    as [ [s3 it3] | ] eqn:Eg; [ | discriminate ].
  injection Hstep as <- <-.
  unfold FallStroke.gesture_module in Eg.
  destruct (FallStroke.multi_hand_landmarks fr) as [ | h hands ].
  - injection Eg as <- <-. destruct I1 as [J1 [J2 J3]].
    split; [ exact J1 | split; [ exact J2 | left; reflexivity ] ].
  - exact (fs_hand_loop_invariant _ _ _ _ _ _ _ _ I1 Eg).
Qed.

Lemma fs_run_invariant (frs : list FallStroke.Frame) :
  forall s s' : FallStroke.State,
    fs_invariant s -> FallStroke.run s frs = Some s' -> fs_invariant s'.
Proof.
  induction frs as [ | fr frs IH ]; intros s s' I H.
  - injection H as <-. exact I.
  - simpl in H.
    destruct (FallStroke.frame_step s fr) as [ [s1 d] | ] eqn:E;
      [ | discriminate ].
    exact (IH s1 s' (fs_frame_step_invariant s s1 fr d I E) H).
Qed.

Lemma fs_initial_invariant : fs_invariant FallStroke.initial_state.
Proof.
  split; [ discriminate | ]. split; [ left; reflexivity | left; reflexivity ].
Qed.

(** X8.  In every state [gesture_fall_storke.py] reaches from its initial
    state: an active fall alert comes with a recorded absence start; the
    confirmed text is ["Monitoring Active"] or the status text of one of the
    seven labels; the held gesture, if any, is one of the seven labels.  So
    the test ["EMERGENCY" in confirmed_text] of the display composition
    holds exactly when the confirmed text is
    ["EMERGENCY: THUMB TRIGGERED"]. *)
Theorem X8_reachable_states :
  forall (frs : list FallStroke.Frame) (s' : FallStroke.State),
    FallStroke.run FallStroke.initial_state frs = Some s' ->
    fs_invariant s' /\
    (py_in "EMERGENCY" (FallStroke.confirmed_text s') = true <->
     FallStroke.confirmed_text s' = "EMERGENCY: THUMB TRIGGERED").
Proof.
  intros frs s' H.
  pose proof (fs_run_invariant frs _ s' fs_initial_invariant H) as I.
  split; [ exact I | ].
  destruct I as [_ [I2 _]]. simpl in I2.
  repeat (destruct I2 as [ <- | I2 ];
          [ split; intro K; [ try discriminate K; reflexivity
                            | try discriminate K; reflexivity ]
          | ]).
  contradiction.
Qed.

Lemma X8_witness :
  exists s',
    FallStroke.run FallStroke.initial_state [empty_frame 100; fist_frame 101]
      = Some s' /\
    fs_invariant s'.
Proof.
  eexists. split; [ reflexivity | ].
  exact (proj1 (X8_reachable_states [empty_frame 100; fist_frame 101] _ eq_refl)).
Defined.

Lemma og_identify_label (f : list Z) (g : string) :
  OnlyGesture.identify_gesture f = Some g ->
  In g (map snd OnlyGesture.gesture_table).
Proof.
  rewrite og_identify_is_lookup. intro E.
  destruct (table_lookup_range OnlyGesture.gesture_table f)
    as [ N | [l [E' I]] ]; [ congruence | ].
  rewrite E in E'. injection E' as <-. exact I.
Qed.

Lemma og_block_invariant (s : OnlyGesture.State) (it : OnlyGesture.Iter)
    (f : list Z) (now : Q) :
  og_invariant s ->
  og_invariant (fst (OnlyGesture.gesture_block s it
                       (OnlyGesture.identify_gesture f) now)).
Proof.
  intros [I1 [I2 I3]].
  destruct (OnlyGesture.identify_gesture f) as [ g | ] eqn:Eg.
  - pose proof (og_identify_label f g Eg) as Lg.
    unfold OnlyGesture.gesture_block.
    destruct (truthy_opt (Some g));
      [ | split; [ exact I1 | split; [ exact I2 | left; reflexivity ] ] ].
    destruct (eq_opt_str g (OnlyGesture.current_gesture s)).
    + destruct (Qgtb _ _); [ | split; [ exact I1 | split; assumption ] ].
      split; [ reflexivity | ]. split; [ right; exact Lg | exact I3 ].
    + split; [ exact I1 | ].
      split; [ exact I2 | right; exists g; split; [ reflexivity | exact Lg ] ].
  - split; [ exact I1 | split; [ exact I2 | left; reflexivity ] ].
Qed.

Lemma og_hand_loop_invariant (handedness : list string) (clock : nat -> Q)
    (hands : list Hand) :
  forall (idx : nat) (s s' : OnlyGesture.State) (it it' : OnlyGesture.Iter),
    og_invariant s ->
    OnlyGesture.hand_loop s it handedness clock idx hands = Some (s', it') ->
    og_invariant s'.
Proof.
  induction hands as [ | h hands IH ]; intros idx s s' it it' I H.
  - injection H as <- <-. exact I.
  - cbn [OnlyGesture.hand_loop] in H. unfold OnlyGesture.hand_iteration in H.
    destruct handedness as [ | l0 ls ] eqn:Ehd.
    + exact (IH _ _ _ _ _ I H).
    + rewrite <- Ehd in *.
      destruct (nth_error handedness idx) as [ label | ]; [ | discriminate ].
      destruct (get_fingers_status h label) as [ f | ]; [ | discriminate ].
      pose proof (og_block_invariant s it f (clock idx) I) as I'.
      destruct (OnlyGesture.gesture_block s it (OnlyGesture.identify_gesture f)
                                          (clock idx)) as [s1 it1].
      exact (IH _ _ _ _ _ I' H).
Qed.

Lemma og_frame_step_invariant (s s' : OnlyGesture.State)
    (fr : OnlyGesture.Frame) (d : OnlyGesture.Display) :
  og_invariant s ->
  OnlyGesture.frame_step s fr = Some (s', d) ->
  og_invariant s' /\ OnlyGesture.display_color d = GREEN.
Proof.
  intros I Hstep. unfold OnlyGesture.frame_step in Hstep.
  destruct (OnlyGesture.gesture_module s OnlyGesture.iter_start
              (OnlyGesture.multi_hand_landmarks fr)
              (OnlyGesture.multi_handedness fr) (OnlyGesture.t_hand fr))
    as [ [s3 it3] | ] eqn:Eg; [ | discriminate ].
  injection Hstep as <- <-.
  assert (I' : og_invariant s3).
  { unfold OnlyGesture.gesture_module in Eg.
    destruct (OnlyGesture.multi_hand_landmarks fr) as [ | h hands ].
    - injection Eg as <- <-. destruct I as [J1 [J2 J3]].
      split; [ exact J1 | split; [ exact J2 | left; reflexivity ] ].
    - exact (og_hand_loop_invariant _ _ _ _ _ _ _ _ I Eg). }
  split; [ exact I' | ]. destruct I' as [G _]. exact G.
Qed.

Lemma og_run_invariant (frs : list OnlyGesture.Frame) :
  forall s s' : OnlyGesture.State,
    og_invariant s -> OnlyGesture.run s frs = Some s' -> og_invariant s'.
Proof.
  induction frs as [ | fr frs IH ]; intros s s' I H.
  - injection H as <-. exact I.
  - simpl in H.
    destruct (OnlyGesture.frame_step s fr) as [ [s1 d] | ] eqn:E;
      [ | discriminate ].
    exact (IH s1 s' (proj1 (og_frame_step_invariant s s1 fr d I E)) H).
Qed.

Lemma og_initial_invariant : og_invariant OnlyGesture.initial_state.
Proof.
  split; [ reflexivity | ]. split; [ left; reflexivity | left; reflexivity ].
Qed.

(** X9.  [only_gesture.py] never shows its status line in another colour
    than green: in every state it reaches from its initial state
    [status_color] is green, the confirmed text is ["Monitoring Active"] or
    one of the six labels of its table, the held gesture, if any, is one of
    these labels, and the display of any further frame is green. *)
Theorem X9_only_gesture_is_always_green :
  forall (frs : list OnlyGesture.Frame) (s s' : OnlyGesture.State)
         (fr : OnlyGesture.Frame) (d : OnlyGesture.Display),
    OnlyGesture.run OnlyGesture.initial_state frs = Some s ->
    OnlyGesture.frame_step s fr = Some (s', d) ->
    og_invariant s /\ og_invariant s' /\
    OnlyGesture.display_color d = GREEN /\
    OnlyGesture.status_line d = "Status: " ++ OnlyGesture.confirmed_text s'.
Proof.
  intros frs s s' fr d Hrun Hstep.
  pose proof (og_run_invariant frs _ s og_initial_invariant Hrun) as I.
  destruct (og_frame_step_invariant s s' fr d I Hstep) as [I' G].
  repeat split; try apply I; try apply I'; try exact G.
  unfold OnlyGesture.frame_step in Hstep.
  destruct (OnlyGesture.gesture_module _ _ _ _ _) as [ [s3 it3] | ];
    [ | discriminate ].
  injection Hstep as <- <-. reflexivity.
Qed.

Lemma X9_witness :
  exists s s' d,
    OnlyGesture.run OnlyGesture.initial_state
      [og_fist_frame 1; og_empty_frame 2] = Some s /\
    OnlyGesture.frame_step s (og_fist_frame 3) = Some (s', d) /\
    OnlyGesture.display_color d = GREEN.
Proof.
  eexists. eexists. eexists.
  split; [ reflexivity | ]. split; [ reflexivity | ].
  exact (proj1 (proj2 (proj2 (X9_only_gesture_is_always_green
                                [og_fist_frame 1; og_empty_frame 2] _ _
                                (og_fist_frame 3) _ eq_refl eq_refl)))).
Defined.

(* ------------------------------------------------------------------ *)
(** ** Interrupted timers *)

(** X10.  A dropout restarts the hold.  Let [L] be held since [t0] without
    having been confirmed.  One frame on which the classifier gives nothing
    (or no hand is seen: both clear [current_gesture]) and then [L] again at
    time [t1]: the hold starts anew at [t1], however long ago [t0] is, the
    confirmed text is still untouched, and it stays so while the frames
    come within the hold time of [t1].  This holds in both scripts. *)
Theorem X10_dropout_restarts_the_hold :
  forall (L : string) (t0 tn t1 : Q) (before again : list Q)
         (s : FallStroke.State) (o : OnlyGesture.State),
    truthy_str L = true ->
    FallStroke.current_gesture s <> Some L ->
    OnlyGesture.current_gesture o <> Some L ->
    Forall (fun u => u - t0 <= 3) before ->
    Forall (fun u => u - t1 <= 3) again ->
    (let s2 := FallStroke.observe (FallStroke.hold s L (t0 :: before)) None tn in
     let s3 := FallStroke.hold s2 L (t1 :: again) in
     FallStroke.current_gesture s2 = None /\
     FallStroke.current_gesture s3 = Some L /\
     FallStroke.gesture_start_time s3 = t1 /\
     FallStroke.confirmed_text s3 = FallStroke.confirmed_text s)
    /\
    (let o2 := OnlyGesture.observe (OnlyGesture.hold o L (t0 :: before)) None tn in
     let o3 := OnlyGesture.hold o2 L (t1 :: again) in
     OnlyGesture.current_gesture o2 = None /\
     OnlyGesture.current_gesture o3 = Some L /\
     OnlyGesture.gesture_start_time o3 = t1 /\
     OnlyGesture.confirmed_text o3 = OnlyGesture.confirmed_text o).
Proof.
  intros L t0 tn t1 before again s o TL NC NC' F F'.
  split.
  - set (sa := FallStroke.set_gesture_start_time t0
                 (FallStroke.set_current_gesture (Some L) s)).
    assert (E1 : FallStroke.hold s L (t0 :: before) = sa).
    { unfold FallStroke.hold. simpl fold_left.
      unfold FallStroke.observe at 2.
      rewrite (fs_block_new s _ L t0 TL NC). simpl fst.
      exact (fs_hold_counting L before sa TL eq_refl F). }
    cbv zeta. rewrite E1.
    change (FallStroke.observe sa None tn)
      with (FallStroke.set_current_gesture None sa).
    set (s2 := FallStroke.set_current_gesture None sa).
    set (sb := FallStroke.set_gesture_start_time t1
                 (FallStroke.set_current_gesture (Some L) s2)).
    assert (E3 : FallStroke.hold s2 L (t1 :: again) = sb).
    { unfold FallStroke.hold. simpl fold_left.
      unfold FallStroke.observe at 2.
      rewrite (fs_block_new s2 _ L t1 TL); [ | discriminate ]. simpl fst.
      exact (fs_hold_counting L again sb TL eq_refl F'). }
    rewrite E3. repeat split.
  - set (sa := OnlyGesture.set_gesture_start_time t0
                 (OnlyGesture.set_current_gesture (Some L) o)).
    assert (E1 : OnlyGesture.hold o L (t0 :: before) = sa).
    { unfold OnlyGesture.hold. simpl fold_left.
      unfold OnlyGesture.observe at 2.
      rewrite (og_block_new o _ L t0 TL NC'). simpl fst.
      exact (og_hold_counting L before sa TL eq_refl F). }
    cbv zeta. rewrite E1.
    change (OnlyGesture.observe sa None tn)
      with (OnlyGesture.set_current_gesture None sa).
    set (s2 := OnlyGesture.set_current_gesture None sa).
    set (sb := OnlyGesture.set_gesture_start_time t1
                 (OnlyGesture.set_current_gesture (Some L) s2)).
    assert (E3 : OnlyGesture.hold s2 L (t1 :: again) = sb).
    { unfold OnlyGesture.hold. simpl fold_left.
      unfold OnlyGesture.observe at 2.
      rewrite (og_block_new s2 _ L t1 TL); [ | discriminate ]. simpl fst.
      exact (og_hold_counting L again sb TL eq_refl F'). }
    rewrite E3. repeat split.
Qed.

Lemma X10_witness :
  FallStroke.confirmed_text
    (FallStroke.hold
       (FallStroke.observe
          (FallStroke.hold FallStroke.initial_state "Want Restroom"
                           [10; 11; 12])
          None (25 # 2))
       "Want Restroom" [13; 14; 15])
  = "Monitoring Active".
Proof.
  pose proof (X10_dropout_restarts_the_hold
                "Want Restroom" 10 (25 # 2) 13 [11; 12] [14; 15]
                FallStroke.initial_state OnlyGesture.initial_state
                eq_refl) as W.
  destruct W as [[_ [_ [_ A]]] _].
  - discriminate.
  - discriminate.
  - repeat (apply Forall_cons; [ unfold Qle; simpl; lia | ]). apply Forall_nil.
  - repeat (apply Forall_cons; [ unfold Qle; simpl; lia | ]). apply Forall_nil.
  - exact A.
Defined.

(** X11.  A detection restarts the fall timer.  After any run of absent
    frames, one frame with the body detected clears the absence start and
    the alert; on the next absent frame the absence start is the clock value
    read on that frame, and the alert is raised on it exactly when that
    frame's own [elapsed] exceeds the threshold: time spent absent before
    the detection does not count. *)
Theorem X11_detection_restarts_the_fall_timer :
  forall (s : FallStroke.State) (it : FallStroke.Iter)
         (ts : list (Q * Q)) (ta tb a1 b1 : Q),
    let s1 := FallStroke.absent_run s ts in
    let s2 := fst (FallStroke.fall_module s1 it true ta tb) in
    let s3 := FallStroke.absent s2 (a1, b1) in
    FallStroke.body_missing_start s2 = None /\
    FallStroke.fall_alert_active s2 = false /\
    FallStroke.body_missing_start s3 = Some a1 /\
    (FallStroke.fall_alert_active s3 = true <->
     FallStroke.BODY_MISSING_THRESHOLD < b1 - a1).
Proof.
  intros s it ts ta tb a1 b1 s1 s2 s3.
  split; [ reflexivity | ]. split; [ reflexivity | ].
  destruct (fs_fall_absent s2 FallStroke.iter_start a1 b1 a1 eq_refl)
    as [S3 [_ [_ [_ D]]]].
  split; [ exact S3 | ].
  unfold s3, FallStroke.absent. cbn [fst snd].
  destruct D as [ [E [A _]] | [E [A _]] ]; rewrite A.
  - tauto.
  - change (FallStroke.fall_alert_active s2) with false.
    split; [ discriminate | intro K; exfalso; lra ].
Qed.

(* ------------------------------------------------------------------ *)
(** ** The two countdowns *)

Lemma ceil_countdown_range (e1 e2 : Q) :
  0 <= e1 -> e1 <= e2 -> e2 <= 3 ->
  (0 <= math_ceil (3 - e2) <= math_ceil (3 - e1))%Z /\
  (math_ceil (3 - e1) <= 3)%Z.
Proof.
  intros H0 H12 H3. unfold math_ceil.
  split; [ split | ].
  - assert (K : 0 <= 3 - e2) by lra.
    exact (Qceiling_resp_le 0 (3 - e2) K).
  - apply Qceiling_resp_le. lra.
  - assert (K : 3 - e1 <= 3) by lra.
    exact (Qceiling_resp_le (3 - e1) 3 K).
Qed.

(** X12.  While a label is held, the number in ["Holding: <n>s"] lies
    between 0 and 3 as long as elapsed lies between 0 and the hold time, and
    it never goes up from one frame to a later one.  This holds in both
    scripts. *)
Theorem X12_holding_countdown_range :
  forall (L : string) (now later : Q)
         (s : FallStroke.State) (it it' : FallStroke.Iter)
         (o : OnlyGesture.State) (jt jt' : OnlyGesture.Iter),
    truthy_str L = true ->
    FallStroke.current_gesture s = Some L ->
    OnlyGesture.current_gesture o = Some L ->
    FallStroke.gesture_start_time s <= now ->
    OnlyGesture.gesture_start_time o <= now ->
    now <= later ->
    later - FallStroke.gesture_start_time s <= 3 ->
    later - OnlyGesture.gesture_start_time o <= 3 ->
    (exists n m : Z,
        FallStroke.countdown_text
          (snd (FallStroke.gesture_block s it (Some L) now))
          = "Holding: " ++ py_str n ++ "s" /\
        FallStroke.countdown_text
          (snd (FallStroke.gesture_block s it' (Some L) later))
          = "Holding: " ++ py_str m ++ "s" /\
        (0 <= m <= n)%Z /\ (n <= 3)%Z)
    /\
    (exists n m : Z,
        OnlyGesture.countdown_text
          (snd (OnlyGesture.gesture_block o jt (Some L) now))
          = "Holding: " ++ py_str n ++ "s" /\
        OnlyGesture.countdown_text
          (snd (OnlyGesture.gesture_block o jt' (Some L) later))
          = "Holding: " ++ py_str m ++ "s" /\
        (0 <= m <= n)%Z /\ (n <= 3)%Z).
Proof.
  intros L now later s it it' o jt jt' TL C C' H0 H0' Hl H3 H3'.
  split.
  - rewrite (fs_block_counting s it L now TL C);
      [ | unfold FallStroke.GESTURE_HOLD_TIME; lra ].
    rewrite (fs_block_counting s it' L later TL C H3).
    eexists. eexists. split; [ reflexivity | ]. split; [ reflexivity | ].
    apply ceil_countdown_range; lra.
  - rewrite (og_block_counting o jt L now TL C');
      [ | unfold OnlyGesture.GESTURE_HOLD_TIME; lra ].
    rewrite (og_block_counting o jt' L later TL C' H3').
    eexists. eexists. split; [ reflexivity | ]. split; [ reflexivity | ].
    apply ceil_countdown_range; lra.
Qed.

Lemma X12_witness :
  exists n m : Z,
    FallStroke.countdown_text
      (snd (FallStroke.gesture_block
              (FallStroke.mkState None false (Some "Uncomfortable") 10
                                  "Monitoring Active")
              FallStroke.iter_start (Some "Uncomfortable") (21 # 2)))
      = "Holding: " ++ py_str n ++ "s" /\
    FallStroke.countdown_text
      (snd (FallStroke.gesture_block
              (FallStroke.mkState None false (Some "Uncomfortable") 10
                                  "Monitoring Active")
              FallStroke.iter_start (Some "Uncomfortable") (25 # 2)))
      = "Holding: " ++ py_str m ++ "s" /\
    (0 <= m <= n)%Z /\ (n <= 3)%Z.
Proof.
  refine (proj1 (X12_holding_countdown_range
                   "Uncomfortable" (21 # 2) (25 # 2)
                   (FallStroke.mkState None false (Some "Uncomfortable") 10
                                       "Monitoring Active")
                   FallStroke.iter_start FallStroke.iter_start
                   (OnlyGesture.mkState (Some "Uncomfortable") 10
                                        "Monitoring Active" GREEN)
                   OnlyGesture.iter_start OnlyGesture.iter_start
                   eq_refl eq_refl eq_refl _ _ _ _ _));
    unfold Qle; simpl; lia.
Defined.



(* ------------------------------------------------------------------ *)
(** ** Hands without handedness *)




(* ------------------------------------------------------------------ *)
(** ** The main loop *)

Section MainLoopFacts.

Variables S F D : Type.
Variable iteration : S -> option F -> option (S * option D).

(** Ticks after a [break] or an exception are never looked at; otherwise a
    run over [pre ++ post] is the run over [pre] followed by the run over
    [post] from the state reached. *)
Lemma main_loop_app (pre post : list (option F * Z)) :
  forall s : S,
    main_loop iteration s (pre ++ post)
    = match main_loop iteration s pre with
      | (ds, Exhausted s1) =>
          let (ds', e) := main_loop iteration s1 post in ((ds ++ ds')%list, e)
      | r => r
      end.
Proof.
  induction pre as [ | [read key] pre IH ]; intro s.
  - simpl. destruct (main_loop iteration s post). reflexivity.
  - cbn [app main_loop].
    destruct (iteration s read) as [ [s' [ d | ]] | ]; [ | apply IH | reflexivity ].
    destruct (quit_pressed key); [ reflexivity | ].
    rewrite IH.
    destruct (main_loop iteration s' pre) as [ds [ | s1 | s1 ]];
      try reflexivity.
    destruct (main_loop iteration s1 post). reflexivity.
Qed.

Hypothesis failed_read : forall s, iteration s None = Some (s, None).

(** Failed reads leave no trace. *)
Lemma main_loop_skips_failed_reads (ticks : list (option F * Z)) :
  forall s : S,
    main_loop iteration s (successful_reads ticks)
    = main_loop iteration s ticks.
Proof.
  induction ticks as [ | [read key] ticks IH ]; intro s; [ reflexivity | ].
  destruct read as [ fr | ].
  - cbn [successful_reads filter fst main_loop].
    destruct (iteration s (Some fr)) as [ [s' [ d | ]] | ];
      [ | apply IH | reflexivity ].
    destruct (quit_pressed key); [ reflexivity | ].
    fold (successful_reads ticks). rewrite IH. reflexivity.
  - cbn [successful_reads filter fst main_loop]. rewrite failed_read.
    apply IH.
Qed.

End MainLoopFacts.

Lemma quit_pressed_low_byte (key : Z) :
  quit_pressed key = true <-> (key mod 256 = 113)%Z.
Proof.
  unfold quit_pressed. rewrite Z.eqb_eq.
  change 255%Z with (Z.ones 8). rewrite Z.land_ones by lia.
  change (2 ^ 8)%Z with 256%Z. tauto.
Qed.

(** X15.  The main loop of both scripts.  A frame that cannot be read is
    skipped altogether: it changes no state, shows nothing and the keyboard
    is not polled on it, so a run is the same as the run over its
    successful reads alone.  The loop stops after an iteration exactly when
    the low byte of the key code is that of [q] (113), whatever the higher
    bits are; without a key ([cv2.waitKey] gives -1) it goes on.  Ticks that
    follow a stop or an exception are never processed. *)
Theorem X15_main_loop :
  (forall (s : FallStroke.State) ticks,
      main_loop FallStroke.main_loop_iteration s (successful_reads ticks)
      = main_loop FallStroke.main_loop_iteration s ticks) /\
  (forall (o : OnlyGesture.State) ticks,
      main_loop OnlyGesture.main_loop_iteration o (successful_reads ticks)
      = main_loop OnlyGesture.main_loop_iteration o ticks) /\
  (forall (s : FallStroke.State) pre post,
      main_loop FallStroke.main_loop_iteration s (pre ++ post)
      = match main_loop FallStroke.main_loop_iteration s pre with
        | (ds, Exhausted s1) =>
            let (ds', e) := main_loop FallStroke.main_loop_iteration s1 post in
            ((ds ++ ds')%list, e)
        | r => r
        end) /\
  (forall (o : OnlyGesture.State) pre post,
      main_loop OnlyGesture.main_loop_iteration o (pre ++ post)
      = match main_loop OnlyGesture.main_loop_iteration o pre with
        | (ds, Exhausted o1) =>
            let (ds', e) := main_loop OnlyGesture.main_loop_iteration o1 post in
            ((ds ++ ds')%list, e)
        | r => r
        end) /\
  (forall (s : FallStroke.State) fr key,
      main_loop FallStroke.main_loop_iteration s [(Some fr, key)]
      = match FallStroke.frame_step s fr with
        | None => ([], Raised)
        | Some (s', d) =>
            ([d], if Z.eqb (key mod 256) 113 then Stopped s' else Exhausted s')
        end) /\
  quit_pressed (-1) = false.
Proof.
  split; [ intros s ticks; apply main_loop_skips_failed_reads; reflexivity | ].
  split; [ intros o ticks; apply main_loop_skips_failed_reads; reflexivity | ].
  split; [ intros s pre post; apply main_loop_app | ].
  split; [ intros o pre post; apply main_loop_app | ].
  split; [ | reflexivity ].
  intros s fr key. cbn [main_loop FallStroke.main_loop_iteration].
  destruct (FallStroke.frame_step s fr) as [ [s' d] | ]; [ | reflexivity ].
  destruct (quit_pressed key) eqn:Q.
  - apply quit_pressed_low_byte in Q. rewrite Q. reflexivity.
  - destruct (Z.eqb (key mod 256) 113) eqn:E; [ | reflexivity ].
    apply Z.eqb_eq in E. apply quit_pressed_low_byte in E. congruence.
Qed.

(* ------------------------------------------------------------------ *)
(** ** When an iteration raises *)






(* ------------------------------------------------------------------ *)
(** ** The two scripts side by side *)

Lemma blocks_agree (s : FallStroke.State) (o : OnlyGesture.State)
    (it : FallStroke.Iter) (jt : OnlyGesture.Iter)
    (gesture : option string) (now : Q) :
  same_tracker s o ->
  gesture <> Some "THUMB_EMERGENCY" ->
  FallStroke.countdown_text it = OnlyGesture.countdown_text jt ->
  same_tracker (fst (FallStroke.gesture_block s it gesture now))
               (fst (OnlyGesture.gesture_block o jt gesture now)) /\
  FallStroke.countdown_text (snd (FallStroke.gesture_block s it gesture now))
    = OnlyGesture.countdown_text
        (snd (OnlyGesture.gesture_block o jt gesture now)).
Proof.
  intros [E1 [E2 E3]] NE Ec.
  unfold FallStroke.gesture_block, OnlyGesture.gesture_block.
  rewrite E1, E2.
  change FallStroke.GESTURE_HOLD_TIME with OnlyGesture.GESTURE_HOLD_TIME.
  destruct (truthy_opt gesture) eqn:Ht;
    [ | split; [ repeat split; assumption | exact Ec ] ].
  destruct gesture as [ g | ]; [ | discriminate ].
  destruct (eq_opt_str g (OnlyGesture.current_gesture o));
    [ | split; [ repeat split; assumption | exact Ec ] ].
  destruct (Qgtb _ _).
  - assert (N : String.eqb g "THUMB_EMERGENCY" = false).
    { destruct (String.eqb g "THUMB_EMERGENCY") eqn:E; [ | reflexivity ].
      apply String.eqb_eq in E. subst g. contradiction. }
    rewrite N.
    cbn [FallStroke.confirmed_text FallStroke.set_confirmed_text].
    destruct (negb _); split; try exact Ec; repeat split; assumption.
  - split; [ repeat split; assumption | reflexivity ].
Qed.

(** X17.  The hold trackers of the two scripts are the same machine except
    for the emergency label.  Started with the same held gesture, start time
    and confirmed text, and fed the same observations at the same times,
    none of them ["THUMB_EMERGENCY"], they end with the same held gesture,
    start time and confirmed text.  [only_gesture.py] never observes
    ["THUMB_EMERGENCY"], which is no label of its table. *)
Theorem X17_hold_trackers_agree_off_the_emergency_label :
  forall (obs : list (option string * Q))
         (s : FallStroke.State) (o : OnlyGesture.State),
    same_tracker s o ->
    Forall (fun p => fst p <> Some "THUMB_EMERGENCY") obs ->
    same_tracker
      (fold_left (fun st p => FallStroke.observe st (fst p) (snd p)) obs s)
      (fold_left (fun st p => OnlyGesture.observe st (fst p) (snd p)) obs o)
    /\ forall f, OnlyGesture.identify_gesture f <> Some "THUMB_EMERGENCY".
Proof.
  intros obs s o E F. split.
  - revert s o E. induction F as [ | [g t] obs Hg F IH ]; intros s o E.
    + exact E.
    + cbn [fold_left fst snd]. apply IH.
      exact (proj1 (blocks_agree s o FallStroke.iter_start
                      OnlyGesture.iter_start g t E Hg eq_refl)).
  - intros f H. apply og_identify_label in H. simpl in H.
    repeat (destruct H as [ H | H ]; [ discriminate H | ]). contradiction.
Qed.

Lemma X17_witness :
  same_tracker
    (fold_left (fun st p => FallStroke.observe st (fst p) (snd p))
       [(Some "Call Caregiver", 1); (Some "Call Caregiver", 3);
        (Some "Call Caregiver", 5); (None, 6)]
       FallStroke.initial_state)
    (fold_left (fun st p => OnlyGesture.observe st (fst p) (snd p))
       [(Some "Call Caregiver", 1); (Some "Call Caregiver", 3);
        (Some "Call Caregiver", 5); (None, 6)]
       OnlyGesture.initial_state).
Proof.
  apply (X17_hold_trackers_agree_off_the_emergency_label
           [(Some "Call Caregiver", 1); (Some "Call Caregiver", 3);
            (Some "Call Caregiver", 5); (None, 6)]
           FallStroke.initial_state OnlyGesture.initial_state).
  - repeat split.
  - repeat (apply Forall_cons; [ discriminate | ]). apply Forall_nil.
Defined.

(* ------------------------------------------------------------------ *)
(** ** The status colour on a confirming frame *)

Lemma fs_plain_label_no_emergency (g : string) :
  In g FallStroke.gesture_labels -> g <> "THUMB_EMERGENCY" ->
  String.eqb g "THUMB_EMERGENCY" = false /\ py_in "EMERGENCY" g = false /\
  truthy_str g = true.
Proof.
  simpl. intros H N.
  destruct H as [ <- | H ]; [ contradiction | ].
  repeat (destruct H as [ <- | H ]; [ repeat split | ]). contradiction.
Qed.

(** X18.  On a frame of [gesture_fall_storke.py] with one hand whose gesture
    is being confirmed (it is the held label and its hold has lasted more
    than the hold time): if the label is not the emergency one, the status
    line shows the label in green even when the fall or stroke alert line
    is drawn on the same frame; if it is the emergency one, the status
    line shows ["EMERGENCY: THUMB TRIGGERED"] in red. *)
Theorem X18_status_colour_on_a_confirming_frame :
  forall (s s' : FallStroke.State) (fr : FallStroke.Frame)
         (d : FallStroke.Display) (hand_lm : Hand) (label g : string)
         (f : list Z),
    FallStroke.multi_hand_landmarks fr = [hand_lm] ->
    nth_error (FallStroke.multi_handedness fr) 0 = Some label ->
    get_fingers_status hand_lm label = Some f ->
    FallStroke.identify_gesture f = Some g ->
    FallStroke.current_gesture s = Some g ->
    FallStroke.GESTURE_HOLD_TIME
      < FallStroke.t_hand fr 0 - FallStroke.gesture_start_time s ->
    FallStroke.frame_step s fr = Some (s', d) ->
    (g <> "THUMB_EMERGENCY" /\
     FallStroke.status_line d = "Status: " ++ g /\
     FallStroke.display_color d = GREEN)
    \/
    (g = "THUMB_EMERGENCY" /\
     FallStroke.status_line d = "Status: EMERGENCY: THUMB TRIGGERED" /\
     FallStroke.display_color d = RED).
Proof.
  intros s s' fr d h label g f Eh El Ef Eg C H Hstep.
  unfold FallStroke.frame_step in Hstep.
  pose proof (fs_fall_gesture_fields s FallStroke.iter_start
                (FallStroke.pose_landmarks fr) (FallStroke.t_missing_start fr)
                (FallStroke.t_elapsed fr)) as [F1 [F2 _]].
  destruct (FallStroke.fall_module s FallStroke.iter_start
              (FallStroke.pose_landmarks fr) (FallStroke.t_missing_start fr)
              (FallStroke.t_elapsed fr)) as [s1 it1].
  cbn [fst] in F1, F2.
  destruct (FallStroke.stroke_module it1 (FallStroke.multi_face_landmarks fr))
    as [ it2 | ]; [ | discriminate ].
  rewrite Eh in Hstep. unfold FallStroke.gesture_module in Hstep.
  cbn [FallStroke.hand_loop] in Hstep.
  unfold FallStroke.hand_iteration in Hstep. rewrite El, Ef, Eg in Hstep.
  pose proof (fs_identify_label f g Eg) as Lg.
  unfold FallStroke.gesture_block in Hstep.
  rewrite F1, F2, C, eq_opt_str_same in Hstep.
  apply Qgtb_true_iff in H. rewrite H in Hstep.
  destruct (String.eqb g "THUMB_EMERGENCY") eqn:Et.
  - apply String.eqb_eq in Et. subst g. right.
    change (truthy_opt (Some "THUMB_EMERGENCY")) with true in Hstep.
    cbv iota in Hstep. injection Hstep as <- <-.
    split; [ reflexivity | split; reflexivity ].
  - assert (N : g <> "THUMB_EMERGENCY")
      by (intro K; subst g; discriminate Et).
    destruct (fs_plain_label_no_emergency g Lg N) as [_ [P T]].
    left. split; [ exact N | ].
    change (truthy_opt (Some g)) with (truthy_str g) in Hstep.
    rewrite T in Hstep.
    cbn [FallStroke.confirmed_text FallStroke.set_confirmed_text] in Hstep.
    rewrite P in Hstep. cbn [negb] in Hstep.
    injection Hstep as <- <-.
    unfold FallStroke.compose_display.
    cbn [FallStroke.status_line FallStroke.display_color
         FallStroke.confirmed_text FallStroke.set_confirmed_text
         FallStroke.status_color FallStroke.set_status_color].
    rewrite P. split; reflexivity.
Qed.

Lemma X18_witness :
  exists s' d,
    FallStroke.frame_step
      (FallStroke.mkState (Some 100) true (Some "Need Water/Food") 102
                          "Monitoring Active")
      (FallStroke.mkFrame false [] [sample_hand 0 1 (-1)] ["Left"]
                          106 106 (fun _ => 106))
      = Some (s', d) /\
    FallStroke.banner d = Some "ALERT: FALL DETECTED / PATIENT MISSING" /\
    FallStroke.status_line d = "Status: Need Water/Food" /\
    FallStroke.display_color d = GREEN.
Proof.
  eexists. eexists. split; [ reflexivity | ]. split; [ reflexivity | ].
  destruct (X18_status_colour_on_a_confirming_frame
              (FallStroke.mkState (Some 100) true (Some "Need Water/Food") 102
                                  "Monitoring Active")
              _
              (FallStroke.mkFrame false [] [sample_hand 0 1 (-1)] ["Left"]
                                  106 106 (fun _ => 106))
              _ (sample_hand 0 1 (-1)) "Left" "Need Water/Food"
              [1; 1; 0; 0; 0]%Z
              eq_refl eq_refl eq_refl eq_refl eq_refl eq_refl eq_refl)
    as [ [_ [A B]] | [E _] ].
  - split; [ exact A | exact B ].
  - discriminate E.
Defined.

(* ------------------------------------------------------------------ *)
(** ** A flag that is written but never read *)

Lemma fs_block_iter_same (s1 s2 : FallStroke.State) (it : FallStroke.Iter)
    (gesture : option string) (now : Q) :
  same_gesture_fields s1 s2 ->
  snd (FallStroke.gesture_block s1 it gesture now)
    = snd (FallStroke.gesture_block s2 it gesture now).
Proof.
  intros [E1 [E2 _]]. unfold FallStroke.gesture_block. rewrite E1, E2.
  destruct (truthy_opt gesture); [ | reflexivity ].
  destruct (eq_opt_str _ _); [ | reflexivity ].
  destruct (Qgtb _ _); [ | reflexivity ].
  destruct (String.eqb _ _); [ reflexivity | ].
  cbn [FallStroke.confirmed_text FallStroke.set_confirmed_text].
  destruct (negb _); reflexivity.
Qed.

Lemma fs_hand_loop_iter_same (handedness : list string) (clock : nat -> Q)
    (hands : list Hand) :
  forall (idx : nat) (s1 s2 s1' s2' : FallStroke.State)
         (it it1' it2' : FallStroke.Iter),
    same_gesture_fields s1 s2 ->
    FallStroke.hand_loop s1 it handedness clock idx hands = Some (s1', it1') ->
    FallStroke.hand_loop s2 it handedness clock idx hands = Some (s2', it2') ->
    it1' = it2' /\ same_gesture_fields s1' s2'.
Proof.
  induction hands as [ | h hands IH ];
    intros idx s1 s2 s1' s2' it it1' it2' E H1 H2.
  - injection H1 as <- <-. injection H2 as <- <-. split; [ reflexivity | exact E ].
  - cbn [FallStroke.hand_loop] in H1, H2.
    unfold FallStroke.hand_iteration in H1, H2.
    destruct (nth_error handedness idx) as [ label | ]; [ | discriminate ].
    destruct (get_fingers_status h label) as [ f | ]; [ | discriminate ].
    pose proof (fs_block_iter_same s1 s2 it (FallStroke.identify_gesture f)
                  (clock idx) E) as Ki.
    destruct E as [E1 [E2 E3]].
    pose proof (fs_block_gesture_fields s1 s2 it it
                  (FallStroke.identify_gesture f) (clock idx) E1 E2 E3) as Ks.
    destruct (FallStroke.gesture_block s1 it (FallStroke.identify_gesture f)
                                       (clock idx)) as [sa ia].
    destruct (FallStroke.gesture_block s2 it (FallStroke.identify_gesture f)
                                       (clock idx)) as [sb ib].
    cbn [fst snd] in Ki, Ks. subst ib.
    exact (IH (S idx) sa sb s1' s2' ia it1' it2' Ks H1 H2).
Qed.

(** X19.  [fall_alert_active] is written but never read: two states of
    [gesture_fall_storke.py] that differ in this flag at most show exactly
    the same display on any frame and then again differ in this flag at
    most. *)
Theorem X19_fall_alert_flag_is_never_read :
  forall (sa sb sa' sb' : FallStroke.State) (fr : FallStroke.Frame)
         (da db : FallStroke.Display),
    same_gesture_fields sa sb ->
    FallStroke.body_missing_start sa = FallStroke.body_missing_start sb ->
    FallStroke.frame_step sa fr = Some (sa', da) ->
    FallStroke.frame_step sb fr = Some (sb', db) ->
    da = db /\
    same_gesture_fields sa' sb' /\
    FallStroke.body_missing_start sa' = FallStroke.body_missing_start sb'.
Proof.
  intros sa sb sa' sb' fr da db E Eb Ha Hb.
  unfold FallStroke.frame_step in Ha, Hb.
  pose proof (fs_fall_gesture_fields sa FallStroke.iter_start
                (FallStroke.pose_landmarks fr) (FallStroke.t_missing_start fr)
                (FallStroke.t_elapsed fr)) as Ga.
  pose proof (fs_fall_gesture_fields sb FallStroke.iter_start
                (FallStroke.pose_landmarks fr) (FallStroke.t_missing_start fr)
                (FallStroke.t_elapsed fr)) as Gb.
  assert (Fi : snd (FallStroke.fall_module sa FallStroke.iter_start
                      (FallStroke.pose_landmarks fr)
                      (FallStroke.t_missing_start fr) (FallStroke.t_elapsed fr))
               = snd (FallStroke.fall_module sb FallStroke.iter_start
                        (FallStroke.pose_landmarks fr)
                        (FallStroke.t_missing_start fr) (FallStroke.t_elapsed fr))
               /\
               FallStroke.body_missing_start
                 (fst (FallStroke.fall_module sa FallStroke.iter_start
                         (FallStroke.pose_landmarks fr)
                         (FallStroke.t_missing_start fr)
                         (FallStroke.t_elapsed fr)))
               = FallStroke.body_missing_start
                   (fst (FallStroke.fall_module sb FallStroke.iter_start
                           (FallStroke.pose_landmarks fr)
                           (FallStroke.t_missing_start fr)
                           (FallStroke.t_elapsed fr)))).
  { unfold FallStroke.fall_module.
    destruct (FallStroke.pose_landmarks fr); cbn [negb]; cbv zeta;
      [ split; reflexivity | ].
    rewrite Eb. destruct (Qgtb _ _); split; reflexivity. }
  destruct (FallStroke.fall_module sa FallStroke.iter_start
              (FallStroke.pose_landmarks fr) (FallStroke.t_missing_start fr)
              (FallStroke.t_elapsed fr)) as [sa1 ia1].
  destruct (FallStroke.fall_module sb FallStroke.iter_start
              (FallStroke.pose_landmarks fr) (FallStroke.t_missing_start fr)
              (FallStroke.t_elapsed fr)) as [sb1 ib1].
  cbn [fst snd] in Ga, Gb, Fi. destruct Fi as [Fi Fs]. subst ib1.
  assert (E1 : same_gesture_fields sa1 sb1).
  { destruct E as [E1 [E2 E3]]. destruct Ga as [Ga1 [Ga2 Ga3]].
    destruct Gb as [Gb1 [Gb2 Gb3]]. unfold same_gesture_fields.
    repeat split; congruence. }
  destruct (FallStroke.stroke_module ia1 (FallStroke.multi_face_landmarks fr))
    as [ ia2 | ]; [ | discriminate ].
  destruct (FallStroke.gesture_module sa1 ia2 (FallStroke.multi_hand_landmarks fr)
              (FallStroke.multi_handedness fr) (FallStroke.t_hand fr))
    as [ [sa3 ia3] | ] eqn:Ea; [ | discriminate ].
  destruct (FallStroke.gesture_module sb1 ia2 (FallStroke.multi_hand_landmarks fr)
              (FallStroke.multi_handedness fr) (FallStroke.t_hand fr))
    as [ [sb3 ib3] | ] eqn:Eb3; [ | discriminate ].
  injection Ha as <- <-. injection Hb as <- <-.
  destruct (fs_gesture_module_kept _ _ _ _ _ _ _ Ea) as [Ka _].
  destruct (fs_gesture_module_kept _ _ _ _ _ _ _ Eb3) as [Kb _].
  assert (R : ia3 = ib3 /\ same_gesture_fields sa3 sb3).
  { unfold FallStroke.gesture_module in Ea, Eb3.
    destruct (FallStroke.multi_hand_landmarks fr) as [ | h hands ].
    - injection Ea as <- <-. injection Eb3 as <- <-.
      split; [ reflexivity | ].
      destruct E1 as [_ [E2 E3]]. unfold same_gesture_fields. cbn.
      repeat split; assumption.
    - exact (fs_hand_loop_iter_same _ _ _ _ _ _ _ _ _ _ _ E1 Ea Eb3). }
  destruct R as [Ri Rs]. subst ib3.
  split; [ | split; [ exact Rs | congruence ] ].
  unfold FallStroke.compose_display. destruct Rs as [_ [_ R3]].
  rewrite R3. reflexivity.
Qed.

Lemma X19_witness :
  exists sa' sb' d,
    FallStroke.frame_step (missing_since_state 100) (skewed_face_frame 103)
      = Some (sa', d) /\
    FallStroke.frame_step
      (FallStroke.set_fall_alert_active true (missing_since_state 100))
      (skewed_face_frame 103) = Some (sb', d).
Proof.
  eexists. eexists. eexists. split; [ reflexivity | ].
  rewrite (proj1 (X19_fall_alert_flag_is_never_read
                    (missing_since_state 100)
                    (FallStroke.set_fall_alert_active true
                       (missing_since_state 100))
                    _ _ (skewed_face_frame 103) _ _
                    ltac:(repeat split) eq_refl eq_refl eq_refl)).
  reflexivity.
Defined.
